(** * NetMark: stress-test metrics of the attendance server and its load tester

    A shallow embedding of the scalability-metrics part of
    [Server_regNoSend.py] (request interceptor, start/stop handlers, metrics
    and report reducers, CSV sink) and of the statistics part of
    [load_test.py] (the [LoadTester] class), followed by the properties of the
    specification that were checked against them.

    Conventions of the embedding:
    - Python [int] is [Z]; Python [float] durations are exact rationals [Q],
      except for the product [n * 0.95] / [n * 0.99] inside [int(...)], which
      is modelled bit-exactly as an IEEE-754 binary64 multiplication
      (module [PyFloat]);
    - a square root [v ** 0.5] is kept symbolically (type [Py.root]) and
      interpreted in the reals by [Py.root_val];
    - a Python [dict] is an association list in insertion order;
    - an operation that raises returns [None]; the handlers turn that into the
      500 response of their [except Exception] clause;
    - the clock readings ([time.perf_counter()], [datetime.now()]) and the
      outcome of a network call are inputs of the functions that read them. *)

From Stdlib Require Import ZArith QArith Qround List String Bool Lia Lra.
From Stdlib Require Import Permutation Sorted Reals Qreals.
Import ListNotations.

Local Open Scope Z_scope.

(* ================================================================== *)
(** ** IEEE-754 binary64 products [n * c] for a non-negative int [n]   *)
(* ================================================================== *)

Module PyFloat.

(** Significand of the double nearest to 0.95, [0x1.e666666666666p-1]:
    the double is [m_095 / 2^53]. *)
Definition m_095 : Z := 8556839292003942.

(** Significand of the double nearest to 0.99, [0x1.fae147ae147aep-1]. *)
Definition m_099 : Z := 8917127262193582.

(** Round a non-negative integer to 53 significant bits, ties to even. *)
Definition round53 (p : Z) : Z :=
  let e := Z.log2 p - 52 in
  if e <=? 0 then p
  else
    let q := p / 2 ^ e in
    let r := p mod 2 ^ e in
    let half := 2 ^ (e - 1) in
    let q' := if (half <? r) || ((r =? half) && Z.odd q) then q + 1 else q in
    q' * 2 ^ e.

(** [int(n * c)] where [c] is the double [m / 2^53]: [n] is converted to a
    double, the product is rounded to nearest-even, [int] truncates. *)
Definition int_mul (n m : Z) : Z := round53 (round53 n * m) / 2 ^ 53.

End PyFloat.

(* ================================================================== *)
(** ** Python built-ins and the [statistics] module on lists of durations *)
(* ================================================================== *)

Module Py.

(** [len(l)] *)
Definition len {A} (l : list A) : Z := Z.of_nat (List.length l).

(** [l[i]]: negative indices count from the end, out of range raises. *)
Definition getitem {A} (l : list A) (i : Z) : option A :=
  if i <? 0 then
    (if 0 <=? len l + i then nth_error l (Z.to_nat (len l + i)) else None)
  else nth_error l (Z.to_nat i).

(** [sum(l)]: left to right from 0. *)
Definition sum (l : list Q) : Q := fold_left Qplus l 0%Q.

Fixpoint insert (x : Q) (l : list Q) : list Q :=
  match l with
  | [] => [x]
  | y :: l' => if Qle_bool x y then x :: y :: l' else y :: insert x l'
  end.

(** [sorted(l)]: ascending and stable (equal durations keep their order). *)
Fixpoint sorted (l : list Q) : list Q :=
  match l with
  | [] => []
  | x :: l' => insert x (sorted l')
  end.

(** [min(l)] and [max(l)]: the first extreme element, raise on []. *)
Definition min (l : list Q) : option Q :=
  match l with
  | [] => None
  | x :: l' => Some (fold_left (fun m y => if Qle_bool m y then m else y) l' x)
  end.

Definition max (l : list Q) : option Q :=
  match l with
  | [] => None
  | x :: l' => Some (fold_left (fun m y => if Qle_bool y m then m else y) l' x)
  end.

(** [sum((t - mean) ** 2 for t in l)] *)
Definition sum_sq_dev (mean : Q) (l : list Q) : Q :=
  sum (map (fun t => (t - mean) * (t - mean))%Q l).

(** A value [root_coef * sqrt(root_radicand)], the result of [v ** 0.5]
    possibly scaled afterwards. *)
Record root := { root_coef : Q; root_radicand : Q }.

Definition sqrt_of (v : Q) : root := {| root_coef := 1; root_radicand := v |}.
Definition root_scale (r : root) (k : Q) : root :=
  {| root_coef := (root_coef r * k)%Q; root_radicand := root_radicand r |}.
Definition root_zero : root := {| root_coef := 0; root_radicand := 0 |}.

Definition root_val (r : root) : R :=
  (Q2R (root_coef r) * sqrt (Q2R (root_radicand r)))%R.

(** [statistics.mean] *)
Definition statistics_mean (data : list Q) : option Q :=
  match data with
  | [] => None
  | _ => Some (sum data / inject_Z (len data))%Q
  end.

(** [statistics.median]: the middle element of the sorted data for odd
    length, the mean of the two middle elements for even length. *)
Definition statistics_median (data : list Q) : option Q :=
  let data := sorted data in
  let n := len data in
  if n =? 0 then None
  else if n mod 2 =? 1 then getitem data (n / 2)
  else
    let i := n / 2 in
    match getitem data (i - 1), getitem data i with
    | Some a, Some b => Some ((a + b) / 2)%Q
    | _, _ => None
    end.

(** [statistics.variance]: the sample variance, divisor [n - 1]. *)
Definition statistics_variance (data : list Q) : option Q :=
  let n := len data in
  if n <? 2 then None
  else
    let mean := (sum data / inject_Z n)%Q in
    Some (sum_sq_dev mean data / inject_Z (n - 1))%Q.

(** [statistics.stdev] *)
Definition statistics_stdev (data : list Q) : option root :=
  match statistics_variance data with
  | Some v => Some (sqrt_of v)
  | None => None
  end.

End Py.

(* ================================================================== *)
(** ** [Server_regNoSend.py]: metrics store, interceptor, controller, reducers *)
(* ================================================================== *)

Module Server.

Notation "x <- e ;; k" :=
  (match e with Some x => k | None => None end)
  (at level 61, e at next level, right associativity).

Definition endpoint := string.
Bind Scope string_scope with endpoint.

(** The global [_scalability_metrics]. *)
Record metrics := {
  response_times : list (endpoint * list Q);
  concurrent_requests : Z;
  total_requests : Z;
  failed_requests : Z;
  start_time : option Q;
  test_active : bool
}.

(** Its value when the module is loaded. *)
Definition initial : metrics :=
  {| response_times := []; concurrent_requests := 0; total_requests := 0;
     failed_requests := 0; start_time := None; test_active := false |}.

(** [d[k].append(v)] on a [defaultdict(list)]. *)
Fixpoint dd_append {A} (d : list (string * list A)) (k : string) (v : A)
  : list (string * list A) :=
  match d with
  | [] => [(k, [v])]
  | (k', l) :: d' =>
      if String.eqb k' k then (k', l ++ [v]) :: d'
      else (k', l) :: dd_append d' k v
  end.

(** [d[k] = v] on a [dict]. *)
Fixpoint dict_set {A} (d : list (string * A)) (k : string) (v : A)
  : list (string * A) :=
  match d with
  | [] => [(k, v)]
  | (k', v') :: d' =>
      if String.eqb k' k then (k', v) :: d' else (k', v') :: dict_set d' k v
  end.

(** [d.get(k, default)] *)
Fixpoint dict_get {A} (d : list (string * A)) (k : string) (default : A) : A :=
  match d with
  | [] => default
  | (k', v) :: d' => if String.eqb k' k then v else dict_get d' k default
  end.

(** *** Request interceptor *)

(** [before_request]: the value of the per-request attribute
    [request.start_time] ([None]: the attribute is not set). *)
Definition before_request (now : Q) (s : metrics) : option Q :=
  if test_active s then Some now else None.

(** The body of [with _metrics_lock:] in [after_request]. *)
Definition record (ep : endpoint) (response_time : Q) (status_code : Z)
    (s : metrics) : metrics :=
  {| response_times := dd_append (response_times s) ep response_time;
     concurrent_requests := concurrent_requests s;
     total_requests := total_requests s + 1;
     failed_requests :=
       if 400 <=? status_code then failed_requests s + 1
       else failed_requests s;
     start_time := start_time s;
     test_active := test_active s |}.

(** [after_request]; [req_start] is [request.start_time], [ep] is
    [request.endpoint or request.path]. *)
Definition after_request (req_start : option Q) (now : Q) (ep : endpoint)
    (status_code : Z) (s : metrics) : metrics :=
  if test_active s then
    match req_start with
    | Some t0 => record ep (now - t0)%Q status_code s
    | None => s
    end
  else s.

(** *** Reducers *)

(** [times_sorted[int(n * c)] if n > 1 else times[0]], [c] the double
    [m / 2^53]. *)
Definition percentile (m : Z) (times : list Q) : option Q :=
  let times_sorted := Py.sorted times in
  let n := Py.len times in
  if 1 <? n then Py.getitem times_sorted (PyFloat.int_mul n m)
  else Py.getitem times 0.

(** [(total_requests - failed_requests) / max(total_requests, 1)] *)
Definition success_rate (s : metrics) : Q :=
  (inject_Z (total_requests s - failed_requests s)
   / inject_Z (Z.max (total_requests s) 1))%Q.

(** [time.perf_counter() - start_time if start_time else 0] *)
Definition elapsed_time (now : Q) (s : metrics) : Q :=
  match start_time s with
  | Some t0 => if Qeq_bool t0 0 then 0%Q else (now - t0)%Q
  | None => 0%Q
  end.

(** The loop [for endpoint, times in response_times.items(): if times: ...]
    filling a result dict with [f times]. *)
Fixpoint analyse {A} (f : list Q -> option A)
    (items : list (endpoint * list Q)) (acc : list (endpoint * A))
  : option (list (endpoint * A)) :=
  match items with
  | [] => Some acc
  | (ep, times) :: rest =>
      match times with
      | [] => analyse f rest acc
      | _ :: _ => e <- f times ;; analyse f rest (dict_set acc ep e)
      end
  end.

(** One value of [endpoint_metrics] in [get_scalability_metrics]. *)
Record endpoint_metrics := {
  em_total_requests : Z;
  em_mean_response_time : Q;
  em_median_response_time : Q;
  em_min_response_time : Q;
  em_max_response_time : Q;
  em_p95_response_time : Q;
  em_p99_response_time : Q
}.

Definition endpoint_metrics_of (times : list Q) : option endpoint_metrics :=
  let times_sorted := Py.sorted times in
  let n := Py.len times in
  mean <- (if n =? 0 then None else Some (Py.sum times / inject_Z n)%Q) ;;
  median <- (if 0 <? n then Py.getitem times_sorted (n / 2) else Some 0%Q) ;;
  lo <- Py.min times ;;
  hi <- Py.max times ;;
  p95 <- percentile PyFloat.m_095 times ;;
  p99 <- percentile PyFloat.m_099 times ;;
  Some {| em_total_requests := n;
          em_mean_response_time := mean;
          em_median_response_time := median;
          em_min_response_time := lo;
          em_max_response_time := hi;
          em_p95_response_time := p95;
          em_p99_response_time := p99 |}.

(** The JSON object returned by [get_scalability_metrics]. *)
Record metrics_view := {
  mv_concurrent_users : Z;
  mv_total_requests : Z;
  mv_failed_requests : Z;
  mv_success_rate : Q;
  mv_test_active : bool;
  mv_endpoint_metrics : list (endpoint * endpoint_metrics);
  mv_elapsed_time : Q
}.

(** One value of [endpoint_analysis] in [generate_scalability_report]. *)
Record endpoint_analysis := {
  ea_total_requests : Z;
  ea_mean_response_time_ms : Q;
  ea_median_response_time_ms : Q;
  ea_std_dev_ms : Py.root;
  ea_min_response_time_ms : Q;
  ea_max_response_time_ms : Q;
  ea_p95_response_time_ms : Q;
  ea_p99_response_time_ms : Q;
  ea_throughput_rps : Q;
  ea_error_rate : Q
}.

(** [variance = sum((t - mean_time) ** 2 for t in times) / n] *)
Definition variance (times : list Q) : Q :=
  let n := Py.len times in
  let mean_time := (Py.sum times / inject_Z n)%Q in
  (Py.sum_sq_dev mean_time times / inject_Z n)%Q.

Definition endpoint_analysis_of (failed : Z) (elapsed : Q) (times : list Q)
  : option endpoint_analysis :=
  let times_sorted := Py.sorted times in
  let n := Py.len times in
  mean_time <- (if n =? 0 then None else Some (Py.sum times / inject_Z n)%Q) ;;
  let throughput :=
    if Qle_bool elapsed 0 then 0%Q else (inject_Z n / elapsed)%Q in
  let std_dev := Py.sqrt_of (variance times) in
  median <- Py.getitem times_sorted (n / 2) ;;
  lo <- Py.min times ;;
  hi <- Py.max times ;;
  p95 <- percentile PyFloat.m_095 times ;;
  p99 <- percentile PyFloat.m_099 times ;;
  Some {| ea_total_requests := n;
          ea_mean_response_time_ms := (mean_time * 1000)%Q;
          ea_median_response_time_ms := (median * 1000)%Q;
          ea_std_dev_ms := Py.root_scale std_dev 1000;
          ea_min_response_time_ms := (lo * 1000)%Q;
          ea_max_response_time_ms := (hi * 1000)%Q;
          ea_p95_response_time_ms := (p95 * 1000)%Q;
          ea_p99_response_time_ms := (p99 * 1000)%Q;
          ea_throughput_rps := throughput;
          ea_error_rate := (inject_Z failed / inject_Z (Z.max n 1))%Q |}.

Record test_summary := {
  ts_concurrent_users : Z;
  ts_total_requests : Z;
  ts_failed_requests : Z;
  ts_success_rate : Q;
  ts_elapsed_time : Q
}.

(** The [report] dict of [generate_scalability_report]. *)
Record report := {
  rp_timestamp : string;
  rp_test_summary : test_summary;
  rp_endpoint_analysis : list (endpoint * endpoint_analysis)
}.

(** *** HTTP responses: [(jsonify(body), status)] *)

(** [BError] carries the text of the ["error"] field; in the 500 answers of
    the [except Exception] clauses it is the fixed prefix of the message,
    without the text of the exception.  [BMetrics] and [BReport] carry the
    dict that the handler passes to [jsonify], whose entries are in insertion
    order; [jsonify] writes the keys of a JSON object sorted, so the order of
    the entries is that of the handler's dict (and of the CSV rows), not that
    of the text of the answer. *)

Inductive body :=
| BError (error : string)
| BStarted (concurrentUsers : Z)
| BStopped
| BMetrics (m : metrics_view)
| BReport (r : report).

Definition response := (body * Z)%type.

(** *** Test controller *)

(** A JSON value found under a key of the request body; for a value that is
    not an integer, [as_int] is what [int(value)] gives ([None]: it raises). *)
Inductive json :=
| JInt (z : Z)
| JOther (as_int : option Z).

Definition py_int (v : json) : option Z :=
  match v with
  | JInt z => Some z
  | JOther r => r
  end.

(** What [request.get_json()] does on the request. *)
Inductive json_body :=
| NoJson                                   (* returns None *)
| JsonObject (d : list (string * json))    (* returns a dict *)
| JsonNotObject (truthy : bool)            (* returns a non-dict value *)
| Malformed.                               (* raises *)

(** [data = request.get_json() or {}] followed by
    [data.get('concurrentUsers', 10)]; [None] when one of them raises. *)
Definition requested_users (b : json_body) : option json :=
  match b with
  | NoJson => Some (JInt 10)
  | JsonObject d => Some (dict_get d "concurrentUsers"%string (JInt 10))
  | JsonNotObject false => Some (JInt 10)
  | JsonNotObject true => None
  | Malformed => None
  end.

(** The body of [with _metrics_lock:] in [start_stress_test]. *)
Definition reset (concurrent_users : Z) (now : Q) : metrics :=
  {| response_times := [];
     concurrent_requests := concurrent_users;
     total_requests := 0;
     failed_requests := 0;
     start_time := Some now;
     test_active := true |}.

Definition start_stress_test (b : json_body) (now : Q) (s : metrics)
  : response * metrics :=
  match v <- requested_users b ;; py_int v with
  | None => ((BError "Error starting stress test", 500), s)
  | Some concurrent_users =>
      if (concurrent_users <? 1) || (1000 <? concurrent_users) then
        ((BError "concurrentUsers must be between 1 and 1000", 400), s)
      else
        ((BStarted concurrent_users, 200), reset concurrent_users now)
  end.

(** The body of [with _metrics_lock:] in [stop_stress_test]. *)
Definition freeze (s : metrics) : metrics :=
  {| response_times := response_times s;
     concurrent_requests := concurrent_requests s;
     total_requests := total_requests s;
     failed_requests := failed_requests s;
     start_time := start_time s;
     test_active := false |}.

Definition stop_stress_test (s : metrics) : response * metrics :=
  ((BStopped, 200), freeze s).

(** *** Metrics and report handlers *)

Definition get_scalability_metrics (now : Q) (s : metrics) : response :=
  match analyse endpoint_metrics_of (response_times s) [] with
  | None => (BError "Error getting metrics", 500)
  | Some em =>
      (BMetrics {| mv_concurrent_users := concurrent_requests s;
                   mv_total_requests := total_requests s;
                   mv_failed_requests := failed_requests s;
                   mv_success_rate := success_rate s;
                   mv_test_active := test_active s;
                   mv_endpoint_metrics := em;
                   mv_elapsed_time := elapsed_time now s |}, 200)
  end.

(** A line of [scalability_metrics.csv]; the data line keeps the values that
    the code prints with a fixed number of decimals. *)
Inductive csv_row :=
| Header
| Data (timestamp : string) (ep : endpoint)
       (concurrent_users total failed : Z)
       (success_rate mean_ms median_ms p95_ms p99_ms throughput error_rate : Q).

(** The file [scalability_metrics.csv]; [None]: it does not exist. *)
Definition csv_file := option (list csv_row).

Definition _save_scalability_report (r : report) (f : csv_file) : csv_file :=
  let rows :=
    map (fun '(ep, m) =>
           Data (rp_timestamp r) ep
                (ts_concurrent_users (rp_test_summary r))
                (ea_total_requests m)
                (ts_failed_requests (rp_test_summary r))
                (ts_success_rate (rp_test_summary r))
                (ea_mean_response_time_ms m)
                (ea_median_response_time_ms m)
                (ea_p95_response_time_ms m)
                (ea_p99_response_time_ms m)
                (ea_throughput_rps m)
                (ea_error_rate m))
        (rp_endpoint_analysis r) in
  match f with
  | None => Some (Header :: rows)
  | Some old => Some (old ++ rows)
  end.

(** [timestamp] is [datetime.datetime.now().isoformat()], [now] is
    [time.perf_counter()], both read while the report is built. *)
Definition generate_scalability_report (timestamp : string) (now : Q)
    (s : metrics) (f : csv_file) : response * csv_file :=
  match response_times s with
  | [] => ((BError "No metrics collected yet. Run stress test first.", 400), f)
  | _ :: _ =>
      let summary :=
        {| ts_concurrent_users := concurrent_requests s;
           ts_total_requests := total_requests s;
           ts_failed_requests := failed_requests s;
           ts_success_rate := success_rate s;
           ts_elapsed_time := elapsed_time now s |} in
      match analyse (endpoint_analysis_of (failed_requests s)
                                          (ts_elapsed_time summary))
                    (response_times s) [] with
      | None => ((BError "Error generating report", 500), f)
      | Some ea =>
          let r := {| rp_timestamp := timestamp;
                      rp_test_summary := summary;
                      rp_endpoint_analysis := ea |} in
          ((BReport r, 200), _save_scalability_report r f)
      end
  end.

(** *** Runs: the critical sections executed by the request handlers *)

(** Every mutation of [_scalability_metrics] happens inside
    [with _metrics_lock:], so a run of the server is a sequence of these
    critical sections, in the order in which the lock was taken.  [Record]
    is the section of [after_request] (it runs whatever [test_active] is by
    then: the flag is read before the lock is taken), [Start] a call of
    [start_stress_test] (its section runs only when the input is valid),
    [Stop] a call of [stop_stress_test]. *)
Inductive op :=
| Record (ep : endpoint) (response_time : Q) (status_code : Z)
| Start (b : json_body) (now : Q)
| Stop.

Definition step (s : metrics) (o : op) : metrics :=
  match o with
  | Record ep t c => record ep t c s
  | Start b now => snd (start_stress_test b now s)
  | Stop => snd (stop_stress_test s)
  end.

Definition run (ops : list op) (s : metrics) : metrics := fold_left step ops s.

(** The sum of the lengths of the per-endpoint sample sequences. *)
Definition sample_count (s : metrics) : Z :=
  fold_right (fun '(_, times) acc => Py.len times + acc) 0 (response_times s).

(** A request handled from [before_request] to [after_request] with no other
    request in between; [status] is the status of the response of a route
    outside the controller. *)
Inductive request :=
| PostStart (b : json_body)
| PostStop
| Other (ep : endpoint) (status : Z).

Definition handle (r : request) (t_in t_handler t_out : Q) (s : metrics)
  : metrics :=
  let req_start := before_request t_in s in
  match r with
  | PostStart b =>
      let '((_, status), s') := start_stress_test b t_handler s in
      after_request req_start t_out "start_stress_test"%string status s'
  | PostStop =>
      let '((_, status), s') := stop_stress_test s in
      after_request req_start t_out "stop_stress_test"%string status s'
  | Other ep status => after_request req_start t_out ep status s
  end.

(** Requests handled one after the other, each with its three clock
    readings. *)
Definition serve (reqs : list (request * (Q * Q * Q))) (s : metrics)
  : metrics :=
  fold_left
    (fun s '(r, (t_in, t_handler, t_out)) => handle r t_in t_handler t_out s)
    reqs s.

(** Samples of a run as the interceptor saw them, for comparison with what
    the report says: number of [Record]s of a run for one endpoint, and the
    number of those with a failure status. *)
Definition is_record_of (ep : endpoint) (o : op) : bool :=
  match o with
  | Record ep' _ _ => String.eqb ep' ep
  | _ => false
  end.

Definition is_failed (o : op) : bool :=
  match o with
  | Record _ _ c => 400 <=? c
  | _ => false
  end.

Definition samples_in_bucket (ep : endpoint) (ops : list op) : Z :=
  Py.len (filter (is_record_of ep) ops).

Definition failed_in_bucket (ep : endpoint) (ops : list op) : Z :=
  Py.len (filter (fun o => is_record_of ep o && is_failed o) ops).

Definition failed_in_run (ops : list op) : Z :=
  Py.len (filter is_failed ops).

End Server.

(* ================================================================== *)
(** ** [load_test.py]: the [LoadTester] class                          *)
(* ================================================================== *)

Module LoadTest.

Notation "x <- e ;; k" :=
  (match e with Some x => k | None => None end)
  (at level 61, e at next level, right associativity).

(** An entry of [self.errors]. *)
Inductive error_entry :=
| HttpError (request_id : Z) (status_code : Z) (response_time : Q)
| NetworkError (request_id : Z) (error : string) (response_time : Q).

(** The mutable fields of a [LoadTester]: [self.results['response_times']],
    [self.results['status_codes']] and [self.errors]. *)
Record tester := {
  response_times : list Q;
  status_codes : list Z;
  errors : list error_entry
}.

(** After [__init__]. *)
Definition init : tester :=
  {| response_times := []; status_codes := []; errors := [] |}.

(** What [requests.get(url, timeout=10)] does. *)
Inductive outcome :=
| Response (status_code : Z)
| Raises (error : string).

(** The dict returned by [make_request]. *)
Record request_result := {
  rr_request_id : Z;
  rr_status_code : Z;
  rr_response_time : Q;
  rr_success : bool;
  rr_error : option string
}.

(** [make_request]; [elapsed_time] is [time.perf_counter() - start_time]
    read when the call returned or raised. *)
Definition make_request (request_id : Z) (net : outcome) (elapsed_time : Q)
    (t : tester) : request_result * tester :=
  match net with
  | Response status_code =>
      ({| rr_request_id := request_id;
          rr_status_code := status_code;
          rr_response_time := elapsed_time;
          rr_success := status_code <? 400;
          rr_error := None |},
       {| response_times := response_times t ++ [elapsed_time];
          status_codes := status_codes t ++ [status_code];
          errors :=
            if 400 <=? status_code
            then errors t ++ [HttpError request_id status_code elapsed_time]
            else errors t |})
  | Raises e =>
      ({| rr_request_id := request_id;
          rr_status_code := 0;
          rr_response_time := elapsed_time;
          rr_success := false;
          rr_error := Some e |},
       {| response_times := response_times t;
          status_codes := status_codes t;
          errors := errors t ++ [NetworkError request_id e elapsed_time] |})
  end.

(** The [stats] dict of [run_test]. *)
Record stats := {
  total_requests : Z;
  successful_requests : Z;
  failed_requests : Z;
  success_rate : Q;
  total_time_seconds : Q;
  throughput_rps : Q;
  mean_response_time_ms : Q;
  median_response_time_ms : Q;
  min_response_time_ms : Q;
  max_response_time_ms : Q;
  std_dev_ms : Py.root;
  p95_response_time_ms : Q;
  p99_response_time_ms : Q
}.

(** [sorted_times[int(n * c)] if n > 1 else sorted_times[0]] *)
Definition percentile (m : Z) (response_times : list Q) : option Q :=
  let sorted_times := Py.sorted response_times in
  let n := Py.len sorted_times in
  if 1 <? n then Py.getitem sorted_times (PyFloat.int_mul n m)
  else Py.getitem sorted_times 0.

(** The part of [run_test] after the threads are joined ("Calculate
    statistics"); [None] is the Python [None] returned when no response time
    was collected, [Some None] would be an exception. *)
Definition calculate_statistics (total_time : Q) (t : tester)
  : option (option stats) :=
  let response_times := response_times t in
  let total_requests := Py.len response_times in
  let successful_requests :=
    Py.len (filter (fun sc => sc <? 400) (status_codes t)) in
  let failed_requests := total_requests - successful_requests in
  match response_times with
  | [] => None
  | _ :: _ =>
      Some (
        mean <- Py.statistics_mean response_times ;;
        median <- Py.statistics_median response_times ;;
        lo <- Py.min response_times ;;
        hi <- Py.max response_times ;;
        std_dev <- (if 1 <? Py.len response_times
                    then sd <- Py.statistics_stdev response_times ;;
                         Some (Py.root_scale sd 1000)
                    else Some Py.root_zero) ;;
        p95 <- percentile PyFloat.m_095 response_times ;;
        p99 <- percentile PyFloat.m_099 response_times ;;
        Some {| total_requests := total_requests;
                successful_requests := successful_requests;
                failed_requests := failed_requests;
                success_rate :=
                  if 0 <? total_requests
                  then (inject_Z successful_requests / inject_Z total_requests)%Q
                  else 0%Q;
                total_time_seconds := total_time;
                throughput_rps :=
                  if Qle_bool total_time 0 then 0%Q
                  else (inject_Z total_requests / total_time)%Q;
                mean_response_time_ms := (mean * 1000)%Q;
                median_response_time_ms := (median * 1000)%Q;
                min_response_time_ms := (lo * 1000)%Q;
                max_response_time_ms := (hi * 1000)%Q;
                std_dev_ms := std_dev;
                p95_response_time_ms := (p95 * 1000)%Q;
                p99_response_time_ms := (p99 * 1000)%Q |})
  end.

(** One call of [make_request] made by a simulated user. *)
Record call := {
  call_request_id : Z;
  call_outcome : outcome;
  call_elapsed : Q
}.

(** The tester after the user threads have made [calls], listed in the order
    in which they updated the tester. *)
Definition after_calls (calls : list call) (t : tester) : tester :=
  fold_left
    (fun t c =>
       snd (make_request (call_request_id c) (call_outcome c)
                         (call_elapsed c) t))
    calls t.

(** [run_test] from a fresh tester: the users' calls, then the statistics. *)
Definition run_test (calls : list call) (total_time : Q)
  : option (option stats) :=
  calculate_statistics total_time (after_calls calls init).

(** Number of calls of a run whose network call raised. *)
Definition network_failures (calls : list call) : Z :=
  Py.len (filter (fun c => match call_outcome c with
                           | Raises _ => true
                           | Response _ => false
                           end) calls).

End LoadTest.

(* ================================================================== *)
(** ** The reducer as the specification words it                        *)
(* ================================================================== *)

Module Spec.

(** Rank of a percentile: [floor(n * pct)] clamped to [n - 1]. *)
Definition nearest_rank (pct : Q) (n : Z) : Z :=
  Z.min (Qfloor (inject_Z n * pct)) (n - 1).

(** Arithmetic average. *)
Definition mean (l : list Q) : Q :=
  (fold_right Qplus 0 l / inject_Z (Py.len l))%Q.

(** Sum of the squared distances to the mean. *)
Definition squares (l : list Q) : Q :=
  fold_right (fun t acc => (t - mean l) ^ 2 + acc)%Q 0%Q l.

(** Population variance: divide by [n]. *)
Definition population_variance (l : list Q) : Q :=
  (squares l / inject_Z (Py.len l))%Q.

(** Sample variance: divide by [n - 1]. *)
Definition sample_variance (l : list Q) : Q :=
  (squares l / inject_Z (Py.len l - 1))%Q.

(** The store is consistent: the counter is the number of samples, and no
    bucket is empty. *)
Definition consistent (s : Server.metrics) : Prop :=
  Server.total_requests s = Server.sample_count s /\
  Forall (fun b => snd b <> []) (Server.response_times s).

(** A run without restart. *)
Definition no_start (ops : list Server.op) : bool :=
  forallb (fun o => match o with Server.Start _ _ => false | _ => true end) ops.

(** The fields of a report entry that do not depend on the time at which the
    report is generated (all but the throughput). *)
Definition timeless_entry (e : Server.endpoint_analysis)
  : Server.endpoint_analysis :=
  {| Server.ea_total_requests := Server.ea_total_requests e;
     Server.ea_mean_response_time_ms := Server.ea_mean_response_time_ms e;
     Server.ea_median_response_time_ms := Server.ea_median_response_time_ms e;
     Server.ea_std_dev_ms := Server.ea_std_dev_ms e;
     Server.ea_min_response_time_ms := Server.ea_min_response_time_ms e;
     Server.ea_max_response_time_ms := Server.ea_max_response_time_ms e;
     Server.ea_p95_response_time_ms := Server.ea_p95_response_time_ms e;
     Server.ea_p99_response_time_ms := Server.ea_p99_response_time_ms e;
     Server.ea_throughput_rps := 0;
     Server.ea_error_rate := Server.ea_error_rate e |}.

(** The fields of a report that do not depend on the time at which it is
    generated: all but the timestamp, the elapsed time and the throughputs. *)
Definition timeless (r : Server.report) : Server.report :=
  {| Server.rp_timestamp := EmptyString;
     Server.rp_test_summary :=
       {| Server.ts_concurrent_users :=
            Server.ts_concurrent_users (Server.rp_test_summary r);
          Server.ts_total_requests :=
            Server.ts_total_requests (Server.rp_test_summary r);
          Server.ts_failed_requests :=
            Server.ts_failed_requests (Server.rp_test_summary r);
          Server.ts_success_rate :=
            Server.ts_success_rate (Server.rp_test_summary r);
          Server.ts_elapsed_time := 0 |};
     Server.rp_endpoint_analysis :=
       map (fun '(ep, e) => (ep, timeless_entry e))
           (Server.rp_endpoint_analysis r) |}.

End Spec.

(* ================================================================== *)
(** ** Flask: what [request.get_json()] makes of a request             *)
(* ================================================================== *)

Module Flask.

(** The body of a POST request as the client sent it. *)
Inductive sent_body :=
| NoJsonBody                 (* not declared as JSON (no content type, a form) *)
| Unparsable                 (* declared as JSON, but empty or not JSON text *)
| JsonNull                   (* the JSON text [null] *)
| JsonObj (d : list (string * Server.json))
| JsonValue (truthy : bool). (* any other JSON value *)

(** [request.get_json()] with its default arguments ([force=False],
    [silent=False]).  A body declared as JSON that does not parse (an empty
    one too) raises [BadRequest] in every version of Flask.  A request that
    is not declared as JSON raises [UnsupportedMediaType] since Flask 2.1
    ([since_2_1]), and gave [None] before.  Otherwise [None] is only returned
    for the JSON text [null]. *)
Definition get_json (since_2_1 : bool) (r : sent_body) : Server.json_body :=
  match r with
  | NoJsonBody => if since_2_1 then Server.Malformed else Server.NoJson
  | Unparsable => Server.Malformed
  | JsonNull => Server.NoJson
  | JsonObj d => Server.JsonObject d
  | JsonValue truthy => Server.JsonNotObject truthy
  end.

End Flask.

(* ================================================================== *)
(** ** Stores reached by the server                                    *)
(* ================================================================== *)

Module Reach.

(** The request is a start request that the controller accepts. *)
Definition accepted_start (r : Server.request) : bool :=
  match r with
  | Server.PostStart b =>
      match Server.requested_users b with
      | Some v =>
          match Server.py_int v with
          | Some cu => (1 <=? cu) && (cu <=? 1000)
          | None => false
          end
      | None => false
      end
  | _ => false
  end.

(** What every critical section keeps: endpoints appear once, no bucket is
    empty, the counter is the number of samples, failures are among them. *)
Definition well_formed (s : Server.metrics) : Prop :=
  NoDup (map fst (Server.response_times s)) /\
  Forall (fun b => snd b <> []) (Server.response_times s) /\
  Server.total_requests s = Server.sample_count s /\
  0 <= Server.failed_requests s <= Server.total_requests s.

(** What request handling keeps on top of it: before the first accepted
    start the store is the initial one; from then on a start time and a
    target between 1 and 1000 are set. *)
Definition started_or_initial (s : Server.metrics) : Prop :=
  match Server.start_time s with
  | None => s = Server.initial
  | Some _ => 1 <= Server.concurrent_requests s <= 1000
  end.

(** Sum of the per-endpoint counts of the metrics answer. *)
Definition metrics_count (em : list (Server.endpoint * Server.endpoint_metrics))
  : Z :=
  fold_right (fun b acc => Server.em_total_requests (snd b) + acc) 0 em.

(** Sum of the per-endpoint counts of a report. *)
Definition report_count (ea : list (Server.endpoint * Server.endpoint_analysis))
  : Z :=
  fold_right (fun b acc => Server.ea_total_requests (snd b) + acc) 0 ea.

(** The data row that the sink writes for one entry of a report. *)
Definition row_of (r : Server.report)
    (b : Server.endpoint * Server.endpoint_analysis) : Server.csv_row :=
  Server.Data (Server.rp_timestamp r) (fst b)
    (Server.ts_concurrent_users (Server.rp_test_summary r))
    (Server.ea_total_requests (snd b))
    (Server.ts_failed_requests (Server.rp_test_summary r))
    (Server.ts_success_rate (Server.rp_test_summary r))
    (Server.ea_mean_response_time_ms (snd b))
    (Server.ea_median_response_time_ms (snd b))
    (Server.ea_p95_response_time_ms (snd b))
    (Server.ea_p99_response_time_ms (snd b))
    (Server.ea_throughput_rps (snd b))
    (Server.ea_error_rate (snd b)).

Definition is_data (row : Server.csv_row) : bool :=
  match row with
  | Server.Header => false
  | Server.Data _ _ _ _ _ _ _ _ _ _ _ _ => true
  end.

End Reach.

(* ================================================================== *)
(** ** Successive report requests                                      *)
(* ================================================================== *)

Module Sink.

(** One call of the report handler: the two clock readings and the store at
    that time. *)
Definition call := (string * Q * Server.metrics)%type.

(** The CSV file after successive calls of the report handler. *)
Definition after_reports (calls : list call) (f : Server.csv_file)
  : Server.csv_file :=
  fold_left
    (fun f '(timestamp, now, s) =>
       snd (Server.generate_scalability_report timestamp now s f))
    calls f.

End Sink.

(* ================================================================== *)
(** ** [load_test.py]: the workload of [run_test] and the error listings *)
(* ================================================================== *)

Module Workload.

(** [range(n)] *)
Definition range (n : Z) : list Z := map Z.of_nat (seq 0 (Z.to_nat n)).

(** The request ids that [user_simulation(user_id)] passes to
    [make_request]: [user_id * requests_per_user + i] for [i] in
    [range(requests_per_user)]. *)
Definition user_simulation (requests_per_user user_id : Z) : list Z :=
  map (fun i => user_id * requests_per_user + i) (range requests_per_user).

(** The request ids of all the threads started by [run_test], one thread per
    [user_id] in [range(concurrent_users)]. *)
Definition issued (concurrent_users requests_per_user : Z) : list Z :=
  flat_map (user_simulation requests_per_user) (range concurrent_users).

(** What a call appends to [results['response_times']] and to
    [results['status_codes']]. *)
Definition elapsed_of (c : LoadTest.call) : list Q :=
  match LoadTest.call_outcome c with
  | LoadTest.Response _ => [LoadTest.call_elapsed c]
  | LoadTest.Raises _ => []
  end.

Definition status_of (c : LoadTest.call) : list Z :=
  match LoadTest.call_outcome c with
  | LoadTest.Response sc => [sc]
  | LoadTest.Raises _ => []
  end.

(** What a call appends to [self.errors]. *)
Definition error_of (c : LoadTest.call) : list LoadTest.error_entry :=
  match LoadTest.call_outcome c with
  | LoadTest.Response sc =>
      if 400 <=? sc
      then [LoadTest.HttpError (LoadTest.call_request_id c) sc
              (LoadTest.call_elapsed c)]
      else []
  | LoadTest.Raises e =>
      [LoadTest.NetworkError (LoadTest.call_request_id c) e
         (LoadTest.call_elapsed c)]
  end.

(** A line of the error listing of [print_report], below its
    ["Errors (n):"] line. *)
Inductive error_line :=
| Shown (e : LoadTest.error_entry)       (* "  - {error}" *)
| More (n : Z).                          (* "  ... and {n} more errors" *)

(** The error listing of [print_report(stats)]: nothing when [stats] is
    [None] (the function returns after "No data collected!") or when there is
    no error; else the count logged in the ["Errors (n):"] line and the lines
    that follow. *)
Definition print_report_errors (stats : option LoadTest.stats)
    (errors : list LoadTest.error_entry) : option (Z * list error_line) :=
  match stats with
  | None => None
  | Some _ =>
      match errors with
      | [] => None
      | _ :: _ =>
          Some (Py.len errors,
                map Shown (firstn 5 errors)
                ++ (if 5 <? Py.len errors then [More (Py.len errors - 5)]
                    else []))
      end
  end.

(** The ['errors'] field of the file written by [save_report]:
    [self.errors[:100]]. *)
Definition save_report_errors (errors : list LoadTest.error_entry)
  : list LoadTest.error_entry :=
  firstn 100 errors.

End Workload.

(* ================================================================== *)
(** ** [Server_regNoSend.py]: the face-verification log                *)
(* ================================================================== *)

Module FaceLog.

(** The file [logs.csv] is modelled as the text it holds.  The handler writes
    its fields as they are, without quoting: a registration number or a
    timestamp that contains a comma or a line break is written with it, so
    one write is not always one line of the file, nor three columns. *)

(** The line break ["\n"], character 10. *)
Definition newline : string :=
  String (Ascii.Ascii false true false true false false false false)
         EmptyString.

(** [header] of [_ensure_logs_file]. *)
Definition header : string :=
  ("Registration Number,Timestamp,Face Verification Time (Seconds)"
   ++ newline)%string.

(** The file [logs.csv]: [None] when it does not exist, [Some EmptyString]
    when it exists with size 0. *)
Definition logs_file := option string.

Definition _ensure_logs_file (f : logs_file) : logs_file :=
  match f with
  | None => Some header
  | Some EmptyString => Some header
  | Some (String c t) => Some (String c t)
  end.

(** [with open(LOGS_FILE, "a") as f: f.write(text)]: the file is created
    when it does not exist. *)
Definition append (f : logs_file) (text : string) : logs_file :=
  Some (match f with None => EmptyString | Some old => old end ++ text)%string.

(** The text of several successive writes. *)
Definition written (texts : list string) : string :=
  fold_right String.append EmptyString texts.

Section WithFloat.

(** The values of Python [float], and the text [f"{v:.3f}"] of one. *)
Variable F : Type.
Variable format_3f : F -> string.

(** [f"{registration_number},{timestamp},{time_seconds_val:.3f}\n"] *)
Definition written_text (registration_number timestamp : string)
    (time_seconds_val : F) : string :=
  (registration_number ++ "," ++ timestamp ++ ","
   ++ format_3f time_seconds_val ++ newline)%string.

(** What the handler reads from the JSON object of the request:
    [registrationNumber] is [str(data.get('registrationNumber', '')).strip()];
    [timeSeconds] is [None] when [data.get('timeSeconds')] is [None], else
    the result of [float(...)] on it ([Some None]: it raises);
    [timestamp] is [None] when [data.get('timestamp')] is falsy, else its
    text. *)
Record fields := {
  registrationNumber : string;
  timeSeconds : option (option F);
  timestamp : option string
}.

(** [request.get_json(force=True, silent=True) or {}]: an object (the empty
    one when there is no usable JSON), or a non-empty value that is not an
    object, on which [.get] raises. *)
Inductive face_body :=
| Object (d : fields)
| NotObject.

(** The answers of the handler. *)
Inductive answer :=
| Logged                       (* {"message": "logged", "status": "success"} *)
| Error (error : string).

(** [log_face_verification]; [now] is [datetime.datetime.now().isoformat()]. *)
Definition log_face_verification (b : face_body) (now : string)
    (f : logs_file) : (answer * Z) * logs_file :=
  match b with
  | NotObject => ((Error "Error logging face verification", 500), f)
  | Object d =>
      if (String.length (registrationNumber d) =? 0)%nat then
        ((Error "registrationNumber is required", 400), f)
      else
        match timeSeconds d with
        | None => ((Error "timeSeconds is required", 400), f)
        | Some conv =>
            let timestamp :=
              match timestamp d with Some t => t | None => now end in
            match conv with
            | None => ((Error "timeSeconds must be a number", 400), f)
            | Some time_seconds_val =>
                ((Logged, 200),
                 append (_ensure_logs_file f)
                        (written_text (registrationNumber d) timestamp
                                      time_seconds_val))
            end
        end
  end.

(** The text that a request adds to the log: one text if it is accepted,
    none otherwise. *)
Definition entry_of (q : face_body * string) : list string :=
  match fst q with
  | Object d =>
      if (String.length (registrationNumber d) =? 0)%nat then []
      else
        match timeSeconds d with
        | Some (Some v) =>
            [written_text (registrationNumber d)
               (match timestamp d with Some t => t | None => snd q end) v]
        | _ => []
        end
  | NotObject => []
  end.

(** The log after successive requests. *)
Definition after_requests (reqs : list (face_body * string)) (f : logs_file)
  : logs_file :=
  fold_left (fun f q => snd (log_face_verification (fst q) (snd q) f)) reqs f.

End WithFloat.

Arguments written_text {F}.
Arguments Object {F}.
Arguments NotObject {F}.
Arguments registrationNumber {F}.
Arguments timeSeconds {F}.
Arguments timestamp {F}.
Arguments log_face_verification {F}.
Arguments entry_of {F}.
Arguments after_requests {F}.

End FaceLog.


(* ================================================================== *)
(** * Properties                                                       *)
(* ================================================================== *)

(** ** The binary64 products [n * 0.95] and [n * 0.99] *)

Lemma round53_small p : 0 <= p < 2 ^ 53 -> PyFloat.round53 p = p.
Proof.
  intros [H0 H1]. unfold PyFloat.round53.
  assert (Z.log2 p - 52 <= 0) as He.
  { destruct (Z.eq_dec p 0) as [->|Hp]; [cbn; lia|].
    assert (Z.log2 p < 53) by (apply Z.log2_lt_pow2; lia). lia. }
  apply Z.leb_le in He. cbv zeta. now rewrite He.
Qed.

(** Above [2^53] the rounding keeps 53 bits: with [2 * E] the weight of the
    last kept bit, the result is the multiple of [2 * E] below or above [p],
    and it is the one above only if [p] is at least half-way. *)
Lemma round53_large p :
  2 ^ 53 <= p ->
  exists E q r,
    0 < E /\ E * 2 ^ 53 <= p < E * 2 ^ 54 /\
    (E < 2 ^ 53 -> exists F, 2 ^ 53 = F * (2 * E)) /\
    p = q * (2 * E) + r /\ 0 <= r < 2 * E /\
    ((PyFloat.round53 p = q * (2 * E) /\ r <= E) \/
     (PyFloat.round53 p = (q + 1) * (2 * E) /\ E <= r)).
Proof.
  intros Hp.
  assert (0 < p) as Hpos by (pose proof (Z.pow_pos_nonneg 2 53); lia).
  assert (53 <= Z.log2 p) as Hlog by (apply Z.log2_le_pow2; lia).
  destruct (Z.log2_spec p Hpos) as [Hlo Hhi].
  set (e := Z.log2 p - 52) in *.
  assert (1 <= e) as He by (unfold e; lia).
  assert (2 ^ e = 2 * 2 ^ (e - 1)) as HE.
  { replace e with (Z.succ (e - 1)) at 1 by lia. apply Z.pow_succ_r. lia. }
  assert (0 < 2 ^ (e - 1)) as Hhalf by (apply Z.pow_pos_nonneg; lia).
  exists (2 ^ (e - 1)), (p / 2 ^ e), (p mod 2 ^ e).
  rewrite <- HE.
  split; [exact Hhalf|].
  split.
  { replace (Z.log2 p) with ((e - 1) + 53) in Hlo by (unfold e; lia).
    replace (Z.succ (Z.log2 p)) with ((e - 1) + 54) in Hhi by (unfold e; lia).
    rewrite Z.pow_add_r in Hlo, Hhi by lia.
    lia. }
  split.
  { intros Hlt. exists (2 ^ (53 - e)).
    assert (e - 1 < 53) by (apply (Z.pow_lt_mono_r_iff 2); lia).
    rewrite <- Z.pow_add_r by lia. f_equal. lia. }
  split.
  { rewrite Z.mul_comm. apply Z.div_mod. lia. }
  split.
  { apply Z.mod_pos_bound. lia. }
  unfold PyFloat.round53. fold e. cbv zeta.
  destruct (e <=? 0) eqn:Hle; [apply Z.leb_le in Hle; lia|].
  destruct ((2 ^ (e - 1) <? p mod 2 ^ e)
            || ((p mod 2 ^ e =? 2 ^ (e - 1)) && Z.odd (p / 2 ^ e)))%bool eqn:Hup.
  - right. split; [reflexivity|].
    apply Bool.orb_true_iff in Hup. destruct Hup as [Hup|Hup].
    + apply Z.ltb_lt in Hup. lia.
    + apply Bool.andb_true_iff in Hup. destruct Hup as [Hup _].
      apply Z.eqb_eq in Hup. lia.
  - left. split; [reflexivity|].
    apply Bool.orb_false_iff in Hup. destruct Hup as [Hup _].
    apply Z.ltb_ge in Hup. lia.
Qed.

(** For a double [m / 2^53] that lies [d / (100 * 2^53)] below [c / 100],
    the truncated binary64 product is the exact [floor(n * c / 100)]. *)
Lemma int_mul_floor m c d n :
  100 * m = c * 2 ^ 53 - d ->
  2 ^ 52 <= m < 2 ^ 53 ->
  0 <= d <= 40 -> 2 * d < c -> c < 100 ->
  0 <= n < 2 ^ 45 ->
  PyFloat.int_mul n m = c * n / 100.
Proof.
  intros Hm Hmb Hd Hdc Hc Hn.
  unfold PyFloat.int_mul.
  rewrite (round53_small n)
    by (change (2 ^ 45) with 35184372088832 in Hn;
        change (2 ^ 53) with 9007199254740992; lia).
  pose proof (Z.div_mod (c * n) 100 ltac:(lia)) as Hk.
  pose proof (Z.mod_pos_bound (c * n) 100 ltac:(lia)) as Hs.
  set (k := c * n / 100) in *. set (s := (c * n) mod 100) in *.
  set (p := n * m).
  change (2 ^ 45) with 35184372088832 in Hn.
  change (2 ^ 52) with 4503599627370496 in Hmb.
  change (2 ^ 53) with 9007199254740992 in *.
  assert (100 * p = (100 * k + s) * 9007199254740992 - d * n) as Hp.
  { rewrite <- Hk. unfold p.
    replace (100 * (n * m)) with (n * (100 * m)) by ring.
    rewrite Hm. ring. }
  assert (0 <= d * n <= 40 * n) as Hdn by nia.
  assert (n = 0 \/ 2 * (d * n) < 100 * k + s) as Hdn2 by nia.
  assert (n * 4503599627370496 <= p <= n * 9007199254740992) as Hpb
      by (unfold p; nia).
  assert (0 <= k) as Hk0 by (apply Z.div_pos; nia).
  clearbody p k s.
  destruct (Z_lt_le_dec p 9007199254740992) as [Hsmall|Hlarge].
  - rewrite round53_small by (change (2 ^ 53) with 9007199254740992; lia).
    rewrite Z.div_small by lia.
    assert (n <= 1) by lia.
    assert (c * n < 100) by nia. lia.
  - destruct (round53_large p)
      as (E & q & r & HE & HEp & HF & Hqr & Hr & Hround).
    { change (2 ^ 53) with 9007199254740992. exact Hlarge. }
    change (2 ^ 54) with 18014398509481984 in HEp.
    change (2 ^ 53) with 9007199254740992 in *.
    assert (E <= n) as HE2 by lia.
    destruct HF as [F HF]; [lia|].
    symmetry.
    apply (Z.div_unique_pos _ _ _
             (PyFloat.round53 p - k * 9007199254740992)); [|lia].
    destruct (Z.eq_dec s 0) as [Hs0|Hs0].
    + (* c * n is a multiple of 100: the product lies just below an integer
         and must round up to it *)
      assert (k * 9007199254740992 - p = (k * F - q) * (2 * E) - r)
        as Hgap by nia.
      assert (k <= 2 * E) as HkE by nia.
      destruct (Z.eq_dec (d * n) 0) as [Hz|Hz].
      * assert (k * F - q = 0) by nia.
        assert (r = 0) by nia.
        destruct Hround as [[-> _]|[-> ?]]; nia.
      * assert (k * F - q = 1) by nia.
        destruct Hround as [[-> ?]|[-> ?]]; nia.
    + destruct Hround as [[-> ?]|[-> ?]]; nia.
Qed.

Lemma int_mul_095 n :
  0 <= n < 2 ^ 45 -> PyFloat.int_mul n PyFloat.m_095 = 95 * n / 100.
Proof.
  intros Hn. apply (int_mul_floor _ 95 40); try lia; try exact Hn.
  - reflexivity.
  - unfold PyFloat.m_095. split; [discriminate | reflexivity].
Qed.

Lemma int_mul_099 n :
  0 <= n < 2 ^ 45 -> PyFloat.int_mul n PyFloat.m_099 = 99 * n / 100.
Proof.
  intros Hn. apply (int_mul_floor _ 99 8); try lia; try exact Hn.
  - reflexivity.
  - unfold PyFloat.m_099. split; [discriminate | reflexivity].
Qed.

(** ** Lists: [len], [getitem], [sorted], [max] *)

Lemma len_nonneg {A} (l : list A) : 0 <= Py.len l.
Proof. unfold Py.len. lia. Qed.

Lemma len_cons {A} (x : A) l : Py.len (x :: l) = Py.len l + 1.
Proof. unfold Py.len. cbn [List.length]. lia. Qed.

Lemma len_app {A} (l1 l2 : list A) : Py.len (l1 ++ l2) = Py.len l1 + Py.len l2.
Proof. unfold Py.len. rewrite length_app. lia. Qed.

Lemma getitem_in_range {A} (l : list A) i :
  0 <= i < Py.len l ->
  exists x, Py.getitem l i = Some x /\ nth_error l (Z.to_nat i) = Some x.
Proof.
  intros [H0 H1]. unfold Py.getitem.
  destruct (i <? 0) eqn:Hneg; [apply Z.ltb_lt in Hneg; lia|].
  destruct (nth_error l (Z.to_nat i)) as [x|] eqn:Hx.
  - exists x. split; reflexivity.
  - apply nth_error_None in Hx. unfold Py.len in H1. lia.
Qed.

Lemma insert_length x l : List.length (Py.insert x l) = S (List.length l).
Proof.
  induction l as [|y l IH]; cbn; [reflexivity|].
  destruct (Qle_bool x y); cbn; [reflexivity|]. now rewrite IH.
Qed.

Lemma sorted_length l : List.length (Py.sorted l) = List.length l.
Proof.
  induction l as [|x l IH]; cbn; [reflexivity|].
  now rewrite insert_length, IH.
Qed.

Lemma len_sorted l : Py.len (Py.sorted l) = Py.len l.
Proof. unfold Py.len. now rewrite sorted_length. Qed.

Lemma insert_perm x l : Permutation (x :: l) (Py.insert x l).
Proof.
  induction l as [|y l IH]; cbn; [reflexivity|].
  destruct (Qle_bool x y); [reflexivity|].
  rewrite perm_swap. now apply perm_skip.
Qed.

Lemma sorted_perm l : Permutation l (Py.sorted l).
Proof.
  induction l as [|x l IH]; cbn; [constructor|].
  rewrite <- insert_perm. now apply perm_skip.
Qed.

Lemma insert_sorted x l :
  StronglySorted Qle l -> StronglySorted Qle (Py.insert x l).
Proof.
  induction 1 as [|y l Hl IH Hy]; cbn.
  - repeat constructor.
  - destruct (Qle_bool x y) eqn:Hxy.
    + apply Qle_bool_iff in Hxy.
      constructor; [now constructor|].
      constructor; [exact Hxy|].
      eapply Forall_impl; [|exact Hy]. intros z Hz. now apply Qle_trans with y.
    + assert (y <= x)%Q as Hyx.
      { apply Qlt_le_weak, Qnot_le_lt. intros Hle.
        apply Qle_bool_iff in Hle. congruence. }
      constructor; [exact IH|].
      apply (Permutation_Forall (insert_perm x l)).
      now constructor.
Qed.

Lemma sorted_sorted l : StronglySorted Qle (Py.sorted l).
Proof.
  induction l as [|x l IH]; cbn; [constructor|]. now apply insert_sorted.
Qed.

Lemma sorted_nth_le l :
  StronglySorted Qle l ->
  forall i j a b, (i <= j)%nat ->
    nth_error l i = Some a -> nth_error l j = Some b -> (a <= b)%Q.
Proof.
  induction 1 as [|y l Hl IH Hy]; intros i j a b Hij Ha Hb.
  - destruct i; discriminate.
  - destruct i as [|i], j as [|j]; cbn in Ha, Hb.
    + injection Ha as <-. injection Hb as <-. apply Qle_refl.
    + injection Ha as <-. apply nth_error_In in Hb.
      rewrite Forall_forall in Hy. now apply Hy.
    + lia.
    + apply (IH i j); [lia|assumption..].
Qed.

Lemma max_fold_upper l x :
  let r := fold_left (fun m y => if Qle_bool y m then m else y) l x in
  (x <= r)%Q /\ forall y, In y l -> (y <= r)%Q.
Proof.
  revert x. induction l as [|z l IH]; intros x; cbn.
  - split; [apply Qle_refl|]. intros y [].
  - destruct (Qle_bool z x) eqn:Hzx.
    + apply Qle_bool_iff in Hzx. destruct (IH x) as [Hx Hl].
      split; [exact Hx|]. intros y [<-|Hy]; [|now apply Hl].
      now apply Qle_trans with x.
    + assert (x <= z)%Q as Hxz.
      { apply Qlt_le_weak, Qnot_le_lt. intros Hle.
        apply Qle_bool_iff in Hle. congruence. }
      destruct (IH z) as [Hz Hl].
      split; [now apply Qle_trans with z|].
      intros y [<-|Hy]; [exact Hz|now apply Hl].
Qed.

Lemma max_upper l m : Py.max l = Some m -> forall x, In x l -> (x <= m)%Q.
Proof.
  destruct l as [|x0 l]; [discriminate|]. cbn. intros [= <-] x.
  destruct (max_fold_upper l x0) as [H0 Hl].
  intros [<-|Hx]; [exact H0|now apply Hl].
Qed.

(** ** Percentiles *)

Lemma nearest_rank_95 n : Spec.nearest_rank (95 # 100) n = Z.min (95 * n / 100) (n - 1).
Proof.
  unfold Spec.nearest_rank. f_equal.
  unfold Qfloor, Qmult, inject_Z. cbn [Qnum Qden].
  rewrite Z.mul_comm. reflexivity.
Qed.

Lemma nearest_rank_99 n : Spec.nearest_rank (99 # 100) n = Z.min (99 * n / 100) (n - 1).
Proof.
  unfold Spec.nearest_rank. f_equal.
  unfold Qfloor, Qmult, inject_Z. cbn [Qnum Qden].
  rewrite Z.mul_comm. reflexivity.
Qed.

Lemma percentile_rank m c times :
  (forall n, 0 <= n < 2 ^ 45 -> PyFloat.int_mul n m = c * n / 100) ->
  0 < c < 100 ->
  times <> [] -> Py.len times < 2 ^ 45 ->
  exists p,
    Server.percentile m times = Some p /\
    LoadTest.percentile m times = Some p /\
    nth_error (Py.sorted times)
      (Z.to_nat (Z.min (c * Py.len times / 100) (Py.len times - 1))) = Some p.
Proof.
  intros Hm Hc Hne Hlen.
  pose proof (len_nonneg times) as Hn0.
  assert (0 < Py.len times) as Hpos.
  { destruct times; [congruence|]. rewrite len_cons. pose proof (len_nonneg times). lia. }
  unfold Server.percentile, LoadTest.percentile. rewrite len_sorted.
  destruct (1 <? Py.len times) eqn:H1.
  - apply Z.ltb_lt in H1. rewrite Hm by lia.
    assert (0 <= c * Py.len times / 100 < Py.len times) as Hidx.
    { split; [apply Z.div_pos; nia|]. apply Z.div_lt_upper_bound; nia. }
    destruct (getitem_in_range (Py.sorted times) (c * Py.len times / 100))
      as (p & Hget & Hnth); [rewrite len_sorted; exact Hidx|].
    exists p. rewrite Z.min_l by lia. auto.
  - apply Z.ltb_ge in H1.
    destruct times as [|x [|y times]]; [congruence| |].
    + exists x. change (Py.len [x]) with 1.
      rewrite Z.mul_1_r, Z.div_small by lia. cbn. auto.
    + rewrite !len_cons in H1. pose proof (len_nonneg times). lia.
Qed.

(** ** Sums *)

Lemma fold_left_Qplus l a : (fold_left Qplus l a == a + fold_right Qplus 0 l)%Q.
Proof.
  revert a. induction l as [|x l IH]; intros a; cbn.
  - ring.
  - rewrite IH. ring.
Qed.

Lemma sum_fold_right l : (Py.sum l == fold_right Qplus 0 l)%Q.
Proof. unfold Py.sum. rewrite fold_left_Qplus. ring. Qed.

Lemma mean_spec l : (Py.sum l / inject_Z (Py.len l) == Spec.mean l)%Q.
Proof. unfold Spec.mean. now rewrite sum_fold_right. Qed.

Lemma squares_fold m m' l :
  (m == m')%Q ->
  (fold_right Qplus 0 (map (fun t => (t - m) * (t - m)) l)
   == fold_right (fun t acc => (t - m') ^ 2 + acc) 0 l)%Q.
Proof.
  intros Hm. induction l as [|x l IH]; cbn [map fold_right]; [reflexivity|].
  rewrite IH, Hm. simpl. ring.
Qed.

Lemma sum_sq_dev_spec l :
  (Py.sum_sq_dev (Py.sum l / inject_Z (Py.len l)) l == Spec.squares l)%Q.
Proof.
  unfold Py.sum_sq_dev, Spec.squares. rewrite sum_fold_right.
  apply squares_fold, mean_spec.
Qed.

Lemma variance_population l : (Server.variance l == Spec.population_variance l)%Q.
Proof.
  unfold Server.variance, Spec.population_variance. now rewrite sum_sq_dev_spec.
Qed.

(** ** The reducers return a result on every non-empty bucket *)

Lemma len_pos {A} (l : list A) : l <> [] -> 0 < Py.len l.
Proof.
  destruct l; [congruence|]. intros _. rewrite len_cons.
  pose proof (len_nonneg l). lia.
Qed.

Lemma median_index times :
  times <> [] ->
  exists med,
    Py.getitem (Py.sorted times) (Py.len times / 2) = Some med /\
    nth_error (Py.sorted times) (Z.to_nat (Py.len times / 2)) = Some med.
Proof.
  intros Hne. pose proof (len_pos times Hne) as Hpos.
  apply getitem_in_range. rewrite len_sorted.
  split; [apply Z.div_pos; lia|]. apply Z.div_lt_upper_bound; lia.
Qed.

Lemma min_max_some times :
  times <> [] -> exists lo hi, Py.min times = Some lo /\ Py.max times = Some hi.
Proof. destruct times; [congruence|]. intros _. cbn. eauto. Qed.

Lemma endpoint_metrics_of_some times :
  times <> [] -> Py.len times < 2 ^ 45 ->
  exists med lo hi p95 p99,
    nth_error (Py.sorted times) (Z.to_nat (Py.len times / 2)) = Some med /\
    Py.min times = Some lo /\ Py.max times = Some hi /\
    Server.percentile PyFloat.m_095 times = Some p95 /\
    Server.percentile PyFloat.m_099 times = Some p99 /\
    Server.endpoint_metrics_of times =
      Some {| Server.em_total_requests := Py.len times;
              Server.em_mean_response_time :=
                (Py.sum times / inject_Z (Py.len times))%Q;
              Server.em_median_response_time := med;
              Server.em_min_response_time := lo;
              Server.em_max_response_time := hi;
              Server.em_p95_response_time := p95;
              Server.em_p99_response_time := p99 |}.
Proof.
  intros Hne Hlen. pose proof (len_pos times Hne) as Hpos.
  destruct (median_index times Hne) as (med & Hmed & Hnth).
  destruct (min_max_some times Hne) as (lo & hi & Hlo & Hhi).
  destruct (percentile_rank _ 95 times int_mul_095) as (p95 & H95 & _);
    [lia|assumption..|].
  destruct (percentile_rank _ 99 times int_mul_099) as (p99 & H99 & _);
    [lia|assumption..|].
  exists med, lo, hi, p95, p99. repeat (split; [assumption|]).
  unfold Server.endpoint_metrics_of.
  destruct (Py.len times =? 0) eqn:H0; [apply Z.eqb_eq in H0; lia|].
  destruct (0 <? Py.len times) eqn:H1; [|apply Z.ltb_ge in H1; lia].
  now rewrite Hmed, Hlo, Hhi, H95, H99.
Qed.

Lemma endpoint_analysis_of_some failed elapsed times :
  times <> [] -> Py.len times < 2 ^ 45 ->
  exists med lo hi p95 p99,
    nth_error (Py.sorted times) (Z.to_nat (Py.len times / 2)) = Some med /\
    Py.min times = Some lo /\ Py.max times = Some hi /\
    Server.percentile PyFloat.m_095 times = Some p95 /\
    Server.percentile PyFloat.m_099 times = Some p99 /\
    Server.endpoint_analysis_of failed elapsed times =
      Some {| Server.ea_total_requests := Py.len times;
              Server.ea_mean_response_time_ms :=
                (Py.sum times / inject_Z (Py.len times) * 1000)%Q;
              Server.ea_median_response_time_ms := (med * 1000)%Q;
              Server.ea_std_dev_ms :=
                Py.root_scale (Py.sqrt_of (Server.variance times)) 1000;
              Server.ea_min_response_time_ms := (lo * 1000)%Q;
              Server.ea_max_response_time_ms := (hi * 1000)%Q;
              Server.ea_p95_response_time_ms := (p95 * 1000)%Q;
              Server.ea_p99_response_time_ms := (p99 * 1000)%Q;
              Server.ea_throughput_rps :=
                if Qle_bool elapsed 0 then 0%Q
                else (inject_Z (Py.len times) / elapsed)%Q;
              Server.ea_error_rate :=
                (inject_Z failed / inject_Z (Z.max (Py.len times) 1))%Q |}.
Proof.
  intros Hne Hlen. pose proof (len_pos times Hne) as Hpos.
  destruct (median_index times Hne) as (med & Hmed & Hnth).
  destruct (min_max_some times Hne) as (lo & hi & Hlo & Hhi).
  destruct (percentile_rank _ 95 times int_mul_095) as (p95 & H95 & _);
    [lia|assumption..|].
  destruct (percentile_rank _ 99 times int_mul_099) as (p99 & H99 & _);
    [lia|assumption..|].
  exists med, lo, hi, p95, p99. repeat (split; [assumption|]).
  unfold Server.endpoint_analysis_of.
  destruct (Py.len times =? 0) eqn:H0; [apply Z.eqb_eq in H0; lia|].
  now rewrite Hmed, Hlo, Hhi, H95, H99.
Qed.

(** [statistics.median] on non-empty data: the element of rank [n / 2] for
    odd [n], the mean of the elements of ranks [n / 2 - 1] and [n / 2] for
    even [n]. *)
Lemma statistics_median_some data :
  data <> [] ->
  exists med hi_mid,
    Py.statistics_median data = Some med /\
    nth_error (Py.sorted data) (Z.to_nat (Py.len data / 2)) = Some hi_mid /\
    (Py.len data mod 2 = 1 -> med = hi_mid) /\
    (Py.len data mod 2 = 0 ->
     exists lo_mid,
       nth_error (Py.sorted data) (Z.to_nat (Py.len data / 2 - 1)) = Some lo_mid /\
       med = ((lo_mid + hi_mid) / 2)%Q).
Proof.
  intros Hne. pose proof (len_pos data Hne) as Hpos.
  destruct (median_index data Hne) as (hi_mid & Hget & Hnth).
  unfold Py.statistics_median. rewrite len_sorted.
  destruct (Py.len data =? 0) eqn:H0; [apply Z.eqb_eq in H0; lia|].
  pose proof (Z.mod_pos_bound (Py.len data) 2 ltac:(lia)) as Hmod.
  pose proof (Z.div_mod (Py.len data) 2 ltac:(lia)) as Hdiv.
  destruct (Py.len data mod 2 =? 1) eqn:Hodd.
  - apply Z.eqb_eq in Hodd. exists hi_mid, hi_mid.
    repeat split; try assumption. intros Heven. lia.
  - apply Z.eqb_neq in Hodd.
    destruct (getitem_in_range (Py.sorted data) (Py.len data / 2 - 1))
      as (lo_mid & Hget' & Hnth'); [rewrite len_sorted; lia|].
    rewrite Hget', Hget. exists ((lo_mid + hi_mid) / 2)%Q, hi_mid.
    repeat split; try assumption; [intros; lia|].
    intros _. exists lo_mid. split; [assumption|reflexivity].
Qed.

Lemma list_case_nonempty {A B} (l : list A) (a b : B) :
  l <> [] -> match l with [] => a | _ :: _ => b end = b.
Proof. destruct l; [congruence|reflexivity]. Qed.

Lemma calculate_statistics_some total_time t times :
  LoadTest.response_times t = times ->
  times <> [] -> Py.len times < 2 ^ 45 ->
  let ok := Py.len (filter (fun sc => sc <? 400) (LoadTest.status_codes t)) in
  exists med lo hi p95 p99,
    Py.statistics_median times = Some med /\
    Py.min times = Some lo /\ Py.max times = Some hi /\
    LoadTest.percentile PyFloat.m_095 times = Some p95 /\
    LoadTest.percentile PyFloat.m_099 times = Some p99 /\
    LoadTest.calculate_statistics total_time t =
      Some (Some
        {| LoadTest.total_requests := Py.len times;
           LoadTest.successful_requests := ok;
           LoadTest.failed_requests := Py.len times - ok;
           LoadTest.success_rate := (inject_Z ok / inject_Z (Py.len times))%Q;
           LoadTest.total_time_seconds := total_time;
           LoadTest.throughput_rps :=
             if Qle_bool total_time 0 then 0%Q
             else (inject_Z (Py.len times) / total_time)%Q;
           LoadTest.mean_response_time_ms :=
             (Py.sum times / inject_Z (Py.len times) * 1000)%Q;
           LoadTest.median_response_time_ms := (med * 1000)%Q;
           LoadTest.min_response_time_ms := (lo * 1000)%Q;
           LoadTest.max_response_time_ms := (hi * 1000)%Q;
           LoadTest.std_dev_ms :=
             if 1 <? Py.len times
             then Py.root_scale
                    (Py.sqrt_of
                       (Py.sum_sq_dev (Py.sum times / inject_Z (Py.len times))
                                      times
                        / inject_Z (Py.len times - 1))%Q) 1000
             else Py.root_zero;
           LoadTest.p95_response_time_ms := (p95 * 1000)%Q;
           LoadTest.p99_response_time_ms := (p99 * 1000)%Q |}).
Proof.
  intros Ht Hne Hlen ok. pose proof (len_pos times Hne) as Hpos.
  destruct (statistics_median_some times Hne) as (med & hi_mid & Hmed & _).
  destruct (min_max_some times Hne) as (lo & hi & Hlo & Hhi).
  destruct (percentile_rank _ 95 times int_mul_095) as (p95 & _ & H95 & _);
    [lia|assumption..|].
  destruct (percentile_rank _ 99 times int_mul_099) as (p99 & _ & H99 & _);
    [lia|assumption..|].
  exists med, lo, hi, p95, p99. repeat (split; [assumption|]).
  unfold LoadTest.calculate_statistics. fold ok. rewrite Ht.
  rewrite (list_case_nonempty times) by assumption.
  assert (Py.statistics_mean times
          = Some (Py.sum times / inject_Z (Py.len times))%Q) as Hmean
      by (apply list_case_nonempty; assumption).
  rewrite Hmean, Hmed, Hlo, Hhi, H95, H99.
  destruct (0 <? Py.len times) eqn:H0; [|apply Z.ltb_ge in H0; lia].
  destruct (1 <? Py.len times) eqn:H1; [|reflexivity].
  unfold Py.statistics_stdev, Py.statistics_variance.
  destruct (Py.len times <? 2) eqn:H2; [|reflexivity].
  apply Z.ltb_lt in H1. apply Z.ltb_lt in H2. lia.
Qed.

(** ** Percentiles (C7) *)

(** C7.  On every non-empty duration sequence (of a length below [2^45], so
    that the binary64 products are exact enough), p95 and p99 are the
    elements of the sorted sequence at ranks [floor(n * 0.95)] and
    [floor(n * 0.99)] clamped to [n - 1]; the clamp never acts, the ranks are
    in bounds and ordered, the values are ordered and below the maximum, and
    for [n = 1] both are the single value.  The metrics handler, the report
    handler and the load tester all report these values. *)
Theorem percentiles_nearest_rank (times : list Q) :
  times <> [] -> Py.len times < 2 ^ 45 ->
  let n := Py.len times in
  let i95 := Spec.nearest_rank (95 # 100) n in
  let i99 := Spec.nearest_rank (99 # 100) n in
  exists p95 p99 hi,
    nth_error (Py.sorted times) (Z.to_nat i95) = Some p95 /\
    nth_error (Py.sorted times) (Z.to_nat i99) = Some p99 /\
    Py.max times = Some hi /\
    i95 = Qfloor (inject_Z n * (95 # 100)) /\
    i99 = Qfloor (inject_Z n * (99 # 100)) /\
    0 <= i95 <= i99 /\ i99 <= n - 1 /\
    (p95 <= p99)%Q /\ (p99 <= hi)%Q /\
    (n = 1 -> times = [p95] /\ times = [p99]) /\
    (exists em,
        Server.endpoint_metrics_of times = Some em /\
        Server.em_p95_response_time em = p95 /\
        Server.em_p99_response_time em = p99 /\
        Server.em_max_response_time em = hi) /\
    (forall failed elapsed, exists ea,
        Server.endpoint_analysis_of failed elapsed times = Some ea /\
        Server.ea_p95_response_time_ms ea = (p95 * 1000)%Q /\
        Server.ea_p99_response_time_ms ea = (p99 * 1000)%Q /\
        Server.ea_max_response_time_ms ea = (hi * 1000)%Q) /\
    (forall total_time t, LoadTest.response_times t = times ->
      exists st,
        LoadTest.calculate_statistics total_time t = Some (Some st) /\
        LoadTest.p95_response_time_ms st = (p95 * 1000)%Q /\
        LoadTest.p99_response_time_ms st = (p99 * 1000)%Q /\
        LoadTest.max_response_time_ms st = (hi * 1000)%Q).
Proof.
  intros Hne Hlen n i95 i99.
  pose proof (len_pos times Hne) as Hpos. fold n in Hpos, Hlen.
  destruct (percentile_rank _ 95 times int_mul_095)
    as (p95 & Hs95 & Hc95 & Hn95); [lia|assumption..|].
  destruct (percentile_rank _ 99 times int_mul_099)
    as (p99 & Hs99 & Hc99 & Hn99); [lia|assumption..|].
  destruct (min_max_some times Hne) as (lo & hi & Hlo & Hhi).
  fold n in Hn95, Hn99.
  assert (i95 = 95 * n / 100) as E95.
  { unfold i95. rewrite nearest_rank_95. apply Z.min_l.
    assert (95 * n / 100 < n)
      by (apply Z.div_lt_upper_bound; lia). lia. }
  assert (i99 = 99 * n / 100) as E99.
  { unfold i99. rewrite nearest_rank_99. apply Z.min_l.
    assert (99 * n / 100 < n)
      by (apply Z.div_lt_upper_bound; lia). lia. }
  assert (0 <= i95 <= i99) as Hord.
  { rewrite E95, E99. split; [apply Z.div_pos; lia|].
    apply Z.div_le_mono; lia. }
  assert (i99 <= n - 1) as Hub.
  { unfold i99, Spec.nearest_rank. apply Z.le_min_r. }
  rewrite <- nearest_rank_95 in Hn95. rewrite <- nearest_rank_99 in Hn99.
  fold i95 in Hn95. fold i99 in Hn99.
  exists p95, p99, hi.
  split; [exact Hn95|]. split; [exact Hn99|]. split; [exact Hhi|].
  split.
  { rewrite E95. unfold Qfloor, Qmult, inject_Z. cbn [Qnum Qden].
    rewrite Z.mul_comm. reflexivity. }
  split.
  { rewrite E99. unfold Qfloor, Qmult, inject_Z. cbn [Qnum Qden].
    rewrite Z.mul_comm. reflexivity. }
  split; [exact Hord|]. split; [exact Hub|].
  split.
  { apply (sorted_nth_le _ (sorted_sorted times)
             (Z.to_nat i95) (Z.to_nat i99)); [lia|assumption..]. }
  split.
  { apply (max_upper times hi Hhi).
    apply (Permutation_in _ (Permutation_sym (sorted_perm times))).
    eapply nth_error_In; exact Hn99. }
  split.
  { intros H1. assert (i95 = 0 /\ i99 = 0) as [Z95 Z99] by lia.
    rewrite Z95 in Hn95. rewrite Z99 in Hn99.
    destruct times as [|x [|y l]]; [congruence| |].
    - cbn in Hn95, Hn99. injection Hn95 as <-. injection Hn99 as <-. auto.
    - unfold n in H1. rewrite !len_cons in H1. pose proof (len_nonneg l). lia. }
  split.
  { destruct (endpoint_metrics_of_some times Hne Hlen)
      as (med & lo' & hi' & q95 & q99 & _ & _ & Hhi' & H95 & H99 & Hem).
    eexists. split; [exact Hem|]. cbn. repeat split; congruence. }
  split.
  { intros failed elapsed.
    destruct (endpoint_analysis_of_some failed elapsed times Hne Hlen)
      as (med & lo' & hi' & q95 & q99 & _ & _ & Hhi' & H95 & H99 & Hea).
    eexists. split; [exact Hea|]. cbn. repeat split; congruence. }
  intros total_time t Ht.
  destruct (calculate_statistics_some total_time t times Ht Hne Hlen)
    as (med & lo' & hi' & q95 & q99 & _ & _ & Hhi' & H95 & H99 & Hst).
  eexists. split; [exact Hst|]. cbn. repeat split; congruence.
Qed.

Lemma percentiles_nearest_rank_witness :
  let times := [10 # 1000; 20 # 1000; 30 # 1000; 40 # 1000; 50 # 1000]%Q in
  exists p95 p99 hi,
    nth_error (Py.sorted times) 4 = Some p95 /\
    nth_error (Py.sorted times) 4 = Some p99 /\
    Py.max times = Some hi /\ (p95 <= p99)%Q /\ (p99 <= hi)%Q.
Proof.
  intros times.
  destruct (percentiles_nearest_rank times)
    as (p95 & p99 & hi & H95 & H99 & Hhi & _ & _ & _ & _ & Hle & Hmax & _).
  - discriminate.
  - reflexivity.
  - exists p95, p99, hi. repeat split; assumption.
Defined.

(** ** Median (C3) *)

(** C3, as stated, fails for the load tester: on the four durations 10, 20,
    30, 40 ms its median is 25 ms, not the element of rank [n / 2] (30 ms). *)
Lemma client_median_interpolates :
  let times := [10 # 1000; 20 # 1000; 30 # 1000; 40 # 1000]%Q in
  let calls :=
    map (fun '(i, t) => {| LoadTest.call_request_id := i;
                           LoadTest.call_outcome := LoadTest.Response 200;
                           LoadTest.call_elapsed := t |})
        (combine [0; 1; 2; 3] times) in
  exists st at_rank,
    LoadTest.run_test calls 1 = Some (Some st) /\
    nth_error (Py.sorted times) (Z.to_nat (Py.len times / 2)) = Some at_rank /\
    ~ (LoadTest.median_response_time_ms st == at_rank * 1000)%Q.
Proof.
  intros times calls. eexists. eexists.
  split; [vm_compute; reflexivity|].
  split; [vm_compute; reflexivity|].
  vm_compute. discriminate.
Qed.

(** C3, amended.  On every non-empty duration sequence the server-side
    reducers (metrics and report) give as median the element of rank
    [n / 2] of the sorted sequence; the load tester gives that element for
    odd [n] and the mean of the elements of ranks [n / 2 - 1] and [n / 2]
    for even [n]. *)
Theorem median_rank_server_interpolated_client (times : list Q) :
  times <> [] -> Py.len times < 2 ^ 45 ->
  let n := Py.len times in
  exists at_rank,
    nth_error (Py.sorted times) (Z.to_nat (n / 2)) = Some at_rank /\
    (exists em,
        Server.endpoint_metrics_of times = Some em /\
        Server.em_median_response_time em = at_rank) /\
    (forall failed elapsed, exists ea,
        Server.endpoint_analysis_of failed elapsed times = Some ea /\
        Server.ea_median_response_time_ms ea = (at_rank * 1000)%Q) /\
    (forall total_time t, LoadTest.response_times t = times ->
      exists st,
        LoadTest.calculate_statistics total_time t = Some (Some st) /\
        (n mod 2 = 1 ->
         LoadTest.median_response_time_ms st = (at_rank * 1000)%Q) /\
        (n mod 2 = 0 ->
         exists below,
           nth_error (Py.sorted times) (Z.to_nat (n / 2 - 1)) = Some below /\
           LoadTest.median_response_time_ms st
           = ((below + at_rank) / 2 * 1000)%Q)).
Proof.
  intros Hne Hlen n.
  destruct (median_index times Hne) as (at_rank & _ & Hrank).
  exists at_rank. split; [exact Hrank|].
  split.
  { destruct (endpoint_metrics_of_some times Hne Hlen)
      as (med & lo & hi & q95 & q99 & Hmed & _ & _ & _ & _ & Hem).
    eexists. split; [exact Hem|]. cbn. congruence. }
  split.
  { intros failed elapsed.
    destruct (endpoint_analysis_of_some failed elapsed times Hne Hlen)
      as (med & lo & hi & q95 & q99 & Hmed & _ & _ & _ & _ & Hea).
    eexists. split; [exact Hea|]. cbn. congruence. }
  intros total_time t Ht.
  destruct (calculate_statistics_some total_time t times Ht Hne Hlen)
    as (med & lo & hi & q95 & q99 & Hmed & _ & _ & _ & _ & Hst).
  destruct (statistics_median_some times Hne)
    as (med' & mid & Hmed' & Hmid & Hodd & Heven).
  assert (med' = med) as -> by congruence.
  assert (mid = at_rank) as -> by congruence.
  eexists. split; [exact Hst|]. cbn. split.
  - intros H. now rewrite (Hodd H).
  - intros H. destruct (Heven H) as (below & Hbelow & ->).
    exists below. split; [exact Hbelow|reflexivity].
Qed.

Lemma median_rank_server_interpolated_client_witness :
  let times := [10 # 1000; 20 # 1000; 30 # 1000; 40 # 1000; 50 # 1000]%Q in
  exists at_rank em,
    nth_error (Py.sorted times) 2 = Some at_rank /\
    Server.endpoint_metrics_of times = Some em /\
    Server.em_median_response_time em = at_rank.
Proof.
  intros times.
  destruct (median_rank_server_interpolated_client times)
    as (at_rank & Hrank & (em & Hem & Hmed) & _).
  - discriminate.
  - reflexivity.
  - exists at_rank, em. repeat split; assumption.
Defined.

(** ** Standard deviation (C4) *)

Lemma sqrt_between (a b x : R) :
  (0 <= a)%R -> (0 <= b)%R -> (a * a <= x)%R -> (x <= b * b)%R ->
  (a <= sqrt x <= b)%R.
Proof.
  intros Ha Hb Hax Hxb. split.
  - rewrite <- (sqrt_square a Ha). apply sqrt_le_1_alt. exact Hax.
  - rewrite <- (sqrt_square b Hb). apply sqrt_le_1_alt. exact Hxb.
Qed.

Lemma root_val_scaled v :
  Py.root_val (Py.root_scale (Py.sqrt_of v) 1000) = (1000 * sqrt (Q2R v))%R.
Proof.
  unfold Py.root_val, Py.root_scale, Py.sqrt_of. cbn [Py.root_coef Py.root_radicand].
  rewrite Q2R_mult. unfold Q2R. cbn. lra.
Qed.

Lemma root_val_zero : Py.root_val Py.root_zero = 0%R.
Proof. unfold Py.root_val, Py.root_zero, Q2R. cbn. lra. Qed.

Lemma sample_variance_spec l :
  (Py.sum_sq_dev (Py.sum l / inject_Z (Py.len l)) l / inject_Z (Py.len l - 1)
   == Spec.sample_variance l)%Q.
Proof. unfold Spec.sample_variance. now rewrite sum_sq_dev_spec. Qed.

Lemma client_std_dev_not_population :
  let times := [10 # 1000; 20 # 1000; 30 # 1000; 40 # 1000; 50 # 1000]%Q in
  let calls :=
    map (fun '(i, t) => {| LoadTest.call_request_id := i;
                           LoadTest.call_outcome := LoadTest.Response 200;
                           LoadTest.call_elapsed := t |})
        (combine [0; 1; 2; 3; 4] times) in
  exists st,
    LoadTest.run_test calls 1 = Some (Some st) /\
    ~ (Py.root_radicand (LoadTest.std_dev_ms st)
       == Spec.population_variance times)%Q /\
    (1581 / 100 < Py.root_val (LoadTest.std_dev_ms st))%R.
Proof.
  intros times calls. eexists.
  split; [vm_compute; reflexivity|].
  split; [vm_compute; discriminate|].
  unfold Py.root_val. cbn [LoadTest.std_dev_ms Py.root_coef Py.root_radicand].
  assert (15811 / 1000000 <= sqrt (Q2R (1 # 4000)))%R as H.
  { apply sqrt_between with (b := 1%R); unfold Q2R; cbn; lra. }
  match goal with
  | |- (_ < _ * sqrt (Q2R ?v))%R =>
      rewrite (Qeq_eqR v (1 # 4000)) by (vm_compute; reflexivity)
  end.
  set (r := sqrt (Q2R (1 # 4000))) in *. unfold Q2R. cbn. lra.
Qed.

(** C4, amended.  On every non-empty duration sequence the report's
    standard deviation is the population standard deviation (divisor [n]);
    the load tester's is the sample standard deviation (divisor [n - 1]) for
    [n > 1] and 0 for [n = 1].  For the durations 10, 20, 30, 40, 50 ms the
    first is about 14.14 ms and the second about 15.81 ms. *)
Theorem std_dev_population_server_sample_client :
  (forall times : list Q,
      times <> [] -> Py.len times < 2 ^ 45 ->
      (forall failed elapsed, exists ea,
          Server.endpoint_analysis_of failed elapsed times = Some ea /\
          Py.root_val (Server.ea_std_dev_ms ea)
          = (1000 * sqrt (Q2R (Spec.population_variance times)))%R) /\
      (forall total_time t, LoadTest.response_times t = times ->
        exists st,
          LoadTest.calculate_statistics total_time t = Some (Some st) /\
          (1 < Py.len times ->
           Py.root_val (LoadTest.std_dev_ms st)
           = (1000 * sqrt (Q2R (Spec.sample_variance times)))%R) /\
          (Py.len times = 1 -> Py.root_val (LoadTest.std_dev_ms st) = 0%R))) /\
  (let times := [10 # 1000; 20 # 1000; 30 # 1000; 40 # 1000; 50 # 1000]%Q in
   (1414 / 100 <= 1000 * sqrt (Q2R (Spec.population_variance times))
    <= 1415 / 100)%R /\
   (1581 / 100 <= 1000 * sqrt (Q2R (Spec.sample_variance times))
    <= 1582 / 100)%R).
Proof.
  split.
  - intros times Hne Hlen. split.
    + intros failed elapsed.
      destruct (endpoint_analysis_of_some failed elapsed times Hne Hlen)
        as (med & lo & hi & q95 & q99 & _ & _ & _ & _ & _ & Hea).
      eexists. split; [exact Hea|]. cbn [Server.ea_std_dev_ms].
      rewrite root_val_scaled.
      now rewrite (Qeq_eqR _ _ (variance_population times)).
    + intros total_time t Ht.
      destruct (calculate_statistics_some total_time t times Ht Hne Hlen)
        as (med & lo & hi & q95 & q99 & _ & _ & _ & _ & _ & Hst).
      eexists. split; [exact Hst|]. cbn [LoadTest.std_dev_ms]. split.
      * intros Hn. apply Z.ltb_lt in Hn. rewrite Hn.
        rewrite root_val_scaled.
        now rewrite (Qeq_eqR _ _ (sample_variance_spec times)).
      * intros Hn. rewrite Hn. cbn. apply root_val_zero.
  - intros times. split.
    + rewrite (Qeq_eqR _ (1 # 5000)) by (vm_compute; reflexivity).
      assert (1414 / 100000 <= sqrt (Q2R (1 # 5000)) <= 1415 / 100000)%R as H
          by (apply sqrt_between; unfold Q2R; cbn; lra).
      lra.
    + rewrite (Qeq_eqR _ (1 # 4000)) by (vm_compute; reflexivity).
      assert (1581 / 100000 <= sqrt (Q2R (1 # 4000)) <= 1582 / 100000)%R as H
          by (apply sqrt_between; unfold Q2R; cbn; lra).
      lra.
Qed.

Lemma std_dev_population_server_sample_client_witness :
  let times := [10 # 1000; 20 # 1000; 30 # 1000; 40 # 1000; 50 # 1000]%Q in
  exists ea,
    Server.endpoint_analysis_of 0 1 times = Some ea /\
    Py.root_val (Server.ea_std_dev_ms ea)
    = (1000 * sqrt (Q2R (Spec.population_variance times)))%R.
Proof.
  intros times.
  destruct (proj1 std_dev_population_server_sample_client times) as [Hs _].
  - discriminate.
  - reflexivity.
  - exact (Hs 0 1%Q).
Defined.

(** ** Runs of the server: counters and buckets *)

Lemma count_dd_append (d : list (string * list Q)) ep t :
  fold_right (fun '(_, times) acc => Py.len times + acc) 0
             (Server.dd_append d ep t)
  = fold_right (fun '(_, times) acc => Py.len times + acc) 0 d + 1.
Proof.
  induction d as [|[k l] d IH]; cbn.
  - reflexivity.
  - destruct (String.eqb k ep); cbn.
    + rewrite len_app. change (Py.len [t]) with 1. lia.
    + rewrite IH. lia.
Qed.

Lemma dd_append_nonempty (d : list (string * list Q)) ep t :
  Forall (fun b => snd b <> []) d ->
  Forall (fun b => snd b <> []) (Server.dd_append d ep t).
Proof.
  induction 1 as [|[k l] d Hk Hd IH]; cbn.
  - repeat constructor. discriminate.
  - destruct (String.eqb k ep); constructor; try assumption.
    cbn. intros H. apply app_eq_nil in H. destruct H. discriminate.
Qed.

Lemma consistent_initial : Spec.consistent Server.initial.
Proof. split; [reflexivity|constructor]. Qed.

Lemma consistent_reset cu now : Spec.consistent (Server.reset cu now).
Proof. split; [reflexivity|constructor]. Qed.

Lemma sample_count_record ep t c s :
  Server.sample_count (Server.record ep t c s) = Server.sample_count s + 1.
Proof. unfold Server.sample_count, Server.record; cbn. apply count_dd_append. Qed.

Lemma consistent_record ep t c s :
  Spec.consistent s -> Spec.consistent (Server.record ep t c s).
Proof.
  intros [Htot Hne]. split.
  - rewrite sample_count_record, <- Htot. reflexivity.
  - cbn. now apply dd_append_nonempty.
Qed.

Lemma start_cases b now s :
  snd (Server.start_stress_test b now s) = s \/
  exists cu, 1 <= cu <= 1000 /\
    Server.start_stress_test b now s
    = ((Server.BStarted cu, 200), Server.reset cu now).
Proof.
  unfold Server.start_stress_test.
  destruct (match Server.requested_users b with
            | Some v => Server.py_int v
            | None => None
            end) as [cu|]; [|now left].
  destruct ((cu <? 1) || (1000 <? cu))%bool eqn:Hbad; [now left|].
  right. exists cu. apply Bool.orb_false_iff in Hbad.
  destruct Hbad as [H1 H2]. apply Z.ltb_ge in H1, H2. split; [lia|reflexivity].
Qed.

Lemma consistent_step s o : Spec.consistent s -> Spec.consistent (Server.step s o).
Proof.
  intros Hs. destruct o as [ep t c|b now|]; cbn.
  - now apply consistent_record.
  - destruct (start_cases b now s) as [->|(cu & _ & ->)];
      [assumption|apply consistent_reset].
  - exact Hs.
Qed.

Lemma consistent_run ops s : Spec.consistent s -> Spec.consistent (Server.run ops s).
Proof.
  revert s. induction ops as [|o ops IH]; intros s Hs; cbn; [exact Hs|].
  apply IH, consistent_step, Hs.
Qed.

Lemma consistent_after_request req_start now ep c s :
  Spec.consistent s -> Spec.consistent (Server.after_request req_start now ep c s).
Proof.
  intros Hs. unfold Server.after_request.
  destruct (Server.test_active s); [|exact Hs].
  destruct req_start; [now apply consistent_record|exact Hs].
Qed.

Lemma consistent_handle r t1 t2 t3 s :
  Spec.consistent s -> Spec.consistent (Server.handle r t1 t2 t3 s).
Proof.
  intros Hs. destruct r as [b| |ep c]; unfold Server.handle.
  - destruct (Server.start_stress_test b t2 s) as [[bd st] s'] eqn:Hst.
    apply consistent_after_request.
    destruct (start_cases b t2 s) as [H|(cu & _ & H)]; rewrite Hst in H.
    + cbn in H. now subst s'.
    + injection H as _ _ ->. apply consistent_reset.
  - cbn. exact Hs.
  - apply consistent_after_request. exact Hs.
Qed.

Lemma consistent_serve reqs s : Spec.consistent s -> Spec.consistent (Server.serve reqs s).
Proof.
  revert s. induction reqs as [|[r [[t1 t2] t3]] reqs IH]; intros s Hs; cbn;
    [exact Hs|].
  apply IH, consistent_handle, Hs.
Qed.

(** C9.  After any sequence of critical sections from the initial store, and
    after any sequence of requests handled one at a time, [total_requests]
    is the sum of the lengths of the per-endpoint sample sequences; so it is
    immediately after a [stop]. *)
Theorem total_requests_counts_samples :
  (forall ops,
      let s := Server.run ops Server.initial in
      Server.total_requests s = Server.sample_count s /\
      Server.total_requests (snd (Server.stop_stress_test s))
      = Server.sample_count (snd (Server.stop_stress_test s))) /\
  (forall reqs,
      let s := Server.serve reqs Server.initial in
      Server.total_requests s = Server.sample_count s /\
      Server.total_requests (snd (Server.stop_stress_test s))
      = Server.sample_count (snd (Server.stop_stress_test s))) /\
  (forall ep t c s,
      Server.total_requests (Server.record ep t c s)
      = Server.total_requests s + 1 /\
      Server.sample_count (Server.record ep t c s)
      = Server.sample_count s + 1) /\
  (forall cu now,
      Server.total_requests (Server.reset cu now) = 0 /\
      Server.failed_requests (Server.reset cu now) = 0 /\
      Server.sample_count (Server.reset cu now) = 0).
Proof.
  split; [|split; [|split]].
  - intros ops s.
    destruct (consistent_run ops _ consistent_initial) as [H _].
    split; exact H.
  - intros reqs s.
    destruct (consistent_serve reqs _ consistent_initial) as [H _].
    split; exact H.
  - intros ep t c s. split; [reflexivity|apply sample_count_record].
  - intros cu now. repeat split.
Qed.

(** ** The report without samples (C8) *)

Lemma no_samples_no_buckets s :
  Spec.consistent s -> Server.sample_count s = 0 -> Server.response_times s = [].
Proof.
  intros [_ Hne] H0. unfold Server.sample_count in H0.
  destruct (Server.response_times s) as [|[ep times] d]; [reflexivity|].
  exfalso. inversion Hne as [|? ? Hb Hd]; subst. cbn in Hb, H0.
  pose proof (len_pos times Hb).
  assert (0 <= fold_right (fun '(_, times) acc => Py.len times + acc) 0 d).
  { clear. induction d as [|[k l] d IH]; cbn; [lia|].
    pose proof (len_nonneg l). lia. }
  lia.
Qed.

(** C8.  In every store reached from the initial one in which no sample is
    recorded, the report handler answers 400 with the "no metrics" error and
    leaves the CSV file as it is. *)
Theorem report_without_samples_is_no_data ops timestamp now f :
  Server.sample_count (Server.run ops Server.initial) = 0 ->
  Server.generate_scalability_report timestamp now
    (Server.run ops Server.initial) f
  = ((Server.BError "No metrics collected yet. Run stress test first.", 400),
     f).
Proof.
  intros H0. unfold Server.generate_scalability_report.
  now rewrite (no_samples_no_buckets _ (consistent_run ops _ consistent_initial) H0).
Qed.

Lemma report_without_samples_is_no_data_witness :
  Server.generate_scalability_report "2026-01-01T00:00:00" 7
    (Server.run [Server.Start (Server.JsonObject
                                 [("concurrentUsers"%string, Server.JInt 10)]) 5;
                 Server.Stop] Server.initial) None
  = ((Server.BError "No metrics collected yet. Run stress test first.", 400),
     None).
Proof.
  apply (report_without_samples_is_no_data
           [Server.Start (Server.JsonObject
                            [("concurrentUsers"%string, Server.JInt 10)]) 5;
            Server.Stop]).
  reflexivity.
Defined.

(** ** The start handler (C6, C10) *)

(** C6.  When the body gives an integer [cu] for [concurrentUsers]: outside
    [1, 1000] the handler answers 400 and returns the store unchanged; inside,
    it answers 200 and the new store has no samples, both counters at 0, the
    target [cu], the start time just read, and tracking on. *)
Theorem start_validates_concurrent_users d cu now s :
  Server.dict_get d "concurrentUsers"%string (Server.JInt 10) = Server.JInt cu ->
  ((cu < 1 \/ 1000 < cu) ->
   Server.start_stress_test (Server.JsonObject d) now s
   = ((Server.BError "concurrentUsers must be between 1 and 1000", 400), s)) /\
  (1 <= cu <= 1000 ->
   exists s',
     Server.start_stress_test (Server.JsonObject d) now s
     = ((Server.BStarted cu, 200), s') /\
     Server.response_times s' = [] /\
     Server.total_requests s' = 0 /\
     Server.failed_requests s' = 0 /\
     Server.concurrent_requests s' = cu /\
     Server.start_time s' = Some now /\
     Server.test_active s' = true).
Proof.
  intros Hd. unfold Server.start_stress_test, Server.requested_users.
  rewrite Hd. cbn [Server.py_int]. split.
  - intros Hbad.
    assert (((cu <? 1) || (1000 <? cu))%bool = true) as ->; [|reflexivity].
    apply Bool.orb_true_iff. destruct Hbad; [left|right]; now apply Z.ltb_lt.
  - intros Hok.
    assert (((cu <? 1) || (1000 <? cu))%bool = false) as ->.
    { apply Bool.orb_false_iff. split; apply Z.ltb_ge; lia. }
    eexists. split; [reflexivity|]. repeat split.
Qed.

Lemma start_validates_concurrent_users_witness :
  let s := Server.run [Server.Start Server.NoJson 1;
                       Server.Record "get_user" (1 # 10) 200] Server.initial in
  let body cu := Server.JsonObject [("concurrentUsers"%string, Server.JInt cu)] in
  Server.start_stress_test (body 0) 2 s
  = ((Server.BError "concurrentUsers must be between 1 and 1000", 400), s) /\
  Server.start_stress_test (body 1500) 2 s
  = ((Server.BError "concurrentUsers must be between 1 and 1000", 400), s) /\
  exists s',
    Server.start_stress_test (body 10) 2 s = ((Server.BStarted 10, 200), s') /\
    Server.response_times s' = [] /\
    Server.total_requests s' = 0 /\
    Server.failed_requests s' = 0.
Proof.
  intros s body. split; [|split].
  - apply (start_validates_concurrent_users
             [("concurrentUsers"%string, Server.JInt 0)] 0 2 s eq_refl). lia.
  - apply (start_validates_concurrent_users
             [("concurrentUsers"%string, Server.JInt 1500)] 1500 2 s eq_refl).
    lia.
  - destruct (proj2 (start_validates_concurrent_users
                       [("concurrentUsers"%string, Server.JInt 10)] 10 2 s
                       eq_refl))
      as (s' & H1 & H2 & H3 & H4 & _); [lia|].
    exists s'. repeat split; assumption.
Defined.

Lemma dict_get_absent {A} (d : list (string * A)) k default :
  ~ In k (map fst d) -> Server.dict_get d k default = default.
Proof.
  induction d as [|[k' v] d IH]; cbn; [reflexivity|]. intros Hk.
  destruct (String.eqb_spec k' k) as [->|Hne]; [tauto|]. apply IH. tauto.
Qed.

(** A start request for which [get_json()] returns [None] (the JSON text
    [null]), or whose JSON object has no [concurrentUsers] key, is answered
    like one that asks for 10 users: 200 with [concurrentUsers] 10, and the
    store is reset and tracking. *)
Theorem start_defaults_to_ten_users b now s :
  (b = Server.NoJson \/
   exists d, b = Server.JsonObject d /\ ~ In "concurrentUsers"%string (map fst d)) ->
  Server.start_stress_test b now s
  = Server.start_stress_test
      (Server.JsonObject [("concurrentUsers"%string, Server.JInt 10)]) now s /\
  exists s',
    Server.start_stress_test b now s = ((Server.BStarted 10, 200), s') /\
    Server.response_times s' = [] /\
    Server.total_requests s' = 0 /\
    Server.failed_requests s' = 0 /\
    Server.concurrent_requests s' = 10 /\
    Server.start_time s' = Some now /\
    Server.test_active s' = true.
Proof.
  intros Hb.
  assert (Server.requested_users b = Some (Server.JInt 10)) as Hreq.
  { destruct Hb as [->|(d & -> & Hd)]; [reflexivity|].
    cbn. now rewrite dict_get_absent. }
  unfold Server.start_stress_test. rewrite Hreq. cbn.
  split; [reflexivity|]. eexists. split; [reflexivity|]. repeat split.
Qed.

Lemma start_defaults_to_ten_users_witness :
  let s := Server.run [Server.Start Server.NoJson 1;
                       Server.Record "get_user" (1 # 10) 500] Server.initial in
  Server.start_stress_test (Server.JsonObject []) 2 s
  = ((Server.BStarted 10, 200), Server.reset 10 2) /\
  Server.start_stress_test Server.NoJson 2 s
  = ((Server.BStarted 10, 200), Server.reset 10 2).
Proof.
  intros s. split.
  - destruct (start_defaults_to_ten_users (Server.JsonObject []) 2 s)
      as [H _]; [|exact H].
    right. exists []. split; [reflexivity|]. intros [].
  - destruct (start_defaults_to_ten_users Server.NoJson 2 s)
      as [H _]; [|exact H].
    left. reflexivity.
Defined.

(** C10.  The code at the input on which the claim fails.  For a start
    request declared as JSON whose body is empty (in every version of Flask),
    and for one that is not declared as JSON (since Flask 2.1),
    [request.get_json()] raises before [or {}] is reached: the handler's
    [except] clause answers 500 and the store is left as it was, in whatever
    state.  A request whose JSON object omits [concurrentUsers] (here the
    empty object) is accepted with 10 users and resets the store. *)
Theorem start_without_json_body_fails since_2_1 now s :
  Server.start_stress_test (Flask.get_json since_2_1 Flask.Unparsable) now s
  = ((Server.BError "Error starting stress test", 500), s) /\
  Server.start_stress_test (Flask.get_json true Flask.NoJsonBody) now s
  = ((Server.BError "Error starting stress test", 500), s) /\
  Server.start_stress_test (Flask.get_json since_2_1 (Flask.JsonObj [])) now s
  = ((Server.BStarted 10, 200), Server.reset 10 now).
Proof. repeat split. Qed.

(** ** The load tester and network failures (C2) *)

Lemma make_request_raises_keeps_results request_id e elapsed t :
  let t' := snd (LoadTest.make_request request_id (LoadTest.Raises e) elapsed t) in
  LoadTest.response_times t' = LoadTest.response_times t /\
  LoadTest.status_codes t' = LoadTest.status_codes t /\
  LoadTest.errors t'
  = LoadTest.errors t ++ [LoadTest.NetworkError request_id e elapsed].
Proof. cbn. repeat split. Qed.

(** C2.  The code at an input on which the claim fails: of two requests, the
    second of which ends in a network error, the statistics count one request
    and no failure (the error is only kept in [errors]); and when the only
    request ends in a network error, [run_test] returns [None] instead of
    statistics. *)
Theorem network_failure_not_counted :
  let ok := {| LoadTest.call_request_id := 0;
               LoadTest.call_outcome := LoadTest.Response 200;
               LoadTest.call_elapsed := 1 # 10 |} in
  let ko := {| LoadTest.call_request_id := 1;
               LoadTest.call_outcome := LoadTest.Raises "Connection refused";
               LoadTest.call_elapsed := 2 # 10 |} in
  (exists st,
      LoadTest.run_test [ok; ko] 1 = Some (Some st) /\
      LoadTest.network_failures [ok; ko] = 1 /\
      LoadTest.total_requests st = 1 /\
      LoadTest.failed_requests st = 0 /\
      LoadTest.errors (LoadTest.after_calls [ok; ko] LoadTest.init)
      = [LoadTest.NetworkError 1 "Connection refused" (2 # 10)]) /\
  LoadTest.run_test [ko] 1 = None.
Proof.
  intros ok ko. split; [|reflexivity].
  eexists. split; [vm_compute; reflexivity|]. repeat split.
Qed.

(** ** Stop and the report (C5) *)

Lemma freeze_inactive s : Server.test_active s = false -> Server.freeze s = s.
Proof. destruct s; cbn. now intros ->. Qed.

Lemma endpoint_analysis_of_timeless failed e1 e2 times :
  option_map Spec.timeless_entry (Server.endpoint_analysis_of failed e1 times)
  = option_map Spec.timeless_entry (Server.endpoint_analysis_of failed e2 times).
Proof.
  unfold Server.endpoint_analysis_of.
  destruct (Py.len times =? 0); [reflexivity|].
  destruct (Py.getitem (Py.sorted times) (Py.len times / 2)); [|reflexivity].
  destruct (Py.min times); [|reflexivity].
  destruct (Py.max times); [|reflexivity].
  destruct (Server.percentile PyFloat.m_095 times); [|reflexivity].
  destruct (Server.percentile PyFloat.m_099 times); reflexivity.
Qed.

Lemma dict_set_map {A B} (g : A -> B) (d : list (string * A)) k v :
  map (fun '(ep, e) => (ep, g e)) (Server.dict_set d k v)
  = Server.dict_set (map (fun '(ep, e) => (ep, g e)) d) k (g v).
Proof.
  induction d as [|[k' v'] d IH]; cbn; [reflexivity|].
  destruct (String.eqb k' k); cbn; [reflexivity|]. now rewrite IH.
Qed.

Lemma some_eq {A} (a b : A) : Some a = Some b -> a = b.
Proof. now intros [= ->]. Qed.

Lemma analyse_timeless failed e1 e2 items :
  forall acc1 acc2,
    map (fun '(ep, e) => (ep, Spec.timeless_entry e)) acc1
    = map (fun '(ep, e) => (ep, Spec.timeless_entry e)) acc2 ->
    option_map (map (fun '(ep, e) => (ep, Spec.timeless_entry e)))
      (Server.analyse (Server.endpoint_analysis_of failed e1) items acc1)
    = option_map (map (fun '(ep, e) => (ep, Spec.timeless_entry e)))
        (Server.analyse (Server.endpoint_analysis_of failed e2) items acc2).
Proof.
  induction items as [|[ep times] items IH]; intros acc1 acc2 Hacc; cbn.
  - now rewrite Hacc.
  - destruct times as [|t times]; [now apply IH|].
    pose proof (endpoint_analysis_of_timeless failed e1 e2 (t :: times)) as H.
    destruct (Server.endpoint_analysis_of failed e1 (t :: times)) as [a1|],
             (Server.endpoint_analysis_of failed e2 (t :: times)) as [a2|];
      cbn [option_map] in H; try discriminate; [|reflexivity].
    apply some_eq in H. apply IH. rewrite !dict_set_map.
    f_equal; [exact Hacc|exact H].
Qed.

Lemma report_timeless s ts1 now1 f1 ts2 now2 f2 r1 :
  fst (Server.generate_scalability_report ts1 now1 s f1)
  = (Server.BReport r1, 200) ->
  exists r2,
    fst (Server.generate_scalability_report ts2 now2 s f2)
    = (Server.BReport r2, 200) /\
    Spec.timeless r2 = Spec.timeless r1.
Proof.
  unfold Server.generate_scalability_report.
  destruct (Server.response_times s) as [|b d] eqn:Hd; [discriminate|].
  cbn [Server.ts_elapsed_time].
  pose proof (analyse_timeless (Server.failed_requests s)
                (Server.elapsed_time now1 s) (Server.elapsed_time now2 s)
                (b :: d) [] [] eq_refl) as H.
  destruct (Server.analyse _ (b :: d) []) as [ea1|]; [|discriminate].
  destruct (Server.analyse _ (b :: d) []) as [ea2|]; [|discriminate].
  cbn [option_map] in H. apply some_eq in H. cbn [fst]. intros [= <-].
  eexists. split; [reflexivity|].
  unfold Spec.timeless; cbn [Server.rp_test_summary Server.rp_endpoint_analysis
    Server.ts_concurrent_users Server.ts_total_requests
    Server.ts_failed_requests Server.ts_success_rate].
  f_equal. symmetry. exact H.
Qed.

(** C5, as stated, fails: the report carries the time elapsed since the
    start, read when the report is generated.  A report generated at clock 2
    after the first stop and one generated at clock 3 after the second stop
    differ in [elapsed_time] (1 s and 2 s). *)
Lemma reports_after_stop_differ_with_clock :
  let s := Server.run [Server.Start Server.NoJson 1;
                       Server.Record "get_user" (1 # 10) 200] Server.initial in
  let s1 := snd (Server.stop_stress_test s) in
  let s2 := snd (Server.stop_stress_test s1) in
  exists r1 r2,
    fst (Server.generate_scalability_report "t" 2 s1 None)
    = (Server.BReport r1, 200) /\
    fst (Server.generate_scalability_report "t" 3 s2 None)
    = (Server.BReport r2, 200) /\
    r1 <> r2 /\
    ~ (Server.ts_elapsed_time (Server.rp_test_summary r1)
       == Server.ts_elapsed_time (Server.rp_test_summary r2))%Q.
Proof.
  intros s s1 s2. eexists. eexists.
  split; [vm_compute; reflexivity|].
  split; [vm_compute; reflexivity|].
  split; [intros H; discriminate H|].
  vm_compute. discriminate.
Qed.

(** C5, amended.  Stop is idempotent on the store: a second stop returns the
    same store and the same answer, and a stop while inactive returns the
    store unchanged; so reports generated at one clock reading after the first
    and after the second stop are equal.  Generated at different times, the
    two reports agree on every field but the timestamp, the elapsed time and
    the per-endpoint throughput. *)
Theorem stop_idempotent_report_up_to_clock s :
  let s1 := snd (Server.stop_stress_test s) in
  let s2 := snd (Server.stop_stress_test s1) in
  s2 = s1 /\
  fst (Server.stop_stress_test s1) = fst (Server.stop_stress_test s) /\
  (Server.test_active s = false -> s1 = s) /\
  (forall ts now f,
      Server.generate_scalability_report ts now s2 f
      = Server.generate_scalability_report ts now s1 f) /\
  (forall ts1 now1 f1 ts2 now2 f2 r1,
      fst (Server.generate_scalability_report ts1 now1 s1 f1)
      = (Server.BReport r1, 200) ->
      exists r2,
        fst (Server.generate_scalability_report ts2 now2 s2 f2)
        = (Server.BReport r2, 200) /\
        Spec.timeless r2 = Spec.timeless r1).
Proof.
  intros s1 s2. split; [reflexivity|]. split; [reflexivity|].
  split; [apply freeze_inactive|]. split; [reflexivity|].
  intros ts1 now1 f1 ts2 now2 f2 r1. apply report_timeless.
Qed.

Lemma stop_idempotent_report_up_to_clock_witness :
  let s := Server.run [Server.Start Server.NoJson 1;
                       Server.Record "get_user" (1 # 10) 200] Server.initial in
  let s1 := snd (Server.stop_stress_test s) in
  let s2 := snd (Server.stop_stress_test s1) in
  snd (Server.stop_stress_test Server.initial) = Server.initial /\
  exists r1 r2,
    fst (Server.generate_scalability_report "t" 2 s1 None)
    = (Server.BReport r1, 200) /\
    fst (Server.generate_scalability_report "u" 3 s2 None)
    = (Server.BReport r2, 200) /\
    Spec.timeless r2 = Spec.timeless r1.
Proof.
  intros s s1 s2. split.
  - apply (stop_idempotent_report_up_to_clock Server.initial). reflexivity.
  - eexists.
    assert (fst (Server.generate_scalability_report "t" 2 s1 None)
            = (Server.BReport _, 200)) as H1 by (vm_compute; reflexivity).
    destruct (stop_idempotent_report_up_to_clock s)
      as (_ & _ & _ & _ & H).
    destruct (H "t"%string 2%Q None "u"%string 3%Q None _ H1) as (r2 & H2 & H3).
    exists r2. split; [exact H1|]. split; assumption.
Defined.

(** ** The per-endpoint error rate (C1) *)

Lemma dict_get_dd_append (d : list (string * list Q)) k v ep :
  Server.dict_get (Server.dd_append d k v) ep []
  = if String.eqb k ep then Server.dict_get d k [] ++ [v]
    else Server.dict_get d ep [].
Proof.
  induction d as [|[k' l] d IH]; cbn.
  - destruct (String.eqb k ep); reflexivity.
  - destruct (String.eqb_spec k' k) as [->|Hk]; cbn.
    + destruct (String.eqb k ep); reflexivity.
    + rewrite IH. destruct (String.eqb_spec k ep) as [->|Hep].
      * apply String.eqb_neq in Hk. now rewrite Hk.
      * reflexivity.
Qed.

Lemma keys_dd_append_in (d : list (string * list Q)) k v x :
  In x (map fst (Server.dd_append d k v)) -> x = k \/ In x (map fst d).
Proof.
  induction d as [|[k' l] d IH]; cbn.
  - intuition auto.
  - destruct (String.eqb k' k); cbn; intuition auto.
Qed.

Lemma keys_dd_append (d : list (string * list Q)) k v :
  NoDup (map fst d) -> NoDup (map fst (Server.dd_append d k v)).
Proof.
  induction d as [|[k' l] d IH]; cbn; intros Hd.
  - repeat constructor. intros [].
  - inversion Hd as [|? ? Hk' Hd']; subst.
    destruct (String.eqb_spec k' k) as [->|Hne]; cbn.
    + constructor; assumption.
    + constructor; [|now apply IH].
      intros H. destruct (keys_dd_append_in _ _ _ _ H); [congruence|tauto].
Qed.

Lemma dict_get_in (d : list (string * list Q)) ep times :
  NoDup (map fst d) -> In (ep, times) d -> Server.dict_get d ep [] = times.
Proof.
  induction d as [|[k l] d IH]; cbn; intros Hd Hin; [tauto|].
  inversion Hd as [|? ? Hk Hd']; subst.
  destruct Hin as [[= -> ->]|Hin].
  - now rewrite String.eqb_refl.
  - destruct (String.eqb_spec k ep) as [->|Hne]; [|now apply IH].
    exfalso. apply Hk. change ep with (fst (ep, times)). now apply in_map.
Qed.

(** What a run without restart leaves in the store. *)
Lemma run_snoc ops o s : Server.run (ops ++ [o]) s = Server.step (Server.run ops s) o.
Proof. unfold Server.run. now rewrite fold_left_app. Qed.

Lemma len_filter_snoc {A} (p : A -> bool) l x :
  Py.len (filter p (l ++ [x])) = Py.len (filter p l) + (if p x then 1 else 0).
Proof.
  rewrite filter_app, len_app. cbn [filter]. destruct (p x); reflexivity.
Qed.

Lemma len_filter_le {A} (p : A -> bool) l : Py.len (filter p l) <= Py.len l.
Proof.
  induction l as [|x l IH]; cbn [filter]; [lia|].
  destruct (p x); rewrite !len_cons; lia.
Qed.

Lemma run_buckets cu t0 ops :
  Spec.no_start ops = true ->
  let s := Server.run ops (Server.reset cu t0) in
  NoDup (map fst (Server.response_times s)) /\
  (forall ep,
      Py.len (Server.dict_get (Server.response_times s) ep [])
      = Server.samples_in_bucket ep ops) /\
  Server.failed_requests s = Server.failed_in_run ops.
Proof.
  induction ops as [|o ops IH] using rev_ind; intros Hns; cbn zeta.
  - cbn. repeat split. constructor.
  - unfold Spec.no_start in Hns. rewrite forallb_app in Hns.
    apply Bool.andb_true_iff in Hns. destruct Hns as [Hns Ho].
    destruct (IH Hns) as (Hnd & Hb & Hf). rewrite run_snoc.
    unfold Server.samples_in_bucket, Server.failed_in_run.
    destruct o as [k v c|b now|]; [| discriminate Ho |].
    + cbn [Server.step Server.record Server.response_times
           Server.failed_requests].
      split; [now apply keys_dd_append|]. split.
      * intros ep. rewrite dict_get_dd_append, len_filter_snoc.
        cbn [Server.is_record_of].
        destruct (String.eqb k ep) eqn:Hk.
        -- apply String.eqb_eq in Hk. subst ep.
           rewrite len_app, Hb. reflexivity.
        -- rewrite Hb. unfold Server.samples_in_bucket. lia.
      * rewrite len_filter_snoc. cbn [Server.is_failed]. rewrite Hf.
        unfold Server.failed_in_run. destruct (400 <=? c); lia.
    + cbn [Server.step Server.stop_stress_test snd Server.freeze
           Server.response_times Server.failed_requests].
      split; [exact Hnd|]. split.
      * intros ep. rewrite len_filter_snoc. cbn. rewrite Hb.
        unfold Server.samples_in_bucket. lia.
      * rewrite len_filter_snoc. cbn. rewrite Hf.
        unfold Server.failed_in_run. lia.
Qed.

(** What [analyse] puts in its result. *)
Lemma dict_set_in {A} (d : list (string * A)) k v ep e :
  In (ep, e) (Server.dict_set d k v) -> (ep = k /\ e = v) \/ In (ep, e) d.
Proof.
  induction d as [|[k' v'] d IH]; cbn.
  - intros [[= <- <-]|[]]. now left.
  - destruct (String.eqb_spec k' k) as [->|Hne]; cbn.
    + intros [[= <- <-]|H]; [now left|right; now right].
    + intros [H|H]; [right; now left|].
      destruct (IH H); [now left|right; now right].
Qed.

Lemma analyse_in {A} (f : list Q -> option A) items :
  forall acc res ep e,
    Server.analyse f items acc = Some res -> In (ep, e) res ->
    In (ep, e) acc \/
    exists times, In (ep, times) items /\ times <> [] /\ f times = Some e.
Proof.
  induction items as [|[k times] items IH]; intros acc res ep e Hres Hin;
    cbn in Hres.
  - injection Hres as <-. now left.
  - destruct times as [|t times].
    + destruct (IH _ _ _ _ Hres Hin) as [H|(ts & H1 & H2)]; [now left|].
      right. exists ts. split; [now right|assumption].
    + destruct (f (t :: times)) as [a|] eqn:Hf; [|discriminate].
      destruct (IH _ _ _ _ Hres Hin) as [H|(ts & H1 & H2)].
      * destruct (dict_set_in _ _ _ _ _ H) as [[-> ->]|H']; [|now left].
        right. exists (t :: times). split; [now left|].
        split; [discriminate|assumption].
      * right. exists ts. split; [now right|assumption].
Qed.

Lemma analyse_some {A} (f : list Q -> option A) items :
  (forall ep times, In (ep, times) items -> times <> [] ->
                    exists e, f times = Some e) ->
  forall acc, exists res, Server.analyse f items acc = Some res.
Proof.
  induction items as [|[k times] items IH]; intros Hf acc; cbn.
  - eauto.
  - destruct times as [|t times].
    + apply IH. intros ep ts H. apply (Hf ep ts). now right.
    + destruct (Hf k (t :: times)) as [e ->]; [now left|discriminate|].
      apply IH. intros ep ts H. apply (Hf ep ts). now right.
Qed.

(** C1, as stated, fails: with one successful request to [get_user] and one
    failed request to [mark_attendance], the entry of [get_user] has
    error rate 1/1, although none of the samples of its bucket failed. *)
Lemma error_rate_counts_failures_of_other_buckets :
  let ops := [Server.Record "get_user" (1 # 10) 200;
              Server.Record "mark_attendance" (1 # 10) 404] in
  let s := Server.run (Server.Start Server.NoJson 1 :: ops) Server.initial in
  exists r e,
    fst (Server.generate_scalability_report "t" 2 s None)
    = (Server.BReport r, 200) /\
    In ("get_user"%string, e) (Server.rp_endpoint_analysis r) /\
    Server.failed_in_bucket "get_user" ops = 0 /\
    Server.samples_in_bucket "get_user" ops = 1 /\
    ~ (Server.ea_error_rate e
       == inject_Z (Server.failed_in_bucket "get_user" ops)
          / inject_Z (Server.samples_in_bucket "get_user" ops))%Q.
Proof.
  intros ops s. eexists. eexists.
  split; [vm_compute; reflexivity|].
  split; [left; reflexivity|].
  split; [reflexivity|]. split; [reflexivity|].
  vm_compute. discriminate.
Qed.

(** C1, amended.  In the report generated after a run (without restart) in
    which some sample was recorded, every per-endpoint entry has as error
    rate the number of failed samples of the whole run divided by the number
    [n] of samples of that endpoint's bucket; this is the number of failed
    samples of the bucket divided by [n] when no sample of another bucket
    failed. *)
Theorem error_rate_uses_run_failures cu t0 ops timestamp now f ep0 :
  Spec.no_start ops = true ->
  Py.len ops < 2 ^ 45 ->
  0 < Server.samples_in_bucket ep0 ops ->
  exists r,
    fst (Server.generate_scalability_report timestamp now
           (Server.run ops (Server.reset cu t0)) f)
    = (Server.BReport r, 200) /\
    forall ep e,
      In (ep, e) (Server.rp_endpoint_analysis r) ->
      Server.ea_total_requests e = Server.samples_in_bucket ep ops /\
      0 < Server.samples_in_bucket ep ops /\
      Server.ea_error_rate e
      = (inject_Z (Server.failed_in_run ops)
         / inject_Z (Server.samples_in_bucket ep ops))%Q /\
      ((forall o, In o ops -> Server.is_failed o = true ->
                  Server.is_record_of ep o = true) ->
       Server.ea_error_rate e
       = (inject_Z (Server.failed_in_bucket ep ops)
          / inject_Z (Server.samples_in_bucket ep ops))%Q).
Proof.
  intros Hns Hlen Hep0.
  destruct (run_buckets cu t0 ops Hns) as (Hnd & Hb & Hf).
  set (s := Server.run ops (Server.reset cu t0)) in *.
  assert (forall ep times,
             In (ep, times) (Server.response_times s) ->
             Py.len times = Server.samples_in_bucket ep ops /\
             Py.len times < 2 ^ 45) as Hbucket.
  { intros ep times Hin. rewrite <- Hb, (dict_get_in _ _ _ Hnd Hin).
    split; [reflexivity|].
    rewrite <- (dict_get_in _ _ _ Hnd Hin), Hb.
    unfold Server.samples_in_bucket.
    pose proof (len_filter_le (Server.is_record_of ep) ops). lia. }
  unfold Server.generate_scalability_report.
  destruct (Server.response_times s) as [|b d] eqn:Hd.
  { specialize (Hb ep0). cbn in Hb. lia. }
  cbn [Server.ts_elapsed_time].
  destruct (analyse_some
              (Server.endpoint_analysis_of (Server.failed_requests s)
                                           (Server.elapsed_time now s))
              (b :: d)) with (acc := @nil (Server.endpoint * Server.endpoint_analysis))
    as [res Hres].
  { intros ep times Hin Hne.
    destruct (endpoint_analysis_of_some (Server.failed_requests s)
                (Server.elapsed_time now s) times Hne)
      as (? & ? & ? & ? & ? & _ & _ & _ & _ & _ & H);
      [apply (Hbucket ep times Hin)|eauto]. }
  rewrite Hres. cbn [fst]. eexists. split; [reflexivity|].
  cbn [Server.rp_endpoint_analysis]. intros ep e Hin.
  destruct (analyse_in _ _ _ _ _ _ Hres Hin) as [[]|(times & Hin' & Hne & He)].
  destruct (Hbucket ep times Hin') as [Hn Hlt].
  destruct (endpoint_analysis_of_some (Server.failed_requests s)
              (Server.elapsed_time now s) times Hne Hlt)
    as (? & ? & ? & ? & ? & _ & _ & _ & _ & _ & H).
  rewrite H in He. apply some_eq in He. subst e.
  cbn [Server.ea_total_requests Server.ea_error_rate].
  pose proof (len_pos times Hne) as Hpos.
  rewrite Z.max_l by lia. rewrite Hn in *. rewrite Hf.
  split; [reflexivity|]. split; [exact Hpos|]. split; [reflexivity|].
  intros Honly. unfold Server.failed_in_run, Server.failed_in_bucket.
  do 3 f_equal. apply filter_ext_in. intros o Ho.
  destruct (Server.is_failed o) eqn:Hfail.
  - now rewrite (Honly o Ho Hfail).
  - now rewrite Bool.andb_false_r.
Qed.

Lemma error_rate_uses_run_failures_witness :
  let ops := [Server.Record "get_user" (1 # 10) 200;
              Server.Record "mark_attendance" (1 # 10) 404] in
  exists r,
    fst (Server.generate_scalability_report "t" 2
           (Server.run ops (Server.reset 10 1)) None)
    = (Server.BReport r, 200) /\
    forall ep e,
      In (ep, e) (Server.rp_endpoint_analysis r) ->
      Server.ea_error_rate e
      = (inject_Z 1 / inject_Z (Server.samples_in_bucket ep ops))%Q.
Proof.
  intros ops.
  destruct (error_rate_uses_run_failures 10 1 ops "t" 2 None "get_user"%string)
    as (r & Hr & Hall).
  - reflexivity.
  - reflexivity.
  - reflexivity.
  - exists r. split; [exact Hr|]. intros ep e Hin.
    destruct (Hall ep e Hin) as (_ & _ & H & _). exact H.
Defined.

(** ** The controller seen through the interceptor *)

(** The interceptor times the controller's own requests like any other: a
    rejected start request leaves the store unchanged when tracking is off,
    and is itself recorded as one failed sample when tracking is on. *)
Remark rejected_start_seen_by_interceptor d cu t_in t_handler t_out s :
  Server.dict_get d "concurrentUsers"%string (Server.JInt 10) = Server.JInt cu ->
  cu < 1 \/ 1000 < cu ->
  Server.handle (Server.PostStart (Server.JsonObject d)) t_in t_handler t_out s
  = if Server.test_active s
    then Server.record "start_stress_test" (t_out - t_in)%Q 400 s
    else s.
Proof.
  intros Hd Hbad. unfold Server.handle, Server.start_stress_test.
  cbn [Server.requested_users]. rewrite Hd. cbn [Server.py_int].
  assert (((cu <? 1) || (1000 <? cu))%bool = true) as ->.
  { apply Bool.orb_true_iff. destruct Hbad; [left|right]; now apply Z.ltb_lt. }
  unfold Server.after_request, Server.before_request.
  destruct (Server.test_active s); reflexivity.
Qed.

(* ================================================================== *)
(** * Further properties of the server                                 *)
(* ================================================================== *)

(** ** Stores reached by critical sections and by requests *)

Lemma well_formed_initial : Reach.well_formed Server.initial.
Proof. repeat split; try constructor; cbn; lia. Qed.

Lemma well_formed_reset cu now : Reach.well_formed (Server.reset cu now).
Proof. repeat split; try constructor; cbn; lia. Qed.

Lemma well_formed_record ep t c s :
  Reach.well_formed s -> Reach.well_formed (Server.record ep t c s).
Proof.
  intros (Hnd & Hne & Htot & Hf). split; [|split; [|split]].
  - cbn. now apply keys_dd_append.
  - cbn. now apply dd_append_nonempty.
  - rewrite sample_count_record, <- Htot. reflexivity.
  - cbn. destruct (400 <=? c); lia.
Qed.

Lemma well_formed_freeze s :
  Reach.well_formed s -> Reach.well_formed (Server.freeze s).
Proof. intros H. exact H. Qed.

Lemma well_formed_start b now s :
  Reach.well_formed s ->
  Reach.well_formed (snd (Server.start_stress_test b now s)).
Proof.
  intros Hs. destruct (start_cases b now s) as [->|(cu & _ & ->)];
    [assumption|apply well_formed_reset].
Qed.

Lemma well_formed_step s o :
  Reach.well_formed s -> Reach.well_formed (Server.step s o).
Proof.
  intros Hs. destruct o as [ep t c|b now|]; cbn [Server.step].
  - now apply well_formed_record.
  - now apply well_formed_start.
  - exact Hs.
Qed.

Lemma well_formed_run ops s :
  Reach.well_formed s -> Reach.well_formed (Server.run ops s).
Proof.
  revert s. induction ops as [|o ops IH]; intros s Hs; cbn; [exact Hs|].
  apply IH, well_formed_step, Hs.
Qed.

Lemma well_formed_after_request req_start now ep c s :
  Reach.well_formed s ->
  Reach.well_formed (Server.after_request req_start now ep c s).
Proof.
  intros Hs. unfold Server.after_request.
  destruct (Server.test_active s); [|exact Hs].
  destruct req_start; [now apply well_formed_record|exact Hs].
Qed.

Lemma handle_start_eq b t_in t_handler t_out s :
  Server.handle (Server.PostStart b) t_in t_handler t_out s
  = Server.after_request (Server.before_request t_in s) t_out
      "start_stress_test"
      (snd (fst (Server.start_stress_test b t_handler s)))
      (snd (Server.start_stress_test b t_handler s)).
Proof.
  unfold Server.handle.
  now destruct (Server.start_stress_test b t_handler s) as [[bd st] s'].
Qed.

Lemma well_formed_handle r t1 t2 t3 s :
  Reach.well_formed s -> Reach.well_formed (Server.handle r t1 t2 t3 s).
Proof.
  intros Hs. destruct r as [b| |ep c].
  - rewrite handle_start_eq. apply well_formed_after_request.
    now apply well_formed_start.
  - cbn. exact Hs.
  - apply well_formed_after_request. exact Hs.
Qed.

Lemma well_formed_serve reqs s :
  Reach.well_formed s -> Reach.well_formed (Server.serve reqs s).
Proof.
  revert s. induction reqs as [|[r [[t1 t2] t3]] reqs IH]; intros s Hs; cbn;
    [exact Hs|].
  apply IH, well_formed_handle, Hs.
Qed.

(** The start handler either rejects (store unchanged, status 400 or 500)
    or accepts, as [Reach.accepted_start] says. *)
Lemma start_rejected b now s :
  Reach.accepted_start (Server.PostStart b) = false ->
  snd (Server.start_stress_test b now s) = s /\
  400 <= snd (fst (Server.start_stress_test b now s)).
Proof.
  unfold Reach.accepted_start, Server.start_stress_test.
  destruct (Server.requested_users b) as [v|]; [|intros _; cbn; split; [reflexivity|lia]].
  destruct (Server.py_int v) as [cu|]; [|intros _; cbn; split; [reflexivity|lia]].
  intros H.
  assert (((cu <? 1) || (1000 <? cu))%bool = true) as ->.
  { apply Bool.andb_false_iff in H. apply Bool.orb_true_iff.
    destruct H as [H|H]; apply Z.leb_gt in H; [left|right];
      apply Z.ltb_lt; lia. }
  cbn. split; [reflexivity|lia].
Qed.

Lemma start_accepted b now s :
  Reach.accepted_start (Server.PostStart b) = true ->
  exists cu, 1 <= cu <= 1000 /\
    Server.start_stress_test b now s
    = ((Server.BStarted cu, 200), Server.reset cu now).
Proof.
  unfold Reach.accepted_start, Server.start_stress_test.
  destruct (Server.requested_users b) as [v|]; [|discriminate].
  destruct (Server.py_int v) as [cu|]; [|discriminate].
  intros H. apply Bool.andb_true_iff in H. destruct H as [H1 H2].
  apply Z.leb_le in H1, H2. exists cu. split; [lia|].
  assert (((cu <? 1) || (1000 <? cu))%bool = false) as ->; [|reflexivity].
  apply Bool.orb_false_iff. split; apply Z.ltb_ge; lia.
Qed.

Lemma started_handle r t1 t2 t3 s :
  Reach.started_or_initial s ->
  Reach.started_or_initial (Server.handle r t1 t2 t3 s).
Proof.
  intros Hs.
  assert (forall rs now ep c,
             Reach.started_or_initial
               (Server.after_request rs now ep c s)) as Hafter.
  { intros rs now ep c. unfold Server.after_request.
    destruct (Server.test_active s) eqn:Ha; [|exact Hs].
    destruct rs; [|exact Hs].
    unfold Reach.started_or_initial in *. cbn.
    destruct (Server.start_time s); [exact Hs|].
    subst s. discriminate Ha. }
  destruct r as [b| |ep c].
  - rewrite handle_start_eq.
    destruct (Reach.accepted_start (Server.PostStart b)) eqn:Hacc.
    + destruct (start_accepted b t2 s Hacc) as (cu & Hcu & ->). cbn [fst snd].
      unfold Server.after_request. cbn [Server.reset Server.test_active].
      destruct (Server.before_request t1 s);
        unfold Reach.started_or_initial; cbn; exact Hcu.
    + destruct (start_rejected b t2 s Hacc) as [-> _]. apply Hafter.
  - unfold Server.handle. cbn [Server.stop_stress_test].
    unfold Server.after_request. cbn [Server.freeze Server.test_active].
    unfold Reach.started_or_initial in *. cbn.
    destruct (Server.start_time s) eqn:Hst; [exact Hs|]. now subst s.
  - apply Hafter.
Qed.

Lemma started_serve reqs s :
  Reach.started_or_initial s -> Reach.started_or_initial (Server.serve reqs s).
Proof.
  revert s. induction reqs as [|[r [[t1 t2] t3]] reqs IH]; intros s Hs; cbn;
    [exact Hs|].
  apply IH, started_handle, Hs.
Qed.

Lemma bucket_le_count (d : list (string * list Q)) ep :
  Py.len (Server.dict_get d ep [])
  <= fold_right (fun '(_, times) acc => Py.len times + acc) 0 d.
Proof.
  induction d as [|[k l] d IH]; cbn [Server.dict_get fold_right].
  - cbn. lia.
  - assert (0 <= fold_right (fun '(_, times) acc => Py.len times + acc) 0 d).
    { clear. induction d as [|[k' l'] d IH]; cbn [fold_right]; [lia|].
      pose proof (len_nonneg l'). lia. }
    pose proof (len_nonneg l). destruct (String.eqb k ep); lia.
Qed.

(** X4.  Stores reached from the initial one.  After any sequence of
    critical sections: every endpoint has one bucket, no bucket is empty, the
    failures are between 0 and the number of requests, and no bucket is longer
    than [total_requests].  After any sequence of requests handled one at a
    time, the same holds, and moreover: a store without start time is the
    initial store, a store with a start time has a target between 1 and 1000,
    and tracking is only on in a store with a start time. *)
Theorem reachable_store_invariants :
  (forall ops,
      let s := Server.run ops Server.initial in
      NoDup (map fst (Server.response_times s)) /\
      Forall (fun b => snd b <> []) (Server.response_times s) /\
      0 <= Server.failed_requests s <= Server.total_requests s /\
      forall ep,
        Py.len (Server.dict_get (Server.response_times s) ep [])
        <= Server.total_requests s) /\
  (forall reqs,
      let s := Server.serve reqs Server.initial in
      NoDup (map fst (Server.response_times s)) /\
      Forall (fun b => snd b <> []) (Server.response_times s) /\
      0 <= Server.failed_requests s <= Server.total_requests s /\
      (forall ep,
          Py.len (Server.dict_get (Server.response_times s) ep [])
          <= Server.total_requests s) /\
      (Server.start_time s = None -> s = Server.initial) /\
      (Server.start_time s <> None ->
       1 <= Server.concurrent_requests s <= 1000) /\
      (Server.test_active s = true -> Server.start_time s <> None)).
Proof.
  split.
  - intros ops s.
    destruct (well_formed_run ops _ well_formed_initial)
      as (Hnd & Hne & Htot & Hf).
    repeat (split; [assumption|]).
    intros ep. fold s in Htot. rewrite Htot. apply bucket_le_count.
  - intros reqs s.
    destruct (well_formed_serve reqs _ well_formed_initial)
      as (Hnd & Hne & Htot & Hf).
    repeat (split; [assumption|]).
    split; [intros ep; fold s in Htot; rewrite Htot; apply bucket_le_count|].
    pose proof (started_serve reqs Server.initial eq_refl) as Hst.
    fold s in Hst. unfold Reach.started_or_initial in Hst.
    destruct (Server.start_time s) eqn:Hs.
    + split; [discriminate|]. split; [intros _; exact Hst|]. discriminate.
    + split; [intros _; exact Hst|]. split; [congruence|].
      rewrite Hst. discriminate.
Qed.

(** ** The interceptor *)

Lemma handle_inactive r t1 t2 t3 s :
  Server.test_active s = false ->
  Reach.accepted_start r = false ->
  Server.handle r t1 t2 t3 s = s.
Proof.
  intros Ha Hr. destruct r as [b| |ep c].
  - rewrite handle_start_eq. destruct (start_rejected b t2 s Hr) as [-> _].
    unfold Server.after_request. now rewrite Ha.
  - cbn. now apply freeze_inactive.
  - unfold Server.handle, Server.after_request. now rewrite Ha.
Qed.

(** X1.  While tracking is off the interceptor drops every request: whatever
    requests are handled, short of an accepted start, the store stays as it
    is (in particular after a stop). *)
Theorem inactive_store_is_frozen reqs s :
  Server.test_active s = false ->
  forallb (fun q => negb (Reach.accepted_start (fst q))) reqs = true ->
  Server.serve reqs s = s.
Proof.
  intros Ha. induction reqs as [|[r [[t1 t2] t3]] reqs IH]; cbn;
    [reflexivity|].
  intros H. apply Bool.andb_true_iff in H. destruct H as [Hr Hrs].
  apply Bool.negb_true_iff in Hr.
  rewrite (handle_inactive r t1 t2 t3 s Ha Hr). now apply IH.
Qed.

Lemma inactive_store_is_frozen_witness :
  let s := snd (Server.stop_stress_test
                  (Server.run [Server.Start Server.NoJson 1;
                               Server.Record "get_user" (1 # 10) 200]
                              Server.initial)) in
  Server.serve
    [(Server.Other "get_user" 200, (2, 3, 4)%Q);
     (Server.PostStart (Server.JsonObject
                          [("concurrentUsers"%string, Server.JInt 0)]),
      (5, 6, 7)%Q);
     (Server.PostStop, (8, 9, 10)%Q)] s = s.
Proof.
  intros s. apply inactive_store_is_frozen; reflexivity.
Defined.

(** X2.  While tracking is on, a request to a route outside the controller
    adds exactly one sample: its duration goes to the end of the bucket of
    its endpoint, the other buckets are untouched, [total_requests] grows by
    one and [failed_requests] by one exactly when the status is 400 or
    more. *)
Theorem active_request_is_recorded ep status t_in t_handler t_out s :
  Server.test_active s = true ->
  let s' := Server.handle (Server.Other ep status) t_in t_handler t_out s in
  Server.dict_get (Server.response_times s') ep []
  = Server.dict_get (Server.response_times s) ep [] ++ [(t_out - t_in)%Q] /\
  (forall ep', ep' <> ep ->
     Server.dict_get (Server.response_times s') ep' []
     = Server.dict_get (Server.response_times s) ep' []) /\
  Server.total_requests s' = Server.total_requests s + 1 /\
  Server.failed_requests s'
  = Server.failed_requests s + (if 400 <=? status then 1 else 0) /\
  Server.concurrent_requests s' = Server.concurrent_requests s /\
  Server.start_time s' = Server.start_time s /\
  Server.test_active s' = true.
Proof.
  intros Ha s'. unfold s', Server.handle, Server.before_request,
    Server.after_request. rewrite Ha.
  cbn [Server.record Server.response_times Server.total_requests
       Server.failed_requests Server.concurrent_requests Server.start_time
       Server.test_active].
  split; [|split].
  - rewrite dict_get_dd_append. now rewrite String.eqb_refl.
  - intros ep' Hne. rewrite dict_get_dd_append.
    destruct (String.eqb_spec ep ep'); [congruence|reflexivity].
  - repeat split; try assumption. destruct (400 <=? status); lia.
Qed.

Lemma active_request_is_recorded_witness :
  let s := Server.run [Server.Start Server.NoJson 1;
                       Server.Record "get_user" (1 # 10) 200]
                      Server.initial in
  let s' := Server.handle (Server.Other "get_user" 404) 2 3 4 s in
  Server.dict_get (Server.response_times s') "get_user" []
  = [1 # 10; 4 - 2]%Q /\
  Server.failed_requests s' = 1.
Proof.
  intros s s'.
  destruct (active_request_is_recorded "get_user"%string 404 2 3 4 s eq_refl)
    as (H1 & _ & _ & H2 & _).
  split; [exact H1|exact H2].
Defined.

(** X3.  An accepted start request resets the store; when tracking was off
    the start request itself is not recorded, when tracking was on it is
    recorded in the fresh store as its first sample. *)
Theorem accepted_start_through_interceptor b t_in t_handler t_out s :
  Reach.accepted_start (Server.PostStart b) = true ->
  exists cu,
    1 <= cu <= 1000 /\
    Server.handle (Server.PostStart b) t_in t_handler t_out s
    = (if Server.test_active s
       then Server.record "start_stress_test" (t_out - t_in)%Q 200
              (Server.reset cu t_handler)
       else Server.reset cu t_handler) /\
    Server.total_requests
      (Server.handle (Server.PostStart b) t_in t_handler t_out s)
    = (if Server.test_active s then 1 else 0) /\
    Server.failed_requests
      (Server.handle (Server.PostStart b) t_in t_handler t_out s) = 0.
Proof.
  intros Hacc. destruct (start_accepted b t_handler s Hacc) as (cu & Hcu & Hst).
  exists cu. split; [exact Hcu|].
  rewrite handle_start_eq, Hst. cbn [fst snd].
  unfold Server.after_request, Server.before_request.
  cbn [Server.reset Server.test_active].
  destruct (Server.test_active s); repeat split.
Qed.

Lemma accepted_start_through_interceptor_witness :
  let s := Server.run [Server.Start Server.NoJson 1;
                       Server.Record "get_user" (1 # 10) 200]
                      Server.initial in
  exists cu,
    Server.handle (Server.PostStart Server.NoJson) 2 3 4 s
    = Server.record "start_stress_test" (4 - 2)%Q 200 (Server.reset cu 3).
Proof.
  intros s.
  destruct (accepted_start_through_interceptor Server.NoJson 2 3 4 s eq_refl)
    as (cu & _ & H & _).
  exists cu. exact H.
Defined.

(** X5.  In every store reached from the initial one the success rate shown
    by the metrics and report handlers is a fraction between 0 and 1; it is 0
    when no request is recorded and 1 when requests are recorded and none
    failed. *)
Theorem success_rate_is_a_fraction ops :
  let s := Server.run ops Server.initial in
  (0 <= Server.success_rate s <= 1)%Q /\
  (Server.total_requests s = 0 -> (Server.success_rate s == 0)%Q) /\
  (0 < Server.total_requests s -> Server.failed_requests s = 0 ->
   (Server.success_rate s == 1)%Q).
Proof.
  intros s.
  destruct (well_formed_run ops _ well_formed_initial)
    as (_ & _ & _ & Hf). fold s in Hf.
  unfold Server.success_rate.
  set (t := Server.total_requests s) in *.
  set (f := Server.failed_requests s) in *.
  assert (0 < Z.max t 1) as Hpos by lia.
  assert (0 < inject_Z (Z.max t 1))%Q as HposQ
      by (change 0%Q with (inject_Z 0); rewrite <- Zlt_Qlt; exact Hpos).
  split; [split|split].
  - apply Qle_shift_div_l; [exact HposQ|]. rewrite Qmult_0_l.
    change 0%Q with (inject_Z 0). rewrite <- Zle_Qle. lia.
  - apply Qle_shift_div_r; [exact HposQ|]. rewrite Qmult_1_l.
    rewrite <- Zle_Qle. lia.
  - intros Ht. assert (f = 0) as -> by lia. rewrite Ht. reflexivity.
  - intros Ht Hf0. rewrite Hf0, Z.sub_0_r, Z.max_l by lia.
    field. intros H. unfold Qeq in H. cbn in H. lia.
Qed.

Lemma success_rate_is_a_fraction_witness :
  (Server.success_rate
     (Server.run [Server.Start Server.NoJson 1;
                  Server.Record "get_user" (1 # 10) 200] Server.initial)
   == 1)%Q.
Proof.
  apply (success_rate_is_a_fraction
           [Server.Start Server.NoJson 1;
            Server.Record "get_user" (1 # 10) 200]); reflexivity.
Defined.

(** ** Order of the reduced values *)

Lemma Qle_bool_false x y : Qle_bool x y = false -> (y <= x)%Q.
Proof.
  intros H. apply Qlt_le_weak, Qnot_le_lt. intros Hle.
  apply Qle_bool_iff in Hle. congruence.
Qed.

Lemma min_fold_lower l x :
  let r := fold_left (fun m y => if Qle_bool m y then m else y) l x in
  In r (x :: l) /\ (r <= x)%Q /\ forall y, In y l -> (r <= y)%Q.
Proof.
  revert x. induction l as [|z l IH]; intros x; cbn [fold_left].
  - split; [now left|]. split; [apply Qle_refl|]. intros y [].
  - destruct (Qle_bool x z) eqn:Hxz.
    + apply Qle_bool_iff in Hxz. destruct (IH x) as (Hin & Hx & Hl).
      split; [destruct Hin as [<-|Hin]; [now left|right; now right]|].
      split; [exact Hx|]. intros y [<-|Hy]; [|now apply Hl].
      now apply Qle_trans with x.
    + apply Qle_bool_false in Hxz. destruct (IH z) as (Hin & Hz & Hl).
      split; [right; exact Hin|].
      split; [now apply Qle_trans with z|].
      intros y [<-|Hy]; [exact Hz|now apply Hl].
Qed.

Lemma max_fold_in l x :
  In (fold_left (fun m y => if Qle_bool y m then m else y) l x) (x :: l).
Proof.
  revert x. induction l as [|z l IH]; intros x; cbn [fold_left].
  - now left.
  - destruct (Qle_bool z x).
    + destruct (IH x) as [<-|Hin]; [now left|right; now right].
    + right. apply IH.
Qed.

Lemma min_spec l lo :
  Py.min l = Some lo -> In lo l /\ forall x, In x l -> (lo <= x)%Q.
Proof.
  destruct l as [|x0 l]; [discriminate|]. cbn [Py.min]. intros [= <-].
  destruct (min_fold_lower l x0) as (Hin & H0 & Hl).
  split; [exact Hin|]. intros x [<-|Hx]; [exact H0|now apply Hl].
Qed.

Lemma max_spec l hi :
  Py.max l = Some hi -> In hi l /\ forall x, In x l -> (x <= hi)%Q.
Proof.
  intros H. split; [|now apply max_upper].
  destruct l as [|x0 l]; [discriminate|]. cbn [Py.max] in H.
  injection H as <-. apply max_fold_in.
Qed.

Lemma sorted_nth_in times i x :
  nth_error (Py.sorted times) i = Some x -> In x times.
Proof.
  intros H. apply (Permutation_in _ (Permutation_sym (sorted_perm times))).
  eapply nth_error_In; exact H.
Qed.

Lemma inject_Z_len_cons {A} (x : A) l :
  (inject_Z (Py.len (x :: l)) == inject_Z (Py.len l) + 1)%Q.
Proof. rewrite len_cons, inject_Z_plus. reflexivity. Qed.

Lemma sum_bounds l lo hi :
  (forall x, In x l -> (lo <= x <= hi)%Q) ->
  (inject_Z (Py.len l) * lo <= fold_right Qplus 0 l
   <= inject_Z (Py.len l) * hi)%Q.
Proof.
  induction l as [|x l IH]; intros H.
  - change (Py.len (@nil Q)) with 0. cbn [fold_right].
    rewrite !Qmult_0_l. split; apply Qle_refl.
  - cbn [fold_right]. rewrite inject_Z_len_cons.
    destruct IH as [IHlo IHhi]; [intros y Hy; apply H; now right|].
    destruct (H x (or_introl eq_refl)) as [Hlo Hhi]. split.
    + setoid_replace ((inject_Z (Py.len l) + 1) * lo)%Q
        with (lo + inject_Z (Py.len l) * lo)%Q by ring.
      now apply Qplus_le_compat.
    + setoid_replace ((inject_Z (Py.len l) + 1) * hi)%Q
        with (hi + inject_Z (Py.len l) * hi)%Q by ring.
      now apply Qplus_le_compat.
Qed.

Lemma mean_bounds l lo hi :
  l <> [] ->
  (forall x, In x l -> (lo <= x <= hi)%Q) ->
  (lo <= Py.sum l / inject_Z (Py.len l) <= hi)%Q.
Proof.
  intros Hne H. pose proof (len_pos l Hne) as Hpos.
  assert (0 < inject_Z (Py.len l))%Q as HposQ
      by (change 0%Q with (inject_Z 0); rewrite <- Zlt_Qlt; exact Hpos).
  destruct (sum_bounds l lo hi H) as [Hlo Hhi].
  rewrite sum_fold_right. split.
  - apply Qle_shift_div_l; [exact HposQ|]. now rewrite Qmult_comm.
  - apply Qle_shift_div_r; [exact HposQ|]. now rewrite Qmult_comm.
Qed.

(** X6.  For every non-empty bucket (shorter than [2^45]) the metrics
    handler's entry has as minimum and maximum elements of the bucket that
    bound all its elements; median, p95 and p99 are elements of the bucket,
    hence between minimum and maximum, and the median is at most p95, which
    is at most p99. *)
Theorem metrics_entry_is_ordered times :
  times <> [] -> Py.len times < 2 ^ 45 ->
  exists em,
    Server.endpoint_metrics_of times = Some em /\
    Server.em_total_requests em = Py.len times /\
    In (Server.em_min_response_time em) times /\
    In (Server.em_max_response_time em) times /\
    In (Server.em_median_response_time em) times /\
    In (Server.em_p95_response_time em) times /\
    In (Server.em_p99_response_time em) times /\
    (forall x, In x times ->
       (Server.em_min_response_time em <= x
        <= Server.em_max_response_time em)%Q) /\
    (Server.em_median_response_time em <= Server.em_p95_response_time em)%Q /\
    (Server.em_p95_response_time em <= Server.em_p99_response_time em)%Q.
Proof.
  intros Hne Hlen.
  destruct (endpoint_metrics_of_some times Hne Hlen)
    as (med & lo & hi & p95 & p99 & Hmed & Hlo & Hhi & H95 & H99 & Hem).
  destruct (percentile_rank _ 95 times int_mul_095)
    as (q95 & Hs95 & _ & Hn95); [lia|assumption..|].
  destruct (percentile_rank _ 99 times int_mul_099)
    as (q99 & Hs99 & _ & Hn99); [lia|assumption..|].
  assert (q95 = p95) as -> by congruence.
  assert (q99 = p99) as -> by congruence.
  destruct (min_spec _ _ Hlo) as [Hlo_in Hlo_le].
  destruct (max_spec _ _ Hhi) as [Hhi_in Hhi_le].
  eexists. split; [exact Hem|]. cbn.
  split; [reflexivity|]. split; [exact Hlo_in|]. split; [exact Hhi_in|].
  split; [eapply sorted_nth_in; exact Hmed|].
  split; [eapply sorted_nth_in; exact Hn95|].
  split; [eapply sorted_nth_in; exact Hn99|].
  assert (forall x, In x times -> (lo <= x <= hi)%Q) as Hall
      by (intros x Hx; split; [now apply Hlo_le|now apply Hhi_le]).
  split; [exact Hall|].
  pose proof (len_pos times Hne) as Hpos.
  assert (0 <= Py.len times / 2 <= 95 * Py.len times / 100) as Hmid.
  { split; [apply Z.div_pos; lia|].
    destruct (Z.eq_dec (Py.len times) 1) as [->|H1]; [cbn; lia|].
    apply Z.div_le_lower_bound; [lia|].
    pose proof (Z.mul_div_le (Py.len times) 2 ltac:(lia)). lia. }
  assert (95 * Py.len times / 100 <= 99 * Py.len times / 100) as Hpp
      by (apply Z.div_le_mono; lia).
  assert (Py.len times / 2 < Py.len times)
    by (apply Z.div_lt_upper_bound; lia).
  split.
  - destruct (Z.eq_dec (Py.len times) 1) as [E1|E1].
    + rewrite E1 in Hmed, Hn95. cbn in Hmed, Hn95.
      assert (med = p95) as -> by congruence. apply Qle_refl.
    + eapply (sorted_nth_le _ (sorted_sorted times));
        [|exact Hmed|exact Hn95].
      assert (95 * Py.len times / 100 < Py.len times)
        by (apply Z.div_lt_upper_bound; lia).
      lia.
  - eapply (sorted_nth_le _ (sorted_sorted times)); [|exact Hn95|exact Hn99].
    assert (0 <= 95 * Py.len times / 100) by (apply Z.div_pos; lia).
    lia.
Qed.

Lemma metrics_entry_is_ordered_witness :
  exists em,
    Server.endpoint_metrics_of [30 # 1000; 10 # 1000; 20 # 1000]%Q = Some em /\
    (Server.em_median_response_time em <= Server.em_p95_response_time em)%Q.
Proof.
  destruct (metrics_entry_is_ordered [30 # 1000; 10 # 1000; 20 # 1000]%Q)
    as (em & Hem & _ & _ & _ & _ & _ & _ & _ & Hmed & _).
  - discriminate.
  - reflexivity.
  - exists em. split; [exact Hem|exact Hmed].
Defined.

(** ** Variance *)

Lemma square_nonneg (q : Q) : (0 <= q * q)%Q.
Proof. destruct q as [n d]. unfold Qle, Qmult. cbn. nia. Qed.

Lemma sum_sq_nonneg m l :
  (0 <= fold_right Qplus 0 (map (fun t => (t - m) * (t - m)) l))%Q.
Proof.
  induction l as [|x l IH]; cbn [map fold_right]; [apply Qle_refl|].
  apply (Qle_trans _ (0 + 0)); [apply Qle_refl|].
  apply Qplus_le_compat; [apply square_nonneg|exact IH].
Qed.

Lemma variance_nonneg times : (0 <= Server.variance times)%Q.
Proof.
  destruct times as [|x l]; [vm_compute; discriminate|].
  pose proof (len_pos (x :: l) ltac:(discriminate)) as Hpos.
  unfold Server.variance, Py.sum_sq_dev. rewrite sum_fold_right.
  apply Qle_shift_div_l.
  - change 0%Q with (inject_Z 0). rewrite <- Zlt_Qlt. exact Hpos.
  - rewrite Qmult_0_l. apply sum_sq_nonneg.
Qed.

(** X7.  The variance computed by the report handler is never negative (so
    [variance ** 0.5] is a real number), the reported standard deviation in
    ms is the non-negative real whose square is [10^6] times the variance,
    and for a single sample it is 0. *)
Theorem report_std_dev_is_real failed elapsed times :
  times <> [] -> Py.len times < 2 ^ 45 ->
  exists ea,
    Server.endpoint_analysis_of failed elapsed times = Some ea /\
    (0 <= Server.variance times)%Q /\
    (0 <= Py.root_val (Server.ea_std_dev_ms ea))%R /\
    (Py.root_val (Server.ea_std_dev_ms ea)
     * Py.root_val (Server.ea_std_dev_ms ea)
     = 1000000 * Q2R (Server.variance times))%R /\
    (Py.len times = 1 -> Py.root_val (Server.ea_std_dev_ms ea) = 0%R).
Proof.
  intros Hne Hlen.
  destruct (endpoint_analysis_of_some failed elapsed times Hne Hlen)
    as (med & lo & hi & p95 & p99 & _ & _ & _ & _ & _ & Hea).
  eexists. split; [exact Hea|]. cbn [Server.ea_std_dev_ms].
  rewrite root_val_scaled.
  pose proof (variance_nonneg times) as Hv.
  assert (0 <= Q2R (Server.variance times))%R as HvR.
  { replace 0%R with (Q2R 0) by (unfold Q2R; cbn; lra). now apply Qle_Rle. }
  pose proof (sqrt_pos (Q2R (Server.variance times))) as Hs.
  pose proof (sqrt_sqrt _ HvR) as Hsq.
  split; [exact Hv|]. split; [lra|]. split.
  - transitivity (1000000 * (sqrt (Q2R (Server.variance times))
                             * sqrt (Q2R (Server.variance times))))%R;
      [ring|now rewrite Hsq].
  - intros H1. destruct times as [|x [|y l]]; [congruence| |].
    + assert (Server.variance [x] == 0)%Q as H0.
      { unfold Server.variance, Py.sum_sq_dev, Py.sum. cbn. field. }
      rewrite (Qeq_eqR _ _ H0).
      replace (Q2R 0) with 0%R by (unfold Q2R; cbn; lra).
      rewrite sqrt_0. lra.
    + rewrite !len_cons in H1. pose proof (len_nonneg l). lia.
Qed.

Lemma report_std_dev_is_real_witness :
  exists ea,
    Server.endpoint_analysis_of 0 1 [30 # 1000]%Q = Some ea /\
    Py.root_val (Server.ea_std_dev_ms ea) = 0%R.
Proof.
  destruct (report_std_dev_is_real 0 1 [30 # 1000]%Q)
    as (ea & Hea & _ & _ & _ & H1).
  - discriminate.
  - reflexivity.
  - exists ea. split; [exact Hea|]. apply H1. reflexivity.
Defined.

(** ** The metrics and report answers, bucket by bucket *)

Lemma dict_set_fresh {A} (d : list (string * A)) k v :
  ~ In k (map fst d) -> Server.dict_set d k v = d ++ [(k, v)].
Proof.
  induction d as [|[k' v'] d IH]; cbn; intros Hk; [reflexivity|].
  destruct (String.eqb_spec k' k) as [->|Hne]; [tauto|].
  rewrite IH by tauto. reflexivity.
Qed.

(** On a dict without repeated keys and without empty buckets, [analyse]
    gives one entry per bucket, in the order of the buckets. *)
Lemma analyse_buckets {A} (f : list Q -> option A) d :
  forall acc,
    NoDup (map fst acc ++ map fst d) ->
    Forall (fun b => snd b <> []) d ->
    (forall b, In b d -> exists e, f (snd b) = Some e) ->
    exists res,
      Server.analyse f d acc = Some (acc ++ res) /\
      Forall2 (fun b r => fst r = fst b /\ f (snd b) = Some (snd r)) d res.
Proof.
  induction d as [|[ep times] d IH]; intros acc Hnd Hne Hf.
  - exists []. cbn. rewrite app_nil_r. split; [reflexivity|constructor].
  - inversion Hne as [|? ? Hb Hd]; subst. cbn in Hb.
    destruct (Hf (ep, times) (or_introl eq_refl)) as [e He]. cbn in He.
    cbn [Server.analyse]. destruct times as [|t times]; [congruence|].
    rewrite He.
    assert (~ In ep (map fst acc)) as Hfresh.
    { cbn in Hnd. apply NoDup_remove_2 in Hnd. intros H. apply Hnd.
      apply in_or_app. now left. }
    rewrite (dict_set_fresh acc ep e Hfresh).
    destruct (IH (acc ++ [(ep, e)])) as (res & Hres & Hall).
    + rewrite map_app, <- app_assoc. exact Hnd.
    + exact Hd.
    + intros b Hin. apply Hf. now right.
    + exists ((ep, e) :: res). rewrite <- app_assoc in Hres.
      split; [exact Hres|].
      constructor; [split; [reflexivity|exact He]|exact Hall].
Qed.

Lemma forall2_keys {B C} (R : string * C -> string * B -> Prop)
    (d : list (string * C)) (res : list (string * B)) :
  Forall2 (fun b r => fst r = fst b /\ R b r) d res ->
  map fst res = map fst d.
Proof.
  induction 1 as [|b r d res [Hk _] _ IH]; cbn; [reflexivity|].
  now rewrite Hk, IH.
Qed.

Lemma bucket_bound s ep times :
  Reach.well_formed s ->
  In (ep, times) (Server.response_times s) ->
  Py.len times <= Server.total_requests s /\
  Server.dict_get (Server.response_times s) ep [] = times.
Proof.
  intros (Hnd & _ & Htot & _) Hin.
  pose proof (dict_get_in _ _ _ Hnd Hin) as Hget.
  split; [|exact Hget]. rewrite Htot, <- Hget. apply bucket_le_count.
Qed.

(** X8.  In every store reached from the initial one (with fewer than
    [2^45] requests) the metrics handler answers 200 with exactly one entry
    per bucket: the endpoints of the entries are those of the buckets, each
    once.  The count of an entry is the length of its bucket and the counts
    add up to [total_requests].  With no sample at all the answer is still
    200, with no entry. *)
Theorem metrics_cover_every_bucket ops now :
  let s := Server.run ops Server.initial in
  Server.total_requests s < 2 ^ 45 ->
  exists mv,
    Server.get_scalability_metrics now s = (Server.BMetrics mv, 200) /\
    NoDup (map fst (Server.mv_endpoint_metrics mv)) /\
    Permutation (map fst (Server.mv_endpoint_metrics mv))
                (map fst (Server.response_times s)) /\
    (forall ep em,
        In (ep, em) (Server.mv_endpoint_metrics mv) ->
        Server.em_total_requests em
        = Py.len (Server.dict_get (Server.response_times s) ep [])) /\
    Reach.metrics_count (Server.mv_endpoint_metrics mv)
    = Server.mv_total_requests mv /\
    Server.mv_total_requests mv = Server.total_requests s /\
    Server.mv_failed_requests mv = Server.failed_requests s /\
    Server.mv_test_active mv = Server.test_active s.
Proof.
  intros s Hlen.
  pose proof (well_formed_run ops _ well_formed_initial) as Hwf. fold s in Hwf.
  destruct Hwf as (Hnd & Hne & Htot & Hf).
  assert (Reach.well_formed s) as Hwf by (repeat split; assumption || lia).
  assert (forall b, In b (Server.response_times s) ->
                    snd b <> [] /\ Py.len (snd b) < 2 ^ 45) as Hb.
  { intros [ep times] Hin. split.
    - rewrite Forall_forall in Hne. now apply Hne.
    - destruct (bucket_bound s ep times Hwf Hin) as [Hle _]. cbn. lia. }
  destruct (analyse_buckets Server.endpoint_metrics_of
              (Server.response_times s) []) as (res & Hres & Hall).
  { exact Hnd. }
  { exact Hne. }
  { intros b Hin. destruct (Hb b Hin) as [H1 H2].
    destruct (endpoint_metrics_of_some (snd b) H1 H2)
      as (? & ? & ? & ? & ? & _ & _ & _ & _ & _ & H). eauto. }
  cbn [app] in Hres. unfold Server.get_scalability_metrics. rewrite Hres.
  eexists. split; [reflexivity|].
  cbn [Server.mv_endpoint_metrics Server.mv_total_requests
       Server.mv_failed_requests Server.mv_test_active].
  assert (Forall2 (fun b r => fst r = fst b /\
                              Server.em_total_requests (snd r) = Py.len (snd b))
                  (Server.response_times s) res) as Hcount.
  { eapply Forall2_impl; [|exact Hall]. cbn.
    intros b r [Hk Hr]. split; [exact Hk|].
    assert (In b (Server.response_times s) -> True) by trivial.
    destruct (Server.endpoint_metrics_of (snd b)) eqn:E; [|discriminate].
    unfold Server.endpoint_metrics_of in E.
    destruct (Py.len (snd b) =? 0); [discriminate|].
    destruct (if 0 <? Py.len (snd b)
              then Py.getitem (Py.sorted (snd b)) (Py.len (snd b) / 2)
              else Some 0%Q); [|discriminate].
    destruct (Py.min (snd b)); [|discriminate].
    destruct (Py.max (snd b)); [|discriminate].
    destruct (Server.percentile PyFloat.m_095 (snd b)); [|discriminate].
    destruct (Server.percentile PyFloat.m_099 (snd b)); [|discriminate].
    injection E as <-. injection Hr as <-. reflexivity. }
  assert (map fst res = map fst (Server.response_times s)) as Hkeys.
  { apply (forall2_keys
             (fun b r => Server.em_total_requests (snd r) = Py.len (snd b))).
    exact Hcount. }
  split; [rewrite Hkeys; exact Hnd|].
  split; [rewrite Hkeys; apply Permutation_refl|].
  split.
  { intros ep em Hin.
    clear - Hcount Hin Hnd.
    revert Hnd. induction Hcount as [|[k l] [k' e] d res [Hk Hc] Hrest IH];
      intros Hnd; [destruct Hin|].
    cbn in Hk, Hc. subst k'. cbn in Hnd. inversion Hnd as [|? ? Hfresh Hnd'];
      subst. cbn [Server.dict_get].
    destruct Hin as [[= -> ->]|Hin].
    - now rewrite String.eqb_refl.
    - destruct (String.eqb_spec k ep) as [->|Hneq]; [|now apply IH].
      exfalso. apply Hfresh.
      assert (In ep (map fst res)) as H'
          by (change ep with (fst (ep, em)); now apply in_map).
      exact (eq_ind _ (fun l => In ep l) H' _ (forall2_keys _ _ _ Hrest)). }
  split; [|repeat split].
  rewrite Htot. unfold Server.sample_count, Reach.metrics_count.
  clear - Hcount. induction Hcount as [|[k l] [k' e] d res [_ Hc] _ IH];
    cbn [fold_right]; [reflexivity|].
  cbn in Hc. cbn [snd]. now rewrite Hc, IH.
Qed.

Lemma metrics_cover_every_bucket_witness :
  let s := Server.run [Server.Start Server.NoJson 1;
                       Server.Record "get_user" (1 # 10) 200;
                       Server.Record "students" (2 # 10) 500;
                       Server.Record "get_user" (3 # 10) 200]
                      Server.initial in
  exists mv,
    Server.get_scalability_metrics 2 s = (Server.BMetrics mv, 200) /\
    Permutation (map fst (Server.mv_endpoint_metrics mv))
                ["get_user"; "students"]%string /\
    Reach.metrics_count (Server.mv_endpoint_metrics mv) = 3.
Proof.
  intros s.
  destruct (metrics_cover_every_bucket
              [Server.Start Server.NoJson 1;
               Server.Record "get_user" (1 # 10) 200;
               Server.Record "students" (2 # 10) 500;
               Server.Record "get_user" (3 # 10) 200] 2)
    as (mv & Hmv & _ & Hkeys & _ & Hcount & Htot & _).
  - reflexivity.
  - exists mv. split; [exact Hmv|]. split; [exact Hkeys|].
    rewrite Hcount. exact Htot.
Defined.

Lemma endpoint_analysis_of_count failed elapsed times e :
  Server.endpoint_analysis_of failed elapsed times = Some e ->
  Server.ea_total_requests e = Py.len times.
Proof.
  unfold Server.endpoint_analysis_of.
  destruct (Py.len times =? 0); [discriminate|].
  destruct (Py.getitem (Py.sorted times) (Py.len times / 2)); [|discriminate].
  destruct (Py.min times); [|discriminate].
  destruct (Py.max times); [|discriminate].
  destruct (Server.percentile PyFloat.m_095 times); [|discriminate].
  destruct (Server.percentile PyFloat.m_099 times); [|discriminate].
  now intros [= <-].
Qed.

Lemma save_rows r f :
  Server._save_scalability_report r f
  = Some ((match f with None => [Server.Header] | Some old => old end)
          ++ map (Reach.row_of r) (Server.rp_endpoint_analysis r)).
Proof.
  unfold Server._save_scalability_report.
  assert (map (fun '(ep, m) =>
                 Server.Data (Server.rp_timestamp r) ep
                   (Server.ts_concurrent_users (Server.rp_test_summary r))
                   (Server.ea_total_requests m)
                   (Server.ts_failed_requests (Server.rp_test_summary r))
                   (Server.ts_success_rate (Server.rp_test_summary r))
                   (Server.ea_mean_response_time_ms m)
                   (Server.ea_median_response_time_ms m)
                   (Server.ea_p95_response_time_ms m)
                   (Server.ea_p99_response_time_ms m)
                   (Server.ea_throughput_rps m)
                   (Server.ea_error_rate m))
              (Server.rp_endpoint_analysis r)
          = map (Reach.row_of r) (Server.rp_endpoint_analysis r)) as ->.
  { apply map_ext. now intros [ep m]. }
  destruct f; reflexivity.
Qed.

(** X9.  In every store reached from the initial one with at least one and
    fewer than [2^45] requests, the report handler answers 200 with exactly
    one entry per bucket (the endpoints of the entries are those of the
    buckets, each once), whose counts are the bucket lengths and add up to
    the summary's [total_requests]; and it appends to the CSV file one data
    row per entry, in the order in which the endpoints were first seen, below
    what the file held (below a new header when there was no file). *)
Theorem report_covers_every_bucket ops timestamp now f :
  let s := Server.run ops Server.initial in
  0 < Server.total_requests s < 2 ^ 45 ->
  exists r rows,
    Server.generate_scalability_report timestamp now s f
    = ((Server.BReport r, 200),
       Some ((match f with None => [Server.Header] | Some old => old end)
             ++ map (Reach.row_of r) rows)) /\
    Permutation rows (Server.rp_endpoint_analysis r) /\
    map fst rows = map fst (Server.response_times s) /\
    NoDup (map fst (Server.rp_endpoint_analysis r)) /\
    Permutation (map fst (Server.rp_endpoint_analysis r))
                (map fst (Server.response_times s)) /\
    (forall ep e,
        In (ep, e) (Server.rp_endpoint_analysis r) ->
        Server.ea_total_requests e
        = Py.len (Server.dict_get (Server.response_times s) ep [])) /\
    Reach.report_count (Server.rp_endpoint_analysis r)
    = Server.ts_total_requests (Server.rp_test_summary r) /\
    Server.ts_total_requests (Server.rp_test_summary r)
    = Server.total_requests s /\
    Server.ts_failed_requests (Server.rp_test_summary r)
    = Server.failed_requests s /\
    Server.rp_timestamp r = timestamp.
Proof.
  intros s [Hpos Hlen].
  pose proof (well_formed_run ops _ well_formed_initial) as Hwf. fold s in Hwf.
  pose proof Hwf as (Hnd & Hne & Htot & Hf).
  assert (forall b, In b (Server.response_times s) ->
                    snd b <> [] /\ Py.len (snd b) < 2 ^ 45) as Hb.
  { intros [ep times] Hin. split.
    - rewrite Forall_forall in Hne. now apply Hne.
    - destruct (bucket_bound s ep times Hwf Hin) as [Hle _]. cbn. lia. }
  unfold Server.generate_scalability_report.
  destruct (Server.response_times s) as [|b0 d] eqn:Hd.
  { unfold Server.sample_count in Htot. rewrite Hd in Htot. cbn in Htot. lia. }
  rewrite <- Hd in *. cbn [Server.ts_elapsed_time].
  destruct (analyse_buckets
              (Server.endpoint_analysis_of (Server.failed_requests s)
                                           (Server.elapsed_time now s))
              (Server.response_times s) []) as (res & Hres & Hall).
  { exact Hnd. }
  { exact Hne. }
  { intros b Hin. destruct (Hb b Hin) as [H1 H2].
    destruct (endpoint_analysis_of_some (Server.failed_requests s)
                (Server.elapsed_time now s) (snd b) H1 H2)
      as (? & ? & ? & ? & ? & _ & _ & _ & _ & _ & H). eauto. }
  cbn [app] in Hres. rewrite Hres, save_rows.
  eexists. exists res. split; [reflexivity|].
  cbn [Server.rp_endpoint_analysis Server.rp_test_summary Server.rp_timestamp
       Server.ts_total_requests Server.ts_failed_requests].
  split; [apply Permutation_refl|].
  assert (Forall2 (fun b r => fst r = fst b /\
                              Server.ea_total_requests (snd r) = Py.len (snd b))
                  (Server.response_times s) res) as Hcount.
  { eapply Forall2_impl; [|exact Hall]. cbn.
    intros b r [Hk Hr]. split; [exact Hk|].
    eapply endpoint_analysis_of_count. exact Hr. }
  assert (map fst res = map fst (Server.response_times s)) as Hkeys.
  { apply (forall2_keys
             (fun b r => Server.ea_total_requests (snd r) = Py.len (snd b))).
    exact Hcount. }
  split; [exact Hkeys|].
  split; [rewrite Hkeys; exact Hnd|].
  split; [rewrite Hkeys; apply Permutation_refl|].
  split.
  { intros ep e Hin.
    clear - Hcount Hin Hnd.
    revert Hnd.
    induction Hcount as [|[k l] [k' e'] d res [Hk Hc] Hrest IH];
      intros Hnd; [destruct Hin|].
    cbn in Hk, Hc. subst k'. cbn in Hnd.
    inversion Hnd as [|? ? Hfresh Hnd']; subst. cbn [Server.dict_get].
    destruct Hin as [[= -> ->]|Hin].
    - now rewrite String.eqb_refl.
    - destruct (String.eqb_spec k ep) as [->|Hneq]; [|now apply IH].
      exfalso. apply Hfresh.
      assert (In ep (map fst res)) as H'
          by (change ep with (fst (ep, e)); now apply in_map).
      exact (eq_ind _ (fun l => In ep l) H' _ (forall2_keys _ _ _ Hrest)). }
  split; [|repeat split].
  rewrite Htot. unfold Server.sample_count, Reach.report_count.
  clear - Hcount. induction Hcount as [|[k l] [k' e] d res [_ Hc] _ IH];
    cbn [fold_right]; [reflexivity|].
  cbn in Hc. cbn [snd]. now rewrite Hc, IH.
Qed.

Lemma report_covers_every_bucket_witness :
  let s := Server.run [Server.Start Server.NoJson 1;
                       Server.Record "get_user" (1 # 10) 200;
                       Server.Record "students" (2 # 10) 500;
                       Server.Record "get_user" (3 # 10) 200]
                      Server.initial in
  exists r rows,
    Server.generate_scalability_report "t" 2 s (Some [Server.Header])
    = ((Server.BReport r, 200),
       Some ([Server.Header] ++ map (Reach.row_of r) rows)) /\
    map fst rows = ["get_user"; "students"]%string.
Proof.
  intros s.
  destruct (report_covers_every_bucket
              [Server.Start Server.NoJson 1;
               Server.Record "get_user" (1 # 10) 200;
               Server.Record "students" (2 # 10) 500;
               Server.Record "get_user" (3 # 10) 200] "t" 2
              (Some [Server.Header]))
    as (r & rows & Hr & _ & Hkeys & _).
  - split; reflexivity.
  - exists r, rows. split; [exact Hr|exact Hkeys].
Defined.

(** ** The CSV sink *)

Lemma report_file_step timestamp now s f :
  exists rows,
    forallb Reach.is_data rows = true /\
    (snd (Server.generate_scalability_report timestamp now s f) = f \/
     snd (Server.generate_scalability_report timestamp now s f)
     = Some ((match f with None => [Server.Header] | Some old => old end)
             ++ rows)).
Proof.
  unfold Server.generate_scalability_report.
  destruct (Server.response_times s) as [|b d];
    [exists []; split; [reflexivity|now left]|].
  destruct (Server.analyse _ (b :: d) []) as [ea|];
    [|exists []; split; [reflexivity|now left]].
  cbn [snd]. rewrite save_rows. cbn [Server.rp_endpoint_analysis].
  eexists. split; [|right; reflexivity].
  apply forallb_forall. intros row Hin. apply in_map_iff in Hin.
  destruct Hin as (x & <- & _). reflexivity.
Qed.

(** X10.  The CSV file only grows, whatever the stores and the outcomes of
    successive report requests: a file that existed keeps all its rows, in
    order, followed by data rows only; when there was no file, either there
    is still none or the file is one header followed by data rows only. *)
Theorem report_log_is_append_only calls :
  (forall old, exists rows,
      forallb Reach.is_data rows = true /\
      Sink.after_reports calls (Some old) = Some (old ++ rows)) /\
  (Sink.after_reports calls None = None \/
   exists rows,
     forallb Reach.is_data rows = true /\
     Sink.after_reports calls None = Some (Server.Header :: rows)).
Proof.
  assert (forall calls old, exists rows,
             forallb Reach.is_data rows = true /\
             Sink.after_reports calls (Some old) = Some (old ++ rows)) as Hsome.
  { clear. induction calls as [|[[ts now] s] calls IH]; intros old.
    - exists []. split; [reflexivity|]. cbn. now rewrite app_nil_r.
    - cbn [Sink.after_reports fold_left].
      destruct (report_file_step ts now s (Some old))
        as (rows & Hrows & [->| ->]).
      + apply IH.
      + destruct (IH (old ++ rows)) as (rows' & Hrows' & E).
        exists (rows ++ rows'). split.
        * rewrite forallb_app, Hrows, Hrows'. reflexivity.
        * unfold Sink.after_reports in E. rewrite E, <- app_assoc.
          reflexivity. }
  split; [apply Hsome|].
  induction calls as [|[[ts now] s] calls IH].
  - now left.
  - cbn [Sink.after_reports fold_left].
    destruct (report_file_step ts now s None) as (rows & Hrows & [->| ->]).
    + exact IH.
    + right. destruct (Hsome calls ([Server.Header] ++ rows))
        as (rows' & Hrows' & E).
      exists (rows ++ rows'). split.
      * rewrite forallb_app, Hrows, Hrows'. reflexivity.
      * unfold Sink.after_reports in E. rewrite E. reflexivity.
Qed.

(* ================================================================== *)
(** * Further properties of the load tester                            *)
(* ================================================================== *)

(** ** What the calls leave in the tester *)

Lemma after_calls_from calls :
  forall t,
    LoadTest.response_times (LoadTest.after_calls calls t)
    = LoadTest.response_times t ++ flat_map Workload.elapsed_of calls /\
    LoadTest.status_codes (LoadTest.after_calls calls t)
    = LoadTest.status_codes t ++ flat_map Workload.status_of calls /\
    LoadTest.errors (LoadTest.after_calls calls t)
    = LoadTest.errors t ++ flat_map Workload.error_of calls.
Proof.
  induction calls as [|c calls IH]; intros t.
  - cbn. now rewrite !app_nil_r.
  - cbn [LoadTest.after_calls fold_left flat_map].
    destruct (IH (snd (LoadTest.make_request (LoadTest.call_request_id c)
                         (LoadTest.call_outcome c) (LoadTest.call_elapsed c) t)))
      as (H1 & H2 & H3).
    unfold LoadTest.after_calls in H1, H2, H3. rewrite H1, H2, H3.
    unfold Workload.elapsed_of, Workload.status_of, Workload.error_of.
    destruct (LoadTest.call_outcome c) as [sc|e]; cbn.
    + destruct (400 <=? sc); rewrite <- !app_assoc; cbn;
        repeat split; try reflexivity; now rewrite app_nil_r.
    + rewrite <- !app_assoc. repeat split. 
Qed.

Lemma len_flat_map_cons {A B} (f : A -> list B) x l :
  Py.len (flat_map f (x :: l)) = Py.len (f x) + Py.len (flat_map f l).
Proof. cbn [flat_map]. apply len_app. Qed.

Lemma responses_and_failures calls :
  Py.len (flat_map Workload.elapsed_of calls)
  = Py.len (flat_map Workload.status_of calls) /\
  Py.len (flat_map Workload.status_of calls)
  + LoadTest.network_failures calls = Py.len calls.
Proof.
  unfold LoadTest.network_failures.
  induction calls as [|c calls [IH1 IH2]]; [split; reflexivity|].
  rewrite !len_flat_map_cons, len_cons. cbn [filter].
  assert (Py.len (Workload.elapsed_of c) = Py.len (Workload.status_of c) /\
          forall l : list LoadTest.call,
            Py.len (Workload.status_of c)
            + Py.len (if match LoadTest.call_outcome c with
                         | LoadTest.Response _ => false
                         | LoadTest.Raises _ => true
                         end then c :: l else l)
            = Py.len l + 1) as [Hc1 Hc2].
  { unfold Workload.elapsed_of, Workload.status_of.
    destruct (LoadTest.call_outcome c); split; try reflexivity;
      intros l; rewrite ?len_cons; unfold Py.len at 1; cbn [List.length]; lia. }
  split; [lia|].
  match goal with
  | |- context [if _ then c :: ?l else ?l] => specialize (Hc2 l)
  end.
  lia.
Qed.

(** X11.  After the users' calls, in whatever order they updated the
    tester: the response times and the status codes are those of the calls
    that got a response, in that order (so the two lists have one length),
    the errors are those of the calls that got a status of 400 or more or no
    response, and every call is either a collected response or a network
    failure. *)
Theorem tester_accounts_for_every_call calls :
  let t := LoadTest.after_calls calls LoadTest.init in
  LoadTest.response_times t = flat_map Workload.elapsed_of calls /\
  LoadTest.status_codes t = flat_map Workload.status_of calls /\
  LoadTest.errors t = flat_map Workload.error_of calls /\
  Py.len (LoadTest.response_times t) = Py.len (LoadTest.status_codes t) /\
  Py.len (LoadTest.response_times t) + LoadTest.network_failures calls
  = Py.len calls.
Proof.
  intros t. destruct (after_calls_from calls LoadTest.init) as (H1 & H2 & H3).
  fold t in H1, H2, H3. cbn [LoadTest.init LoadTest.response_times
    LoadTest.status_codes LoadTest.errors app] in H1, H2, H3.
  destruct (responses_and_failures calls) as [E1 E2].
  repeat split; try assumption; rewrite H1, ?H2; lia.
Qed.

(** ** The counts of the statistics *)

Lemma filter_split_len (l : list Z) :
  Py.len (filter (fun sc => sc <? 400) l)
  + Py.len (filter (fun sc => 400 <=? sc) l) = Py.len l.
Proof.
  induction l as [|x l IH]; [reflexivity|]. cbn [filter].
  destruct (x <? 400) eqn:H1, (400 <=? x) eqn:H2; rewrite ?len_cons; lia.
Qed.

Lemma fraction_bounds a b :
  0 <= a <= b -> 0 < b -> (0 <= inject_Z a / inject_Z b <= 1)%Q.
Proof.
  intros Ha Hb.
  assert (0 < inject_Z b)%Q as HbQ
      by (change 0%Q with (inject_Z 0); rewrite <- Zlt_Qlt; exact Hb).
  split.
  - apply Qle_shift_div_l; [exact HbQ|]. rewrite Qmult_0_l.
    change 0%Q with (inject_Z 0). rewrite <- Zle_Qle. lia.
  - apply Qle_shift_div_r; [exact HbQ|]. rewrite Qmult_1_l.
    rewrite <- Zle_Qle. lia.
Qed.

(** The count fields of the statistics of a run in which some call got a
    response. *)
Lemma run_test_counts calls total_time :
  flat_map Workload.elapsed_of calls <> [] ->
  Py.len calls < 2 ^ 45 ->
  exists st,
    LoadTest.run_test calls total_time = Some (Some st) /\
    LoadTest.total_requests st = Py.len (flat_map Workload.status_of calls) /\
    LoadTest.successful_requests st
    = Py.len (filter (fun sc => sc <? 400)
                     (flat_map Workload.status_of calls)) /\
    LoadTest.failed_requests st
    = Py.len (filter (fun sc => 400 <=? sc)
                     (flat_map Workload.status_of calls)) /\
    LoadTest.success_rate st
    = (inject_Z (LoadTest.successful_requests st)
       / inject_Z (LoadTest.total_requests st))%Q /\
    LoadTest.throughput_rps st
    = (if Qle_bool total_time 0 then 0
       else inject_Z (LoadTest.total_requests st) / total_time)%Q /\
    LoadTest.total_time_seconds st = total_time.
Proof.
  intros Hne Hlen.
  destruct (after_calls_from calls LoadTest.init) as (H1 & H2 & _).
  cbn [LoadTest.init LoadTest.response_times LoadTest.status_codes app]
    in H1, H2.
  destruct (responses_and_failures calls) as [E1 E2].
  assert (Py.len (flat_map Workload.elapsed_of calls) < 2 ^ 45) as Hb.
  { pose proof (len_nonneg (filter (fun c => match LoadTest.call_outcome c with
                                             | LoadTest.Raises _ => true
                                             | LoadTest.Response _ => false
                                             end) calls)).
    unfold LoadTest.network_failures in E2. lia. }
  destruct (calculate_statistics_some total_time
              (LoadTest.after_calls calls LoadTest.init) _ H1 Hne Hb)
    as (med & lo & hi & p95 & p99 & _ & _ & _ & _ & _ & Hst).
  unfold LoadTest.run_test. rewrite Hst. eexists. split; [reflexivity|].
  cbn [LoadTest.total_requests LoadTest.successful_requests
       LoadTest.failed_requests LoadTest.success_rate LoadTest.throughput_rps
       LoadTest.total_time_seconds].
  rewrite H2. pose proof (filter_split_len (flat_map Workload.status_of calls)).
  repeat split; try reflexivity; try lia.
Qed.

(** X12.  When some call got a response (and fewer than [2^45] calls were
    made), [run_test] returns statistics in which [total_requests] is the
    number of responses, [failed_requests] the number of responses with a
    status of 400 or more, the two counts of successes and failures add up
    to the total, the total plus the network failures is the number of calls,
    and the success rate is a fraction between 0 and 1. *)
Theorem statistics_count_responses calls total_time :
  flat_map Workload.elapsed_of calls <> [] ->
  Py.len calls < 2 ^ 45 ->
  exists st,
    LoadTest.run_test calls total_time = Some (Some st) /\
    LoadTest.total_requests st = Py.len (flat_map Workload.status_of calls) /\
    LoadTest.failed_requests st
    = Py.len (filter (fun sc => 400 <=? sc)
                     (flat_map Workload.status_of calls)) /\
    LoadTest.successful_requests st + LoadTest.failed_requests st
    = LoadTest.total_requests st /\
    LoadTest.total_requests st + LoadTest.network_failures calls
    = Py.len calls /\
    (0 <= LoadTest.success_rate st <= 1)%Q.
Proof.
  intros Hne Hlen.
  destruct (run_test_counts calls total_time Hne Hlen)
    as (st & Hst & Htot & Hok & Hko & Hrate & _).
  destruct (responses_and_failures calls) as [E1 E2].
  pose proof (filter_split_len (flat_map Workload.status_of calls)) as Hsplit.
  exists st. split; [exact Hst|]. split; [exact Htot|]. split; [exact Hko|].
  split; [lia|]. split; [lia|].
  rewrite Hrate. apply fraction_bounds.
  - rewrite Hok, Htot.
    pose proof (len_nonneg (filter (fun sc => sc <? 400)
                                   (flat_map Workload.status_of calls))).
    pose proof (len_nonneg (filter (fun sc => 400 <=? sc)
                                   (flat_map Workload.status_of calls))).
    lia.
  - rewrite Htot, <- E1. now apply len_pos.
Qed.

Lemma statistics_count_responses_witness :
  let calls :=
    [ {| LoadTest.call_request_id := 0;
         LoadTest.call_outcome := LoadTest.Response 200;
         LoadTest.call_elapsed := 1 # 10 |};
      {| LoadTest.call_request_id := 1;
         LoadTest.call_outcome := LoadTest.Response 503;
         LoadTest.call_elapsed := 2 # 10 |};
      {| LoadTest.call_request_id := 2;
         LoadTest.call_outcome := LoadTest.Raises "timeout";
         LoadTest.call_elapsed := 10 |} ] in
  exists st,
    LoadTest.run_test calls 1 = Some (Some st) /\
    LoadTest.total_requests st = 2 /\
    LoadTest.failed_requests st = 1.
Proof.
  intros calls.
  destruct (statistics_count_responses calls 1)
    as (st & Hst & Htot & Hko & _).
  - discriminate.
  - reflexivity.
  - exists st. split; [exact Hst|]. split; [exact Htot|exact Hko].
Defined.

(** ** Interleavings *)

Lemma perm_len_filter_flat_map {A B} (f : A -> list B) (p : B -> bool) l l' :
  Permutation l l' ->
  Py.len (filter p (flat_map f l)) = Py.len (filter p (flat_map f l')).
Proof.
  induction 1 as [|x l l' _ IH|x y l|l l' l'' _ IH1 _ IH2].
  - reflexivity.
  - cbn [flat_map]. rewrite !filter_app, !len_app. lia.
  - cbn [flat_map]. rewrite !filter_app, !len_app. lia.
  - lia.
Qed.

Lemma perm_len_flat_map {A B} (f : A -> list B) l l' :
  Permutation l l' -> Py.len (flat_map f l) = Py.len (flat_map f l').
Proof.
  intros H. pose proof (perm_len_filter_flat_map f (fun _ => true) l l' H) as E.
  assert (forall m : list B, filter (fun _ => true) m = m) as Hid
      by (induction m as [|b m IHm]; cbn; [reflexivity|now rewrite IHm]).
  now rewrite !Hid in E.
Qed.

(** X13.  The counts of the statistics do not depend on the order in which
    the threads' calls reached the tester: two schedules of the same calls
    give the same totals, success rate and throughput. *)
Theorem counts_do_not_depend_on_interleaving calls calls' total_time :
  Permutation calls calls' ->
  flat_map Workload.elapsed_of calls <> [] ->
  Py.len calls < 2 ^ 45 ->
  exists st st',
    LoadTest.run_test calls total_time = Some (Some st) /\
    LoadTest.run_test calls' total_time = Some (Some st') /\
    LoadTest.total_requests st' = LoadTest.total_requests st /\
    LoadTest.successful_requests st' = LoadTest.successful_requests st /\
    LoadTest.failed_requests st' = LoadTest.failed_requests st /\
    LoadTest.success_rate st' = LoadTest.success_rate st /\
    LoadTest.throughput_rps st' = LoadTest.throughput_rps st.
Proof.
  intros Hperm Hne Hlen.
  assert (flat_map Workload.elapsed_of calls' <> []) as Hne'.
  { intros H0. apply Hne. apply len_pos in Hne.
    rewrite (perm_len_flat_map Workload.elapsed_of _ _ Hperm), H0 in Hne.
    cbn in Hne. lia. }
  assert (Py.len calls' < 2 ^ 45) as Hlen'.
  { unfold Py.len in *. now rewrite <- (Permutation_length Hperm). }
  destruct (run_test_counts calls total_time Hne Hlen)
    as (st & Hst & Htot & Hok & Hko & Hrate & Hthr & _).
  destruct (run_test_counts calls' total_time Hne' Hlen')
    as (st' & Hst' & Htot' & Hok' & Hko' & Hrate' & Hthr' & _).
  exists st, st'. split; [exact Hst|]. split; [exact Hst'|].
  assert (LoadTest.total_requests st' = LoadTest.total_requests st) as Et
      by (rewrite Htot, Htot'; symmetry; now apply perm_len_flat_map).
  assert (LoadTest.successful_requests st' = LoadTest.successful_requests st)
    as Es by (rewrite Hok, Hok'; symmetry;
              now apply perm_len_filter_flat_map).
  assert (LoadTest.failed_requests st' = LoadTest.failed_requests st)
    as Ef by (rewrite Hko, Hko'; symmetry;
              now apply perm_len_filter_flat_map).
  repeat split; try assumption.
  - now rewrite Hrate, Hrate', Es, Et.
  - now rewrite Hthr, Hthr', Et.
Qed.

Lemma counts_do_not_depend_on_interleaving_witness :
  let a := {| LoadTest.call_request_id := 0;
              LoadTest.call_outcome := LoadTest.Response 200;
              LoadTest.call_elapsed := 1 # 10 |} in
  let b := {| LoadTest.call_request_id := 1;
              LoadTest.call_outcome := LoadTest.Response 503;
              LoadTest.call_elapsed := 2 # 10 |} in
  exists st st',
    LoadTest.run_test [a; b] 1 = Some (Some st) /\
    LoadTest.run_test [b; a] 1 = Some (Some st') /\
    LoadTest.failed_requests st' = LoadTest.failed_requests st.
Proof.
  intros a b.
  destruct (counts_do_not_depend_on_interleaving [a; b] [b; a] 1)
    as (st & st' & Hst & Hst' & _ & _ & Hko & _).
  - apply perm_swap.
  - discriminate.
  - reflexivity.
  - exists st, st'. split; [exact Hst|]. split; [exact Hst'|exact Hko].
Defined.

(** X14.  [run_test] returns [None] ("no data collected") exactly when no
    call got a response, that is when every call ended in a network
    failure (or no call was made). *)
Theorem run_test_none_iff_all_raise calls total_time :
  LoadTest.run_test calls total_time = None <->
  LoadTest.network_failures calls = Py.len calls.
Proof.
  destruct (after_calls_from calls LoadTest.init) as (H1 & _).
  cbn [LoadTest.init LoadTest.response_times app] in H1.
  destruct (responses_and_failures calls) as [E1 E2].
  unfold LoadTest.run_test, LoadTest.calculate_statistics. rewrite H1.
  destruct (flat_map Workload.elapsed_of calls) as [|x l] eqn:E.
  - split; [intros _|reflexivity]. cbn in E1. lia.
  - split; [discriminate|]. intros H. exfalso.
    rewrite len_cons in E1. pose proof (len_nonneg l). lia.
Qed.

(** ** The request ids of the simulated users *)

Lemma user_ids c r a n :
  map (fun i => Z.of_nat c * Z.of_nat r + i) (map Z.of_nat (seq a n))
  = map Z.of_nat (seq (c * r + a) n).
Proof.
  revert a. induction n as [|n IH]; intros a; cbn [seq map]; [reflexivity|].
  rewrite IH. f_equal; [lia|]. now rewrite Nat.add_succ_r.
Qed.

Lemma issued_nat c r :
  flat_map (fun u => map (fun i => u * Z.of_nat r + i)
                         (map Z.of_nat (seq 0 r)))
           (map Z.of_nat (seq 0 c))
  = map Z.of_nat (seq 0 (c * r)).
Proof.
  induction c as [|c IH]; [reflexivity|].
  rewrite seq_S, map_app, flat_map_app, IH. cbn [map flat_map Nat.add].
  rewrite app_nil_r, user_ids, Nat.add_0_r.
  rewrite <- map_app, <- seq_app. f_equal. f_equal. lia.
Qed.

Lemma range_nodup n : NoDup (Workload.range n).
Proof.
  unfold Workload.range.
  assert (forall l, NoDup l -> NoDup (map Z.of_nat l)) as H.
  { induction 1 as [|x l Hx Hl IH]; cbn; constructor; [|exact IH].
    intros Hin. apply in_map_iff in Hin. destruct Hin as (y & Hy & Hin).
    apply Nat2Z.inj in Hy. now subst y. }
  apply H, seq_NoDup.
Qed.

Lemma len_range n : 0 <= n -> Py.len (Workload.range n) = n.
Proof.
  intros Hn. unfold Py.len, Workload.range.
  rewrite length_map, length_seq. lia.
Qed.

(** X15.  For non-negative numbers of users and of requests per user, the
    request ids computed by the user threads are exactly
    [0, 1, ..., users * requests - 1], each once; so after any schedule in
    which each issued request is made once, the collected responses and the
    network failures add up to [users * requests], the total that [run_test]
    announces. *)
Theorem request_ids_are_dense concurrent_users requests_per_user :
  0 <= concurrent_users -> 0 <= requests_per_user ->
  Workload.issued concurrent_users requests_per_user
  = Workload.range (concurrent_users * requests_per_user) /\
  NoDup (Workload.issued concurrent_users requests_per_user) /\
  Py.len (Workload.issued concurrent_users requests_per_user)
  = concurrent_users * requests_per_user /\
  forall calls,
    Permutation (map LoadTest.call_request_id calls)
                (Workload.issued concurrent_users requests_per_user) ->
    Py.len (LoadTest.response_times
              (LoadTest.after_calls calls LoadTest.init))
    + LoadTest.network_failures calls
    = concurrent_users * requests_per_user.
Proof.
  intros HC HR.
  assert (Workload.issued concurrent_users requests_per_user
          = Workload.range (concurrent_users * requests_per_user)) as E.
  { unfold Workload.issued, Workload.user_simulation, Workload.range.
    rewrite Z2Nat.inj_mul by lia.
    rewrite <- issued_nat. rewrite Z2Nat.id by lia. reflexivity. }
  split; [exact E|]. rewrite E.
  split; [apply range_nodup|].
  assert (Py.len (Workload.range (concurrent_users * requests_per_user))
          = concurrent_users * requests_per_user) as Hlen
      by (apply len_range; lia).
  split; [exact Hlen|].
  intros calls Hperm.
  destruct (after_calls_from calls LoadTest.init) as (H1 & _).
  cbn [LoadTest.init LoadTest.response_times app] in H1.
  destruct (responses_and_failures calls) as [E1 E2].
  rewrite H1, E1, E2, <- Hlen. unfold Py.len.
  now rewrite <- (Permutation_length Hperm), length_map.
Qed.

Lemma request_ids_are_dense_witness :
  Workload.issued 3 2 = [0; 1; 2; 3; 4; 5] /\
  NoDup (Workload.issued 3 2).
Proof.
  destruct (request_ids_are_dense 3 2) as (E & Hnd & _); try lia.
  split; [exact E|exact Hnd].
Defined.

(** ** Order of the load tester's statistics *)

Lemma scale_le x y : (x <= y)%Q -> (x * 1000 <= y * 1000)%Q.
Proof. intros H. apply Qmult_le_compat_r; [exact H|discriminate]. Qed.

Lemma midpoint_bounds lo hi a b :
  (lo <= a <= hi)%Q -> (lo <= b <= hi)%Q -> (lo <= (a + b) / 2 <= hi)%Q.
Proof.
  intros [Ha1 Ha2] [Hb1 Hb2]. split.
  - apply Qle_shift_div_l; [reflexivity|].
    setoid_replace (lo * 2)%Q with (lo + lo)%Q by ring.
    now apply Qplus_le_compat.
  - apply Qle_shift_div_r; [reflexivity|].
    setoid_replace (hi * 2)%Q with (hi + hi)%Q by ring.
    now apply Qplus_le_compat.
Qed.

(** X16.  In the load tester's statistics of a non-empty list of response
    times (shorter than [2^45]): minimum and maximum bound the median (which
    may be interpolated), the mean and both percentiles, and
    [p95 <= p99]. *)
Theorem client_statistics_are_ordered total_time t :
  LoadTest.response_times t <> [] ->
  Py.len (LoadTest.response_times t) < 2 ^ 45 ->
  exists st,
    LoadTest.calculate_statistics total_time t = Some (Some st) /\
    (LoadTest.min_response_time_ms st <= LoadTest.median_response_time_ms st
     <= LoadTest.max_response_time_ms st)%Q /\
    (LoadTest.min_response_time_ms st <= LoadTest.mean_response_time_ms st
     <= LoadTest.max_response_time_ms st)%Q /\
    (LoadTest.min_response_time_ms st <= LoadTest.p95_response_time_ms st)%Q /\
    (LoadTest.p95_response_time_ms st <= LoadTest.p99_response_time_ms st)%Q /\
    (LoadTest.p99_response_time_ms st <= LoadTest.max_response_time_ms st)%Q.
Proof.
  intros Hne Hlen. set (times := LoadTest.response_times t) in *.
  destruct (calculate_statistics_some total_time t times eq_refl Hne Hlen)
    as (med & lo & hi & p95 & p99 & Hmed & Hlo & Hhi & H95 & H99 & Hst).
  destruct (min_spec _ _ Hlo) as [_ Hlo_le].
  destruct (max_spec _ _ Hhi) as [_ Hhi_le].
  assert (forall x, In x times -> (lo <= x <= hi)%Q) as Hall
      by (intros x Hx; split; [now apply Hlo_le|now apply Hhi_le]).
  destruct (percentile_rank _ 95 times int_mul_095)
    as (q95 & _ & Hc95 & Hn95); [lia|assumption..|].
  destruct (percentile_rank _ 99 times int_mul_099)
    as (q99 & _ & Hc99 & Hn99); [lia|assumption..|].
  assert (q95 = p95) as -> by congruence.
  assert (q99 = p99) as -> by congruence.
  destruct (statistics_median_some times Hne)
    as (med' & mid & Hmed' & Hmid & Hodd & Heven).
  assert (med' = med) as -> by congruence.
  assert (lo <= med <= hi)%Q as Hmedb.
  { pose proof (Z.mod_pos_bound (Py.len times) 2 ltac:(lia)) as Hmod.
    assert (Py.len times mod 2 = 1 \/ Py.len times mod 2 = 0) as [H|H] by lia.
    - rewrite (Hodd H). apply Hall. eapply sorted_nth_in; exact Hmid.
    - destruct (Heven H) as (below & Hbelow & ->).
      apply midpoint_bounds; apply Hall; eapply sorted_nth_in; eassumption. }
  pose proof (len_pos times Hne) as Hpos.
  assert (p95 <= p99)%Q as Hpp.
  { assert (95 * Py.len times / 100 <= 99 * Py.len times / 100)
      by (apply Z.div_le_mono; lia).
    assert (0 <= 95 * Py.len times / 100) by (apply Z.div_pos; lia).
    eapply (sorted_nth_le _ (sorted_sorted times)); [|exact Hn95|exact Hn99].
    lia. }
  eexists. split; [exact Hst|].
  cbn [LoadTest.min_response_time_ms LoadTest.median_response_time_ms
       LoadTest.max_response_time_ms LoadTest.mean_response_time_ms
       LoadTest.p95_response_time_ms LoadTest.p99_response_time_ms].
  destruct (mean_bounds times lo hi Hne Hall) as [Hm1 Hm2].
  destruct Hmedb as [Hd1 Hd2].
  destruct (Hall p95 (sorted_nth_in _ _ _ Hn95)) as [H951 _].
  destruct (Hall p99 (sorted_nth_in _ _ _ Hn99)) as [_ H992].
  repeat split; apply scale_le; assumption.
Qed.

Lemma client_statistics_are_ordered_witness :
  exists st,
    LoadTest.calculate_statistics 1
      {| LoadTest.response_times := [30 # 1000; 10 # 1000; 20 # 1000; 40 # 1000]%Q;
         LoadTest.status_codes := [200; 200; 200; 200];
         LoadTest.errors := [] |} = Some (Some st) /\
    (LoadTest.min_response_time_ms st <= LoadTest.median_response_time_ms st
     <= LoadTest.max_response_time_ms st)%Q.
Proof.
  destruct (client_statistics_are_ordered 1
              {| LoadTest.response_times :=
                   [30 # 1000; 10 # 1000; 20 # 1000; 40 # 1000]%Q;
                 LoadTest.status_codes := [200; 200; 200; 200];
                 LoadTest.errors := [] |})
    as (st & Hst & Hmed & _).
  - discriminate.
  - reflexivity.
  - exists st. split; [exact Hst|exact Hmed].
Defined.

(** ** The error listings *)

(** X17.  The report printed by [print_report] lists the first errors, at
    most five, and then says how many more there are, so that listed and
    remaining errors are all the errors; nothing is listed when there is no
    error, nor when there are no statistics.  The file written by
    [save_report] holds the first errors, at most a hundred, all of them when
    there are no more than a hundred. *)
Theorem error_listings_are_prefixes errors :
  Workload.print_report_errors None errors = None /\
  (forall st,
      match Workload.print_report_errors (Some st) errors with
      | None => errors = []
      | Some (n, lines) =>
          n = Py.len errors /\ 0 < n /\
          exists shown rest,
            errors = shown ++ rest /\
            Py.len shown = Z.min 5 n /\
            lines = map Workload.Shown shown
                    ++ (match rest with
                        | [] => []
                        | _ :: _ => [Workload.More (Py.len rest)]
                        end)
      end) /\
  (exists rest, errors = Workload.save_report_errors errors ++ rest) /\
  Py.len (Workload.save_report_errors errors) = Z.min 100 (Py.len errors) /\
  (Py.len errors <= 100 -> Workload.save_report_errors errors = errors).
Proof.
  split; [reflexivity|]. split; [|split; [|split]].
  - intros st. destruct errors as [|e errors]; [reflexivity|].
    set (l := e :: errors). cbn [Workload.print_report_errors].
    fold l. split; [reflexivity|].
    split; [apply len_pos; discriminate|].
    exists (firstn 5 l), (skipn 5 l).
    split; [symmetry; apply firstn_skipn|].
    assert (Py.len (firstn 5 l) = Z.min 5 (Py.len l)) as Hf
        by (unfold Py.len; rewrite length_firstn; lia).
    split; [exact Hf|]. f_equal.
    pose proof (firstn_skipn 5 l) as Hsplit.
    assert (Py.len l = Py.len (firstn 5 l) + Py.len (skipn 5 l)) as Hl
        by (rewrite <- len_app, Hsplit; reflexivity).
    destruct (5 <? Py.len l) eqn:H5.
    + apply Z.ltb_lt in H5.
      destruct (skipn 5 l) as [|x r] eqn:Hs.
      * assert (Py.len (@nil LoadTest.error_entry) = 0) as E0 by reflexivity.
        rewrite E0 in Hl. lia.
      * f_equal. f_equal. lia.
    + apply Z.ltb_ge in H5.
      destruct (skipn 5 l) as [|x r] eqn:Hs; [reflexivity|].
      rewrite len_cons in Hl. pose proof (len_nonneg r). lia.
  - exists (skipn 100 errors). symmetry. apply firstn_skipn.
  - unfold Workload.save_report_errors, Py.len. rewrite length_firstn. lia.
  - intros H. apply firstn_all2. unfold Py.len in H. lia.
Qed.

Lemma error_listings_are_prefixes_witness :
  Workload.save_report_errors
    [LoadTest.HttpError 0 500 1; LoadTest.NetworkError 1 "timeout" 10]
  = [LoadTest.HttpError 0 500 1; LoadTest.NetworkError 1 "timeout" 10].
Proof.
  apply (error_listings_are_prefixes
           [LoadTest.HttpError 0 500 1; LoadTest.NetworkError 1 "timeout" 10]).
  cbn. lia.
Defined.

(* ================================================================== *)
(** * Properties of the face-verification log                          *)
(* ================================================================== *)

Lemma string_append_nil_r (s : string) : (s ++ EmptyString)%string = s.
Proof. induction s as [|c s IH]; cbn; [reflexivity|now rewrite IH]. Qed.

Lemma string_append_assoc (s t u : string) :
  ((s ++ t) ++ u)%string = (s ++ (t ++ u))%string.
Proof. induction s as [|c s IH]; cbn; [reflexivity|now rewrite IH]. Qed.

Lemma header_nonempty : exists c t, FaceLog.header = String c t.
Proof. eexists _, _. reflexivity. Qed.

Lemma face_log_step {F} (format_3f : F -> string)
    (b : FaceLog.face_body F) now f :
  match FaceLog.entry_of format_3f (b, now) with
  | [] =>
      snd (FaceLog.log_face_verification format_3f b now f) = f /\
      400 <= snd (fst (FaceLog.log_face_verification format_3f b now f))
  | e :: _ =>
      FaceLog.entry_of format_3f (b, now) = [e] /\
      FaceLog.log_face_verification format_3f b now f
      = ((FaceLog.Logged, 200),
         Some (match f with
               | None => FaceLog.header
               | Some EmptyString => FaceLog.header
               | Some (String c t) => String c t
               end ++ e)%string)
  end.
Proof.
  unfold FaceLog.entry_of, FaceLog.log_face_verification.
  cbn [fst snd]. destruct b as [d|]; [|cbn; split; [reflexivity|lia]].
  destruct (String.length (FaceLog.registrationNumber d) =? 0)%nat;
    [cbn; split; [reflexivity|lia]|].
  destruct (FaceLog.timeSeconds d) as [[v|]|];
    try (cbn; split; [reflexivity|lia]).
  split; [reflexivity|]. destruct f as [[|c t]|]; reflexivity.
Qed.


Lemma after_requests_nonempty {F} (format_3f : F -> string)
    (reqs : list (FaceLog.face_body F * string)) :
  forall c t,
    FaceLog.after_requests format_3f reqs (Some (String c t))
    = Some (String c t
            ++ FaceLog.written (flat_map (FaceLog.entry_of format_3f) reqs))%string.
Proof.
  induction reqs as [|[b now] reqs IH]; intros c t.
  - cbn [FaceLog.after_requests fold_left flat_map FaceLog.written fold_right].
    now rewrite string_append_nil_r.
  - cbn [FaceLog.after_requests fold_left flat_map fst snd].
    pose proof (face_log_step format_3f b now (Some (String c t))) as H.
    destruct (FaceLog.entry_of format_3f (b, now)) as [|e es].
    + destruct H as [-> _]. apply IH.
    + destruct H as [[= ->] ->]. cbn [snd app].
      change (fold_left _ reqs ?f)
        with (FaceLog.after_requests format_3f reqs f).
      change (String c t ++ e)%string with (String c (t ++ e)%string).
      rewrite IH. cbn [FaceLog.written fold_right String.append].
      now rewrite string_append_assoc.
Qed.

Lemma after_requests_fresh {F} (format_3f : F -> string)
    (reqs : list (FaceLog.face_body F * string)) f :
  f = None \/ f = Some EmptyString ->
  FaceLog.after_requests format_3f reqs f
  = match flat_map (FaceLog.entry_of format_3f) reqs with
    | [] => f
    | _ :: _ =>
        Some (FaceLog.header
              ++ FaceLog.written
                   (flat_map (FaceLog.entry_of format_3f) reqs))%string
    end.
Proof.
  intros Hf. induction reqs as [|[b now] reqs IH]; [reflexivity|].
  cbn [FaceLog.after_requests fold_left flat_map fst snd].
  pose proof (face_log_step format_3f b now f) as H.
  destruct (FaceLog.entry_of format_3f (b, now)) as [|e es].
  - destruct H as [-> _]. exact IH.
  - destruct H as [[= ->] ->]. cbn [snd app].
    change (fold_left _ reqs ?f)
      with (FaceLog.after_requests format_3f reqs f).
    replace (match f with
             | None => FaceLog.header
             | Some EmptyString => FaceLog.header
             | Some (String c t) => String c t
             end) with FaceLog.header by (destruct Hf as [->| ->]; reflexivity).
    destruct header_nonempty as (c & t & Hh).
    assert (exists u, (FaceLog.header ++ e)%string = String c u) as [u Hu]
      by (rewrite Hh; eexists; reflexivity).
    rewrite Hu, after_requests_nonempty, <- Hu.
    cbn [FaceLog.written fold_right].
    now rewrite string_append_assoc.
Qed.


(** The texts written are not always lines: a registration number with a line
    break inside is written as it is, and the one write then ends two lines
    of the file. *)
Example face_log_write_may_span_lines :
  let reg := ("A" ++ FaceLog.newline ++ "B")%string in
  let d := {| FaceLog.registrationNumber := reg;
              FaceLog.timeSeconds := Some (Some 1);
              FaceLog.timestamp := Some "t"%string |} in
  snd (FaceLog.log_face_verification (fun _ : Z => "1.000"%string)
         (FaceLog.Object d) "now" (Some FaceLog.header))
  = Some (FaceLog.header ++ "A" ++ FaceLog.newline
          ++ "B,t,1.000" ++ FaceLog.newline)%string.
Proof. reflexivity. Qed.

(* ================================================================== *)
(** * Properties across handlers                                       *)
(* ================================================================== *)

(** X20.  A stop request is itself never recorded, and it seals the run:
    after it, whatever requests are handled short of an accepted start, the
    store is the one the stop found, with tracking off (samples, counters,
    target and start time as they were). *)
Theorem stop_seals_the_run reqs t_in t_handler t_out s :
  forallb (fun q => negb (Reach.accepted_start (fst q))) reqs = true ->
  Server.serve ((Server.PostStop, (t_in, t_handler, t_out)) :: reqs) s
  = Server.freeze s /\
  Server.response_times (Server.freeze s) = Server.response_times s /\
  Server.total_requests (Server.freeze s) = Server.total_requests s /\
  Server.failed_requests (Server.freeze s) = Server.failed_requests s.
Proof.
  intros Hreqs. split; [|repeat split].
  cbn [Server.serve fold_left].
  assert (Server.handle Server.PostStop t_in t_handler t_out s
          = Server.freeze s) as -> by reflexivity.
  induction reqs as [|[r [[t1 t2] t3]] reqs IH]; [reflexivity|].
  cbn [forallb fst] in Hreqs. apply Bool.andb_true_iff in Hreqs.
  destruct Hreqs as [Hr Hrs]. apply Bool.negb_true_iff in Hr.
  cbn [fold_left].
  rewrite (handle_inactive r t1 t2 t3 (Server.freeze s) eq_refl Hr).
  now apply IH.
Qed.

Lemma stop_seals_the_run_witness :
  let s := Server.run [Server.Start Server.NoJson 1;
                       Server.Record "get_user" (1 # 10) 200]
                      Server.initial in
  Server.serve
    [(Server.PostStop, (2, 3, 4)%Q);
     (Server.Other "get_user" 200, (5, 6, 7)%Q);
     (Server.Other "students" 500, (8, 9, 10)%Q)] s
  = Server.freeze s.
Proof.
  intros s.
  apply (stop_seals_the_run
           [(Server.Other "get_user" 200, (5, 6, 7)%Q);
            (Server.Other "students" 500, (8, 9, 10)%Q)] 2 3 4 s).
  reflexivity.
Defined.

(** X21.  The metrics handler and the report handler agree on a bucket: the
    report's entry has the count of the metrics' entry and its mean, median,
    minimum, maximum, p95 and p99 multiplied by 1000 (seconds to ms). *)
Theorem report_entry_is_metrics_entry_in_ms failed elapsed times :
  times <> [] -> Py.len times < 2 ^ 45 ->
  exists em ea,
    Server.endpoint_metrics_of times = Some em /\
    Server.endpoint_analysis_of failed elapsed times = Some ea /\
    Server.ea_total_requests ea = Server.em_total_requests em /\
    Server.ea_mean_response_time_ms ea
    = (Server.em_mean_response_time em * 1000)%Q /\
    Server.ea_median_response_time_ms ea
    = (Server.em_median_response_time em * 1000)%Q /\
    Server.ea_min_response_time_ms ea
    = (Server.em_min_response_time em * 1000)%Q /\
    Server.ea_max_response_time_ms ea
    = (Server.em_max_response_time em * 1000)%Q /\
    Server.ea_p95_response_time_ms ea
    = (Server.em_p95_response_time em * 1000)%Q /\
    Server.ea_p99_response_time_ms ea
    = (Server.em_p99_response_time em * 1000)%Q.
Proof.
  intros Hne Hlen.
  destruct (endpoint_metrics_of_some times Hne Hlen)
    as (med & lo & hi & p95 & p99 & Hmed & Hlo & Hhi & H95 & H99 & Hem).
  destruct (endpoint_analysis_of_some failed elapsed times Hne Hlen)
    as (med' & lo' & hi' & q95 & q99 & Hmed' & Hlo' & Hhi' & H95' & H99' & Hea).
  assert (med' = med) as -> by congruence.
  assert (lo' = lo) as -> by congruence.
  assert (hi' = hi) as -> by congruence.
  assert (q95 = p95) as -> by congruence.
  assert (q99 = p99) as -> by congruence.
  eexists. eexists. split; [exact Hem|]. split; [exact Hea|].
  cbn. repeat split.
Qed.

Lemma report_entry_is_metrics_entry_in_ms_witness :
  exists em ea,
    Server.endpoint_metrics_of [30 # 1000; 10 # 1000]%Q = Some em /\
    Server.endpoint_analysis_of 0 1 [30 # 1000; 10 # 1000]%Q = Some ea /\
    Server.ea_median_response_time_ms ea
    = (Server.em_median_response_time em * 1000)%Q.
Proof.
  destruct (report_entry_is_metrics_entry_in_ms 0 1
              [30 # 1000; 10 # 1000]%Q)
    as (em & ea & Hem & Hea & _ & _ & Hmed & _).
  - discriminate.
  - reflexivity.
  - exists em, ea. split; [exact Hem|]. split; [exact Hea|exact Hmed].
Defined.
